(** * The retrieval-augmented answer pipeline of [rag_flow.py]

    A shallow embedding of [check_if_game_related], [call_gpt_4o_mini],
    [preprocess_query], [search_weaviate], [save_searched_game_to_db],
    [generate_answer_from_game_info] and [get_answer], followed by the
    properties of the pipeline.

    Conventions.
    - Python [str] values are [string]s of ASCII characters.
    - A Python [dict] with string keys is a [gmap string _].
    - Code that can raise runs in the monad [M]: a computation maps the
      state of the world to an outcome ([Return v] or [Raise e]) and the
      new state.  As in Python, the effects of a computation that raises
      are kept.
    - The collaborators the code calls (the chat model, the sentence
      encoder, the vector store, the relational store, the wall clock) are
      oracles: what the [n]-th external call answers is a function of [n]
      and of the request, so no determinism across calls is assumed. *)

From Stdlib Require Import ZArith NArith Ascii String List Bool Lia DecimalString PrimFloat.
From stdpp Require Import base gmap strings list.

#[local] Open Scope string_scope.
#[local] Open Scope list_scope.
#[local] Open Scope Z_scope.

(** Let [simpl] compute a concatenation whose left operand is known. *)
#[local] Arguments String.append !_ _ : simpl nomatch.

(** ** Python string operations *)

Module PyStr.

(** [str.isspace] on one ASCII character: TAB..CR, FS..US and SPACE. *)
Definition isspace (c : ascii) : bool :=
  let n := N_of_ascii c in
  ((9 <=? n) && (n <=? 13) || (28 <=? n) && (n <=? 32))%N.

(** [str.lower] on one ASCII character. *)
Definition lower_char (c : ascii) : ascii :=
  let n := N_of_ascii c in
  if ((65 <=? n) && (n <=? 90))%N then ascii_of_N (n + 32) else c.

(** [s.lower()] *)
Fixpoint lower (s : string) : string :=
  match s with
  | EmptyString => EmptyString
  | String c s' => String (lower_char c) (lower s')
  end.

(** [s.lstrip()] *)
Fixpoint lstrip (s : string) : string :=
  match s with
  | EmptyString => EmptyString
  | String c s' => if isspace c then lstrip s' else s
  end.

(** [s.rstrip()] *)
Fixpoint rstrip (s : string) : string :=
  match s with
  | EmptyString => EmptyString
  | String c s' =>
      match rstrip s' with
      | EmptyString => if isspace c then EmptyString else String c EmptyString
      | r => String c r
      end
  end.

(** [s.strip()] *)
Definition strip (s : string) : string := rstrip (lstrip s).

(** [sub in s] *)
Fixpoint contains (sub s : string) : bool :=
  String.prefix sub s ||
  match s with
  | EmptyString => false
  | String _ s' => contains sub s'
  end.

(** Number of (possibly overlapping) occurrences of [sub] in [s]. *)
Fixpoint occurrences (sub s : string) : nat :=
  ((if String.prefix sub s then 1 else 0) +
   match s with
   | EmptyString => 0
   | String _ s' => occurrences sub s'
   end)%nat.

(** [s] has an occurrence of [sub] up to the case of ASCII letters. *)
Definition contains_ci (sub s : string) : Prop :=
  exists pre mid post, s = pre +:+ mid +:+ post /\ lower mid = lower sub.

End PyStr.

(** ** Python values that occur as attributes of a game record *)

Inductive py_value :=
| PNone
| PInt (n : Z)
| PStr (s : string).

#[global] Instance py_value_eq_dec : EqDecision py_value.
Proof. solve_decision. Defined.

(** [str(v)], as an f-string renders a value. *)
Definition py_str (v : py_value) : string :=
  match v with
  | PNone => "None"
  | PInt n => NilZero.string_of_int (Z.to_int n)
  | PStr s => s
  end.

(** Truth value of [v] in [if v:]. *)
Definition truthy (v : py_value) : bool :=
  match v with
  | PNone => false
  | PInt n => negb (n =? 0)
  | PStr s => negb (String.eqb s "")
  end.

(** A record of the vector store's [Game] class: a dict of attributes. *)
Abbreviation game_info := (gmap string py_value).

(** [d.get(key, dflt)] *)
Definition dict_get (d : game_info) (key : string) (dflt : py_value) : py_value :=
  default dflt (d !! key).

(** The attribute set of a GameRecord: the properties [search_weaviate]
    asks the store for. *)
Definition game_properties : list string :=
  [ "gameId"; "gameName"; "alternateNames"; "subcategory"; "level";
    "description"; "playersMax"; "ageRange"; "duration"; "equipmentNeeded";
    "objective"; "skillsDeveloped"; "setupTime"; "place";
    "physicalIntensityLevel"; "educationalBenefits"; "category" ].

(** The properties named in the query: the attributes and the store's id. *)
Definition query_properties : list string :=
  game_properties ++ [ "_additional { id }" ].

(** ** Exceptions and outcomes *)

(** An exception: [str(e)] and the text of [traceback.format_exc()]. *)
Record exn := { exn_str : string; exn_traceback : string }.

Inductive outcome (A : Type) :=
| Return (a : A)
| Raise (e : exn).
Arguments Return {A} a.
Arguments Raise {A} e.

(** What Python raises on [None.attr]. *)
Definition AttributeError (attr : string) : exn :=
  {| exn_str := "'NoneType' object has no attribute '" +:+ attr +:+ "'";
     exn_traceback := "AttributeError" |}.

(** ** The collaborators *)

(** The request of [openai.chat.completions.create]. *)
Record chat_request := {
  model : string;
  messages : list (string * string);   (* role, content *)
  max_tokens : Z;
  temperature : float
}.

(** Its response, as far as the code reads it:
    [response.choices[0].message.content], a string or [None]. *)
Definition chat_response := option string.

(** The query built on [client.query]. *)
Record get_query := {
  class_name : string;
  properties : list string;
  near_vector : list float;
  certainty : float;
  limit : Z
}.

(** The response of [.do()]: a dict in which each of the keys ['data'],
    ['Get'] and ['Game'] is absent, null, or present. *)
Inductive game_entry :=
| GameAbsent
| GameNull
| GameList (games : list game_info).

Inductive get_entry :=
| GetAbsent
| GetNull
| GetDict (g : game_entry).

Inductive data_entry :=
| DataAbsent
| DataNull
| DataDict (g : get_entry).

(** A [weaviate.Client]: what its [n]-th external call answers. *)
Record Client := { client_do : nat -> get_query -> outcome data_entry }.

Module Models.

(** A row of table [searched_games]. *)
Record SearchedGame := {
  game_id : py_value;
  game_name : py_value;
  subcategory : py_value;
  level : py_value;
  category : py_value;
  searched_time : Z
}.

End Models.

(** A SQLAlchemy session: when its round trips to the store fail.  Unique
    and not-null constraints of the table are failures of [commit_fault];
    the store itself appends whatever is committed. *)
Record Session := {
  query_fault : nat -> option exn;
  commit_fault : nat -> Models.SearchedGame -> option exn
}.

(** The module-level collaborators of [rag_flow.py]. *)
Record Env := {
  openai_create : nat -> chat_request -> outcome chat_response;
  query_model_encode : nat -> string -> outcome (list float);
  utcnow : nat -> Z
}.

(** ** The state of the world *)

(** The calls made, for counting them. *)
Inductive event :=
| CallCheck (question : string)
| CallGpt (prompt : string)
| CallPreprocess (question : string)
| CallSearch (question : string) (k : Z)
| CallSave (info : game_info)
| CallGenerate (info : game_info) (question : string)
| StError (msg : string).

Record State := {
  clock : nat;                                   (* external calls made so far *)
  trace : list event;                            (* oldest first *)
  searched_games : list Models.SearchedGame      (* the stored rows, oldest first *)
}.

(** ** The monad of computations that can raise *)

Definition M (A : Type) : Type := State -> outcome A * State.

Definition ret {A} (a : A) : M A := fun s => (Return a, s).

Definition raise {A} (e : exn) : M A := fun s => (Raise e, s).

Definition bind {A B} (c : M A) (k : A -> M B) : M B :=
  fun s =>
    match c s with
    | (Return a, s') => k a s'
    | (Raise e, s') => (Raise e, s')
    end.

(** [try: body except Exception as e: handler] *)
Definition try_except {A} (body : M A) (handler : exn -> M A) : M A :=
  fun s =>
    match body s with
    | (Return a, s') => (Return a, s')
    | (Raise e, s') => handler e s'
    end.

Declare Scope py_scope.
Delimit Scope py_scope with py.
Notation "x <- c ;; k" := (bind c (fun x => k))
  (at level 100, c at next level, right associativity) : py_scope.
Notation "c ;; k" := (bind c (fun _ => k))
  (at level 100, right associativity) : py_scope.
#[local] Open Scope py_scope.

Definition emit (ev : event) : M unit :=
  fun s => (Return tt, {| clock := clock s; trace := trace s ++ [ev];
                          searched_games := searched_games s |}).

(** The index of the next external call. *)
Definition tick : M nat :=
  fun s => (Return (clock s), {| clock := S (clock s); trace := trace s;
                                 searched_games := searched_games s |}).

(** One call of a collaborator. *)
Definition external {A} (oracle : nat -> outcome A) : M A :=
  n <- tick ;; fun s => (oracle n, s).

(** [st.error(msg)] *)
Definition st_error (msg : string) : M unit := emit (StError msg).

(** [session.query(SearchedGame).filter_by(game_id=gid).first()] *)
Definition query_first (session_db : Session) (gid : py_value)
  : M (option Models.SearchedGame) :=
  n <- tick ;;
  match query_fault session_db n with
  | Some e => raise e
  | None =>
      fun s => (Return (List.find (fun r => bool_decide (Models.game_id r = gid))
                                  (searched_games s)), s)
  end.

(** [session.add(row); session.commit()] *)
Definition add_commit (session_db : Session) (row : Models.SearchedGame) : M unit :=
  n <- tick ;;
  match commit_fault session_db n row with
  | Some e => raise e
  | None =>
      fun s => (Return tt, {| clock := clock s; trace := trace s;
                              searched_games := searched_games s ++ [row] |})
  end.

(** ** Text of the prompts *)

Definition nl : string := String "010"%char EmptyString.
Definition dquote : string := String "034"%char EmptyString.

(** The lines of a triple-quoted literal, each closed by a newline. *)
Fixpoint lines (ls : list string) : string :=
  match ls with
  | [] => EmptyString
  | l :: ls' => l +:+ nl +:+ lines ls'
  end.

(** The arguments of [openai.chat.completions.create] in
    [call_gpt_4o_mini]. *)
Definition gpt_request (prompt : string) : chat_request :=
  {| model := "gpt-4o-mini";
     messages := [("user", prompt)];
     max_tokens := 500;
     temperature := 0%float |}.

(** The query of [search_weaviate]:
    [.get("Game", [...]).with_near_vector({...}).with_limit(k)]. *)
Definition game_query (query_vector : list float) (k : Z) : get_query :=
  {| class_name := "Game";
     properties := query_properties;
     near_vector := query_vector;
     certainty := 0x1.6666666666666p-1%float;   (* 0.7 *)
     limit := k |}.

(** ** rag_flow.py *)

Section RagFlow.

Variable env : Env.

Import PyStr.

(** The two [st.error] calls of every handler. *)
Definition report (what : string) (e : exn) : M unit :=
  st_error (what +:+ exn_str e) ;;
  st_error (exn_traceback e).

Definition call_gpt_4o_mini (prompt : string) : M string :=
  emit (CallGpt prompt) ;;
  try_except
    (response <- external (fun n => openai_create env n (gpt_request prompt)) ;;
     match response with
     | Some content => ret (strip content)
     | None => raise (AttributeError "strip")
     end)
    (fun e =>
       report "🚨 OpenAI API Request Error: " e ;;
       ret "No").

Definition check_prompt (question : string) : string :=
  "Determine if the following question is related to games. Answer with 'Yes' or 'No'."
  +:+ nl +:+ nl +:+ "Question: " +:+ dquote +:+ question +:+ dquote.

Definition check_if_game_related (question : string) : M bool :=
  emit (CallCheck question) ;;
  let prompt := check_prompt question in
  try_except
    (response <- call_gpt_4o_mini prompt ;;
     ret (contains "yes" (lower response)))
    (fun e =>
       report "🚨 Error calling GPT-4o-mini: " e ;;
       ret false).

Definition preprocess_prompt (question : string) : string :=
  lines
    [ "";
      "Please rewrite the following question by applying the following query rewriting techniques:";
      "";
      "1. Correct any spelling mistakes.";
      "2. Simplify the question to be more straightforward and easily understandable.";
      "3. Replace words with synonyms where appropriate to broaden the search results.";
      "4. Handle any negative queries correctly by rephrasing them to reflect the true intent.";
      "5. Paraphrase the question while maintaining its original meaning.";
      "";
      "Original Question: " +:+ dquote +:+ question +:+ dquote;
      "";
      "Rewritten Question:" ].

Definition preprocess_query (question : string) : M string :=
  emit (CallPreprocess question) ;;
  let prompt := preprocess_prompt question in
  try_except
    (rewritten_question <- call_gpt_4o_mini prompt ;;
     ret (strip rewritten_question))
    (fun e =>
       report "🚨 Error preprocessing query with GPT-4o-mini: " e ;;
       ret question).

(** What [search_weaviate] returns: a list, or [None] when the store
    answers [null] for ['Game']. *)
Definition search_results := option (list game_info).

(** [response.get('data', {}).get('Get', {}).get('Game', [])] *)
Definition extract_games (response : data_entry) : M search_results :=
  match response with
  | DataAbsent => ret (Some [])
  | DataNull => raise (AttributeError "get")
  | DataDict GetAbsent => ret (Some [])
  | DataDict GetNull => raise (AttributeError "get")
  | DataDict (GetDict GameAbsent) => ret (Some [])
  | DataDict (GetDict GameNull) => ret None
  | DataDict (GetDict (GameList games)) => ret (Some games)
  end.

Definition search_weaviate (question : string) (client : option Client) (k : Z)
  : M search_results :=
  emit (CallSearch question k) ;;
  try_except
    (query_vector <- external (fun n => query_model_encode env n question) ;;
     response <-
       match client with
       | None => raise (AttributeError "query")
       | Some c =>
           external (fun n => client_do c n (game_query query_vector k))
       end ;;
     extract_games response)
    (fun e =>
       report "🚨 Error searching Weaviate: " e ;;
       ret (Some [])).

Definition save_searched_game_to_db (session_db : Session) (info : game_info)
  : M unit :=
  emit (CallSave info) ;;
  try_except
    (let game_id := dict_get info "gameId" PNone in
     if truthy game_id then
       existing_game <- query_first session_db game_id ;;
       match existing_game with
       | Some _ => ret tt
       | None =>
           now <- external (fun n => Return (utcnow env n)) ;;
           let searched_game :=
             {| Models.game_id := game_id;
                Models.game_name := dict_get info "gameName" PNone;
                Models.subcategory := dict_get info "subcategory" PNone;
                Models.level := dict_get info "level" PNone;
                Models.category := dict_get info "category" PNone;
                Models.searched_time := now |} in
           add_commit session_db searched_game
       end
     else ret tt)
    (fun e => report "🚨 Error saving searched game to DB: " e).

(** One [Label: {info.get(key, dflt)}] line of the generation prompt. *)
Definition field_line (info : game_info) (label key dflt : string) : string :=
  label +:+ ": " +:+ py_str (dict_get info key (PStr dflt)).

Definition generate_prompt (info : game_info) (question : string) : string :=
  let game_description := dict_get info "description" (PStr "No description available.") in
  let game_name := dict_get info "gameName" (PStr "Unknown Game") in
  lines
    [ "";
      "You are a game instructor assistant. Use the following game information to answer the user's question.";
      "";
      "Game Name: " +:+ py_str game_name;
      "Description: " +:+ py_str game_description;
      field_line info "Alternate Names" "alternateNames" "N/A";
      field_line info "Subcategory" "subcategory" "N/A";
      field_line info "Level" "level" "N/A";
      field_line info "Players Max" "playersMax" "N/A";
      field_line info "Age Range" "ageRange" "N/A";
      field_line info "Duration" "duration" "N/A";
      field_line info "Equipment Needed" "equipmentNeeded" "N/A";
      field_line info "Objective" "objective" "N/A";
      field_line info "Skills Developed" "skillsDeveloped" "N/A";
      field_line info "Setup Time" "setupTime" "N/A";
      field_line info "Place" "place" "N/A";
      field_line info "Physical Intensity Level" "physicalIntensityLevel" "N/A";
      field_line info "Educational Benefits" "educationalBenefits" "N/A";
      field_line info "Category" "category" "N/A";
      "";
      "User's Question: " +:+ question;
      "";
      "Answer:" ].

Definition apology : string :=
  "Sorry, I couldn't generate an answer at this time.".

Definition generate_answer_from_game_info (info : game_info) (question : string)
  : M string :=
  emit (CallGenerate info question) ;;
  let prompt := generate_prompt info question in
  try_except
    (response <- call_gpt_4o_mini prompt ;;
     ret response)
    (fun e =>
       report "🚨 Error generating answer with GPT-4o-mini: " e ;;
       ret apology).

(** One entry of ['answers']. *)
Record Answer := {
  game_name : py_value;
  answer : string;
  game_id : py_value;
  subcategory : py_value;
  level : py_value;
  category : py_value
}.

(** The dict [get_answer] returns; a key the dict lacks is [None]. *)
Record AnswerResult := {
  is_related : bool;
  message : option string;
  answers : option (list Answer);
  rewritten_question : string
}.

Definition not_related_message : string :=
  "Your question does not appear to be related to games. Please ask a game-related question.".

Definition no_match_message : string :=
  "I couldn't find any games matching your question. Please try rephrasing or ask about another game.".

(** [for result in results: ...] of [get_answer], from the answers
    collected so far. *)
Fixpoint answer_loop (session_db : Session) (preprocessed_question : string)
    (results : list game_info) (answers : list Answer) : M (list Answer) :=
  match results with
  | [] => ret answers
  | result :: rest =>
      let game_id := dict_get result "gameId" PNone in
      answer_text <- generate_answer_from_game_info result preprocessed_question ;;
      let answer :=
        {| game_name := dict_get result "gameName" (PStr "Unknown Game");
           answer := answer_text;
           game_id := game_id;
           subcategory := dict_get result "subcategory" PNone;
           level := dict_get result "level" PNone;
           category := dict_get result "category" PNone |} in
      save_searched_game_to_db session_db result ;;
      answer_loop session_db preprocessed_question rest (answers ++ [answer])
  end.

(** [if results:] *)
Definition nonempty_results (results : search_results) : option (list game_info) :=
  match results with
  | Some (r :: rs) => Some (r :: rs)
  | _ => None
  end.

Definition get_answer (question : string) (user_id : Z) (session_db : Session)
    (k : Z) (hybrid : bool) (weaviate_client : option Client) : M AnswerResult :=
  preprocessed_question <- preprocess_query question ;;
  is_related_original <- check_if_game_related question ;;
  is_related_rewritten <- check_if_game_related preprocessed_question ;;
  let is_related := is_related_original || is_related_rewritten in
  if negb is_related then
    ret {| is_related := false;
           message := Some not_related_message;
           answers := None;
           rewritten_question := preprocessed_question |}
  else
    results <- search_weaviate preprocessed_question weaviate_client k ;;
    match nonempty_results results with
    | Some results =>
        answers <- answer_loop session_db preprocessed_question results [] ;;
        ret {| is_related := true;
               message := None;
               answers := Some answers;
               rewritten_question := preprocessed_question |}
    | None =>
        ret {| is_related := true;
               message := Some no_match_message;
               answers := None;
               rewritten_question := preprocessed_question |}
    end.

End RagFlow.

(** ** Reading the trace and the store *)

(** What the chat model's answer becomes in [call_gpt_4o_mini]. *)
Definition gpt_reply (o : outcome chat_response) : string :=
  match o with
  | Return (Some content) => PyStr.strip content
  | Return None => "No"
  | Raise _ => "No"
  end.

(** The arguments of the [search_weaviate] calls in a trace, in order. *)
Definition search_calls (t : list event) : list (string * Z) :=
  omap (fun ev => match ev with CallSearch q k => Some (q, k) | _ => None end) t.

(** The arguments of the [preprocess_query] calls in a trace, in order. *)
Definition preprocess_calls (t : list event) : list string :=
  omap (fun ev => match ev with CallPreprocess q => Some q | _ => None end) t.

(** The arguments of the [check_if_game_related] calls in a trace, in order. *)
Definition check_calls (t : list event) : list string :=
  omap (fun ev => match ev with CallCheck q => Some q | _ => None end) t.

(** The arguments of the [generate_answer_from_game_info] calls in a trace. *)
Definition generate_calls (t : list event) : list (game_info * string) :=
  omap (fun ev => match ev with CallGenerate i q => Some (i, q) | _ => None end) t.

(** How many stored rows have key [gid]. *)
Definition stored (gid : py_value) (rows : list Models.SearchedGame) : nat :=
  length (filter (fun r => Models.game_id r = gid) rows).

(** [save_searched_game_to_db] called once per record of [infos], in order. *)
Fixpoint save_each (env : Env) (session_db : Session) (infos : list game_info)
  : M unit :=
  match infos with
  | [] => ret tt
  | info :: rest =>
      save_searched_game_to_db env session_db info ;;
      save_each env session_db rest
  end.

(** The embedding or the vector-store call of a search made as external
    call [n] raises. *)
Definition search_collaborator_fails (env : Env) (client : option Client)
    (question : string) (k : Z) (n : nat) : Prop :=
  match query_model_encode env n question with
  | Raise _ => True
  | Return query_vector =>
      match client with
      | None => False
      | Some c =>
          match client_do c (S n) (game_query query_vector k) with
          | Raise _ => True
          | Return _ => False
          end
      end
  end.

(** The attribute lines of the generation prompt: label, key and the text
    printed for a key the record lacks. *)
Definition prompt_fields : list (string * string * string) :=
  [ ("Game Name", "gameName", "Unknown Game");
    ("Description", "description", "No description available.");
    ("Alternate Names", "alternateNames", "N/A");
    ("Subcategory", "subcategory", "N/A");
    ("Level", "level", "N/A");
    ("Players Max", "playersMax", "N/A");
    ("Age Range", "ageRange", "N/A");
    ("Duration", "duration", "N/A");
    ("Equipment Needed", "equipmentNeeded", "N/A");
    ("Objective", "objective", "N/A");
    ("Skills Developed", "skillsDeveloped", "N/A");
    ("Setup Time", "setupTime", "N/A");
    ("Place", "place", "N/A");
    ("Physical Intensity Level", "physicalIntensityLevel", "N/A");
    ("Educational Benefits", "educationalBenefits", "N/A");
    ("Category", "category", "N/A") ].

(** The three dicts [get_answer] can return. *)
Definition NotRelated (rewritten : string) : AnswerResult :=
  {| is_related := false; message := Some not_related_message;
     answers := None; rewritten_question := rewritten |}.

Definition RelatedNoMatch (rewritten : string) : AnswerResult :=
  {| is_related := true; message := Some no_match_message;
     answers := None; rewritten_question := rewritten |}.

Definition RelatedWithAnswers (ans : list Answer) (rewritten : string) : AnswerResult :=
  {| is_related := true; message := None;
     answers := Some ans; rewritten_question := rewritten |}.

(** ** Scenarios *)

(** A failure of a collaborator. *)
Definition connection_error : exn :=
  {| exn_str := "Connection error.";
     exn_traceback := "Traceback (most recent call last): APIConnectionError" |}.

(** A chat model that rewrites, says Yes twice, then answers; its calls
    numbered in [fails] raise instead. *)
Definition scripted_env (fails : list nat) : Env :=
  {| openai_create := fun n _ =>
       if bool_decide (n ∈ fails) then Raise connection_error
       else match n with
            | 0%nat => Return (Some " What are the rules of chess? ")
            | 1%nat | 2%nat => Return (Some "Yes")
            | _ => Return (Some "Chess is played on an 8x8 board...")
            end;
     query_model_encode := fun _ _ => Return [0x1p-1%float; 0x1p-2%float];
     utcnow := fun n => 1700000000 + Z.of_nat n |}.

Definition chess : game_info :=
  {[ "gameId" := PStr "G1"; "gameName" := PStr "Chess";
     "description" := PStr "A board game for two."; "playersMax" := PInt 2 ]}.

Definition checkers : game_info :=
  {[ "gameId" := PStr "G2"; "gameName" := PStr "Checkers" ]}.

(** A vector store that returns [games]. *)
Definition store_with (games : list game_info) : Client :=
  {| client_do := fun _ _ => Return (DataDict (GetDict (GameList games))) |}.

(** A vector store that is down. *)
Definition store_down : Client :=
  {| client_do := fun _ _ => Raise connection_error |}.

(** A session whose round trips succeed. *)
Definition healthy_session : Session :=
  {| query_fault := fun _ => None; commit_fault := fun _ _ => None |}.

(** Nothing called, nothing stored. *)
Definition initial : State :=
  {| clock := 0; trace := []; searched_games := [] |}.

(** A record with every attribute, and the same without its name and
    without its description. *)
Definition full_chess : game_info :=
  list_to_map
    [ ("gameId", PStr "G1"); ("gameName", PStr "Chess");
      ("alternateNames", PStr "Shatranj"); ("subcategory", PStr "Strategy");
      ("level", PStr "Intermediate");
      ("description", PStr "A board game for two.");
      ("playersMax", PInt 2); ("ageRange", PStr "6+"); ("duration", PInt 30);
      ("equipmentNeeded", PStr "Board and pieces");
      ("objective", PStr "Checkmate the king");
      ("skillsDeveloped", PStr "Planning"); ("setupTime", PInt 2);
      ("place", PStr "Indoor"); ("physicalIntensityLevel", PStr "Low");
      ("educationalBenefits", PStr "Logic"); ("category", PStr "Board") ].

Definition nameless_chess : game_info := delete "gameName" full_chess.

Definition undescribed_chess : game_info := delete "description" full_chess.

(** The reading of "the prompt serializes every attribute, a missing one
    as N/A": the text of each attribute, or "N/A" for one the record
    lacks, occurs in the prompt. *)
Definition every_attribute_serialized : Prop :=
  forall (info : game_info) (question key : string),
    key ∈ game_properties ->
    PyStr.contains (py_str (dict_get info key (PStr "N/A")))
      (generate_prompt info question) = true.

(** ** More readings of a run *)

(** The prompts of the [call_gpt_4o_mini] calls in a trace, in order. *)
Definition gpt_calls (t : list event) : list string :=
  omap (fun ev => match ev with CallGpt p => Some p | _ => None end) t.

(** The messages shown by [st.error] in a trace, in order. *)
Definition errors_shown (t : list event) : list string :=
  omap (fun ev => match ev with StError msg => Some msg | _ => None end) t.

(** The dict [get_answer] appends to ['answers'] for one search result. *)
Definition answer_of (result : game_info) (answer_text : string) : Answer :=
  {| game_name := dict_get result "gameName" (PStr "Unknown Game");
     answer := answer_text;
     game_id := dict_get result "gameId" PNone;
     subcategory := dict_get result "subcategory" PNone;
     level := dict_get result "level" PNone;
     category := dict_get result "category" PNone |}.

(** The row [save_searched_game_to_db] builds for a record. *)
Definition searched_game_of (info : game_info) (now : Z) : Models.SearchedGame :=
  {| Models.game_id := dict_get info "gameId" PNone;
     Models.game_name := dict_get info "gameName" PNone;
     Models.subcategory := dict_get info "subcategory" PNone;
     Models.level := dict_get info "level" PNone;
     Models.category := dict_get info "category" PNone;
     Models.searched_time := now |}.

(** The keys of the stored rows. *)
Definition stored_keys (rows : list Models.SearchedGame) : list py_value :=
  map Models.game_id rows.

(** A string that neither starts nor ends with whitespace. *)
Definition trimmed (s : string) : Prop := PyStr.strip s = s.

(** The first character of a string, if any, is not whitespace. *)
Definition starts_clean (s : string) : Prop :=
  match s with
  | EmptyString => True
  | String c _ => PyStr.isspace c = false
  end.

(** ** app.py: validation of the registration form *)

(** The dict built from the registration form. *)
Record user_info := {
  userName : string;
  gender : string;
  age : Z
}.

(** A character of the class [[A-Za-z0-9]]. *)
Definition is_alnum (c : ascii) : bool :=
  let n := N_of_ascii c in
  ((48 <=? n) && (n <=? 57) || (65 <=? n) && (n <=? 90)
   || (97 <=? n) && (n <=? 122))%N.

(** [[A-Za-z0-9]*$] from the current position: letters and digits up to
    the end of the string, or up to a newline that ends the string. *)
Fixpoint alnum_to_end (s : string) : bool :=
  match s with
  | EmptyString => true
  | String c EmptyString => is_alnum c || Ascii.eqb c "010"
  | String c rest => is_alnum c && alnum_to_end rest
  end.

(** [re.match("^[A-Za-z0-9]+$", s)] finds a match. *)
Definition username_matches (s : string) : bool :=
  match s with
  | EmptyString => false
  | String c rest => is_alnum c && alnum_to_end rest
  end.

Definition gender_options : list string :=
  [ "Male"; "Female"; "Other"; "Prefer not to say" ].

Definition error_name_empty : string := "🔴 **User Name** cannot be empty.".
Definition error_name_symbols : string :=
  "🔴 **User Name** can only contain letters and numbers (no spaces or symbols).".
Definition error_gender : string := "🔴 **Gender** must be selected.".
Definition error_age : string := "🔴 **Age** must be between 1 and 120.".

Definition validate_user_info (u : user_info) : list string :=
  let errors := [] in
  let errors :=
    if negb (negb (String.eqb (PyStr.strip (userName u)) "")) then
      errors ++ [error_name_empty]
    else if negb (username_matches (userName u)) then
      errors ++ [error_name_symbols]
    else errors in
  let errors :=
    if negb (bool_decide (gender u ∈ gender_options)) then errors ++ [error_gender]
    else errors in
  let errors :=
    if negb ((1 <=? age u) && (age u <=? 120)) then errors ++ [error_age]
    else errors in
  errors.

(** Every character is a letter or a digit. *)
Fixpoint all_alnum (s : string) : bool :=
  match s with
  | EmptyString => true
  | String c rest => is_alnum c && all_alnum rest
  end.

(** ** app.py: session state, tables and the functions on them *)

(** The other tables of [models.py]. *)
Module Feedback.
Record row := {
  feedback_id : Z;           (* autoincrement *)
  user_id : Z;
  feedback_type : string;
  feedback_time : Z
}.
End Feedback.

Module ChatHistory.
Record row := {
  chat_id : Z;               (* autoincrement *)
  user_id : Z;
  question : string;
  answer : string;
  game_id : py_value;
  feedback_id : option Z;
  is_related : bool;
  timestamp : Z
}.
End ChatHistory.

(** One dict of the list [st.session_state['chat_history']]. *)
Record chat_entry := {
  entry_question : string;
  entry_answer : string;
  entry_game_id : py_value;
  entry_is_related : bool;
  entry_feedback_id : option Z;
  entry_feedback_type : string;
  entry_rewritten_question : option string
}.

(** A value kept in [st.session_state]; a [datetime] is its number of
    microseconds since the epoch. *)
Inductive ss_value :=
| SSDatetime (t : Z)
| SSBool (b : bool)
| SSInt (n : Z)
| SSStr (s : string)
| SSUserInfo (u : user_info)
| SSChatHistory (entries : list chat_entry).

(** What the page shows, apart from [st.error]. *)
Inductive ui_event :=
| StWarning (msg : string)
| StMarkdown (text : string)
| StSubheader (text : string)
| StWrite (text : string)
| StSpinner (text : string)
| StStop.

(** The world of [app.py]: the world of [rag_flow.py], the session state,
    the two tables with their id sequences, and what was shown. *)
Record AppState := {
  world : State;
  session_state : gmap string ss_value;
  feedback : list Feedback.row;
  feedback_seq : Z;
  chat_history : list ChatHistory.row;
  chat_seq : Z;
  shown : list ui_event
}.

(** The collaborators of [app.py]: those of [rag_flow.py], and when a
    round trip to the [feedback] and [chat_history] tables fails. *)
Record AppEnv := {
  rag_env : Env;
  db_fault : nat -> option exn;
  SessionLocal : Session;          (* a session, as [get_answer] is given one *)
  client : Client                  (* the client of [init_weaviate_client] *)
}.

(** [SESSION_TIMEOUT_MINUTES], and [timedelta(minutes=...)] of it. *)
Definition SESSION_TIMEOUT_MINUTES : Z := 15.
Definition timedelta_minutes (m : Z) : Z := m * 60 * 1000000.

(** What [st.stop()] raises; no handler of [app.py] encloses a call of it. *)
Definition StopException : exn :=
  {| exn_str := ""; exn_traceback := "StopException" |}.

(** What [d[key]] raises for a key the dict lacks. *)
Definition KeyError (key : string) : exn :=
  {| exn_str := "'" +:+ key +:+ "'"; exn_traceback := "KeyError" |}.

(** What the count query raises for a user id that is no integer. *)
Definition TypeError_user_id : exn :=
  {| exn_str := "user_id is not an integer"; exn_traceback := "TypeError" |}.

(** What [now - value] raises for a value that is no [datetime]. *)
Definition TypeError_datetime : exn :=
  {| exn_str := "unsupported operand type(s) for -: 'datetime.datetime'";
     exn_traceback := "TypeError" |}.

Definition App (A : Type) : Type := AppState -> outcome A * AppState.

Definition app_ret {A} (a : A) : App A := fun st => (Return a, st).

Definition app_raise {A} (e : exn) : App A := fun st => (Raise e, st).

Definition app_bind {A B} (c : App A) (k : A -> App B) : App B :=
  fun st =>
    match c st with
    | (Return a, st') => k a st'
    | (Raise e, st') => (Raise e, st')
    end.

(** [try: body except Exception as e: handler] *)
Definition app_try {A} (body : App A) (handler : exn -> App A) : App A :=
  fun st =>
    match body st with
    | (Return a, st') => (Return a, st')
    | (Raise e, st') => handler e st'
    end.

Declare Scope app_scope.
Delimit Scope app_scope with app.
Notation "x <- c ;; k" := (app_bind c (fun x => k))
  (at level 100, c at next level, right associativity) : app_scope.
Notation "c ;; k" := (app_bind c (fun _ => k))
  (at level 100, right associativity) : app_scope.

Definition set_world (st : AppState) (w : State) : AppState :=
  {| world := w; session_state := session_state st; feedback := feedback st;
     feedback_seq := feedback_seq st; chat_history := chat_history st;
     chat_seq := chat_seq st; shown := shown st |}.

Definition set_session_state (st : AppState) (ss : gmap string ss_value) : AppState :=
  {| world := world st; session_state := ss; feedback := feedback st;
     feedback_seq := feedback_seq st; chat_history := chat_history st;
     chat_seq := chat_seq st; shown := shown st |}.

Definition set_feedback (st : AppState) (rows : list Feedback.row) (seq : Z)
  : AppState :=
  {| world := world st; session_state := session_state st; feedback := rows;
     feedback_seq := seq; chat_history := chat_history st;
     chat_seq := chat_seq st; shown := shown st |}.

Definition set_chat_history (st : AppState) (rows : list ChatHistory.row) (seq : Z)
  : AppState :=
  {| world := world st; session_state := session_state st; feedback := feedback st;
     feedback_seq := feedback_seq st; chat_history := rows;
     chat_seq := seq; shown := shown st |}.

(** A computation of [rag_flow.py], run in the world of the page. *)
Definition lift {A} (m : M A) : App A :=
  fun st => let (o, w) := m (world st) in (o, set_world st w).

Definition show (ev : ui_event) : App unit :=
  fun st => (Return tt,
             {| world := world st; session_state := session_state st;
                feedback := feedback st; feedback_seq := feedback_seq st;
                chat_history := chat_history st; chat_seq := chat_seq st;
                shown := shown st ++ [ev] |}).

Section AppPy.

Variable aenv : AppEnv.

#[local] Open Scope app_scope.

(** [datetime.utcnow()] *)
Definition app_utcnow : App Z :=
  lift (external (fun n => Return (utcnow (rag_env aenv) n))).

(** One round trip of a session to the database. *)
Definition round_trip : App unit :=
  n <- lift tick ;;
  match db_fault aenv n with
  | Some e => app_raise e
  | None => app_ret tt
  end.

(** The two [st.error] calls of every handler of [app.py]. *)
Definition database_error (e : exn) : App unit :=
  lift (report "🚨 Database Error: " e).

Definition check_session_timeout : App unit :=
  (fun st =>
     match session_state st !! "last_activity" with
     | Some last_activity =>
         (now <- app_utcnow ;;
          elapsed <- match last_activity with
                     | SSDatetime t => app_ret (now - t)
                     | _ => app_raise TypeError_datetime
                     end ;;
          if elapsed >? timedelta_minutes SESSION_TIMEOUT_MINUTES then
            show (StWarning "🕒 Session timed out due to inactivity.") ;;
            (fun st' => (Return tt, set_session_state st' ∅)) ;;
            show StStop ;;
            app_raise StopException
          else app_ret tt) st
     | None => (Return tt, st)
     end) ;;
  now <- app_utcnow ;;
  fun st => (Return tt,
             set_session_state st
               (<["last_activity" := SSDatetime now]> (session_state st))).

(** [session.add(feedback); session.commit()] with the id the table's
    sequence gives the row. *)
Definition insert_feedback (user_id : Z) (feedback_type : string) (now : Z)
  : App Z :=
  round_trip ;;
  fun st =>
    let fid := feedback_seq st in
    (Return fid,
     set_feedback st
       (feedback st ++ [ {| Feedback.feedback_id := fid;
                            Feedback.user_id := user_id;
                            Feedback.feedback_type := feedback_type;
                            Feedback.feedback_time := now |} ])
       (fid + 1)).

(** [session.query(Feedback).filter_by(feedback_id=fid).first()] *)
Definition first_feedback (fid : Z) : App (option Feedback.row) :=
  round_trip ;;
  fun st => (Return (List.find (fun r => Feedback.feedback_id r =? fid)
                               (feedback st)), st).

(** The rows after the row of id [fid] was given a new type and time. *)
Definition updated_feedback (fid : Z) (feedback_type : string) (now : Z)
    (rows : list Feedback.row) : list Feedback.row :=
  map (fun r =>
         if Feedback.feedback_id r =? fid then
           {| Feedback.feedback_id := Feedback.feedback_id r;
              Feedback.user_id := Feedback.user_id r;
              Feedback.feedback_type := feedback_type;
              Feedback.feedback_time := now |}
         else r) rows.

Definition save_feedback_to_db (user_id : Z) (feedback_type : string)
  : App (option Z) :=
  app_try
    (now <- app_utcnow ;;
     feedback_id <- insert_feedback user_id feedback_type now ;;
     round_trip ;;                                   (* session.refresh *)
     app_ret (Some feedback_id))
    (fun e => database_error e ;; app_ret None).

Definition update_feedback (feedback_id : Z) (feedback_type : string) : App unit :=
  app_try
    (found <- first_feedback feedback_id ;;
     match found with
     | Some _ =>
         now <- app_utcnow ;;
         round_trip ;;                               (* session.commit *)
         fun st => (Return tt,
                    set_feedback st
                      (updated_feedback feedback_id feedback_type now (feedback st))
                      (feedback_seq st))
     | None => app_ret tt
     end)
    (fun e => database_error e).

Definition get_feedback_type (feedback_id : Z) : App (option string) :=
  app_try
    (found <- first_feedback feedback_id ;;
     app_ret (match found with
              | Some row => Some (Feedback.feedback_type row)
              | None => None
              end))
    (fun e => database_error e ;; app_ret None).

(** [session.add(chat_history); session.commit()] with the id the table's
    sequence gives the row. *)
Definition insert_chat_history (user_id : Z) (question answer : string)
    (now : Z) (game_id : py_value) (feedback_id : option Z) (is_related : bool)
  : App Z :=
  round_trip ;;
  fun st =>
    let cid := chat_seq st in
    (Return cid,
     set_chat_history st
       (chat_history st ++ [ {| ChatHistory.chat_id := cid;
                                ChatHistory.user_id := user_id;
                                ChatHistory.question := question;
                                ChatHistory.answer := answer;
                                ChatHistory.game_id := game_id;
                                ChatHistory.feedback_id := feedback_id;
                                ChatHistory.is_related := is_related;
                                ChatHistory.timestamp := now |} ])
       (cid + 1)).

Definition save_chat_history_to_db (user_id : Z) (question answer : string)
    (game_id : py_value) (feedback_id : option Z) (is_related : bool)
  : App (option Z * option Z) :=
  app_try
    (feedback_id <-
       match feedback_id with
       | None =>
           now <- app_utcnow ;;
           fid <- insert_feedback user_id "neutral" now ;;
           round_trip ;;                             (* session.refresh *)
           app_ret fid
       | Some fid => app_ret fid
       end ;;
     now <- app_utcnow ;;
     chat_id <- insert_chat_history user_id question answer now game_id
                  (Some feedback_id) is_related ;;
     round_trip ;;                                   (* session.refresh *)
     app_ret (Some feedback_id, Some chat_id))
    (fun e => database_error e ;; app_ret (None, None)).

(** [st.session_state['user_id']] *)
Definition session_user_id : App Z :=
  fun st =>
    match session_state st !! "user_id" with
    | Some (SSInt uid) => (Return uid, st)
    | Some _ => (Raise TypeError_user_id, st)
    | None => (Raise (KeyError "user_id"), st)
    end.

(** [session_db.query(ChatHistory).filter(ChatHistory.user_id == uid).count()] *)
Definition count_chat_history (uid : Z) : App Z :=
  round_trip ;;
  fun st =>
    (Return (Z.of_nat (length (filter (fun r => ChatHistory.user_id r = uid)
                                      (chat_history st)))), st).

(** [st.session_state['chat_history'].append(entry)] *)
Definition append_chat_entry (entry : chat_entry) : App unit :=
  fun st =>
    match session_state st !! "chat_history" with
    | Some (SSChatHistory entries) =>
        (Return tt,
         set_session_state st
           (<["chat_history" := SSChatHistory (entries ++ [entry])]>
              (session_state st)))
    | Some _ => (Raise (AttributeError "append"), st)
    | None => (Raise (KeyError "chat_history"), st)
    end.

(** The two lines that show a rewritten question that differs from the
    question asked. *)
Definition show_rewritten (rewritten_question user_query : string) : App unit :=
  if negb (String.eqb rewritten_question "")
     && negb (String.eqb rewritten_question (PyStr.strip user_query))
  then show (StMarkdown ("**Rewritten Question:** " +:+ rewritten_question))
  else app_ret tt.

(** [answer_result['message']] *)
Definition result_message (answer_result : AnswerResult) : App string :=
  match message answer_result with
  | Some msg => app_ret msg
  | None => app_raise (KeyError "message")
  end.

(** [for idx, ans in enumerate(answer_result["answers"], 1): ...] *)
Fixpoint show_answers (user_query rewritten_question : string)
    (answers : list Answer) : App unit :=
  match answers with
  | [] => app_ret tt
  | ans :: rest =>
      show (StSubheader ("**Game Name:** " +:+ py_str (game_name ans))) ;;
      show (StWrite (answer ans)) ;;
      user_id <- session_user_id ;;
      ids <- save_chat_history_to_db user_id (PyStr.strip user_query)
               (answer ans) (game_id ans) None true ;;
      append_chat_entry
        {| entry_question := PyStr.strip user_query;
           entry_answer := answer ans;
           entry_game_id := game_id ans;
           entry_is_related := true;
           entry_feedback_id := ids.1;
           entry_feedback_type := "neutral";
           entry_rewritten_question := Some rewritten_question |} ;;
      show_answers user_query rewritten_question rest
  end.

(** The branches without answers: the message is shown, saved and
    remembered. *)
Definition show_message (user_query : string) (answer_result : AnswerResult)
    (related : bool) : App unit :=
  msg <- result_message answer_result ;;
  show (StWarning msg) ;;
  let rewritten_question := rewritten_question answer_result in
  show_rewritten rewritten_question user_query ;;
  user_id <- session_user_id ;;
  msg' <- result_message answer_result ;;
  ids <- save_chat_history_to_db user_id (PyStr.strip user_query) msg' PNone None
           related ;;
  msg'' <- result_message answer_result ;;
  append_chat_entry
    {| entry_question := PyStr.strip user_query;
       entry_answer := msg'';
       entry_game_id := PNone;
       entry_is_related := related;
       entry_feedback_id := ids.1;
       entry_feedback_type := "neutral";
       entry_rewritten_question := Some rewritten_question |}.

(** The body of [if st.button("🗨️ Get Answer") and user_query:] on page
    Ask Questions, for a click with a non-empty [user_query]. *)
Definition get_answer_clicked (user_query : string) : App unit :=
  app_try
    (user_id <- session_user_id ;;
     question_count <- count_chat_history user_id ;;
     (if question_count >=? 3 then
        show (StWarning "⚠️ You have reached the maximum of 3 questions allowed.")
      else
        show (StSpinner "🔍 Processing your question...") ;;
        user_id <- session_user_id ;;
        answer_result <-
          lift (get_answer (rag_env aenv) (PyStr.strip user_query) user_id
                  (SessionLocal aenv) 1 false (Some (client aenv))) ;;
        if is_related answer_result then
          let rewritten_question := rewritten_question answer_result in
          show_rewritten rewritten_question user_query ;;
          match answers answer_result with
          | Some answers => show_answers user_query rewritten_question answers
          | None => show_message user_query answer_result true
          end
        else show_message user_query answer_result false) ;;
     now <- app_utcnow ;;
     fun st => (Return tt,
                set_session_state st
                  (<["last_activity" := SSDatetime now]> (session_state st))))
    (fun e => lift (report "🚨 An error occurred: " e)).

End AppPy.

(** A working database and a vector store that knows chess. *)
Definition healthy_app : AppEnv :=
  {| rag_env := scripted_env []; db_fault := fun _ => None;
     SessionLocal := healthy_session; client := store_with [chess] |}.

(** The same, with the round trips numbered in [fails] failing. *)
Definition faulty_app (fails : list nat) : AppEnv :=
  {| rag_env := scripted_env [];
     db_fault := fun n => if bool_decide (n ∈ fails) then Some connection_error
                          else None;
     SessionLocal := healthy_session; client := store_with [chess] |}.

(** A page just opened on empty tables. *)
Definition fresh_app : AppState :=
  {| world := initial; session_state := ∅; feedback := []; feedback_seq := 1;
     chat_history := []; chat_seq := 1; shown := [] |}.

(** From [st] to [st'] the two tables only gained rows, and every chat row
    gained is for [question]. *)
Definition app_grows (question : string) (st st' : AppState) : Prop :=
  exists new_feedback new_chat,
    feedback st' = feedback st ++ new_feedback
    /\ chat_history st' = chat_history st ++ new_chat
    /\ Forall (fun r => ChatHistory.question r = question) new_chat.

(** A computation that only lets the tables grow so, from any state. *)
Definition keeps {A} (question : string) (c : App A) : Prop :=
  forall st, app_grows question st (c st).2.



(** The ids of the feedback rows are distinct and below the sequence. *)
Definition feedback_ids_fresh (st : AppState) : Prop :=
  Forall (fun r => Feedback.feedback_id r < feedback_seq st) (feedback st).

(** ** weaviate_setup.py *)

(** The dict given to [client.schema.create_class]. *)
Record class_schema := {
  schema_class : string;
  schema_vectorizer : string;
  schema_properties : list (string * string)      (* name, dataType *)
}.

Definition game_class_schema : class_schema :=
  {| schema_class := "Game";
     schema_vectorizer := "none";
     schema_properties :=
       [ ("gameId", "string"); ("gameName", "string");
         ("alternateNames", "string"); ("subcategory", "string");
         ("level", "string"); ("description", "text"); ("playersMax", "int");
         ("ageRange", "string"); ("duration", "int");
         ("equipmentNeeded", "string"); ("objective", "string");
         ("skillsDeveloped", "string"); ("setupTime", "int");
         ("place", "string"); ("physicalIntensityLevel", "string");
         ("educationalBenefits", "string"); ("category", "string") ] |}.

(** The calls of the setup that reach a collaborator or the page. *)
Inductive setup_event :=
| SchemaGet
| SchemaCreateClass (c : class_schema)
| AggregateGame
| LoadSentenceTransformer (name : string)
| ReadCsv (path : string)
| EncodeText (text : string)
| DataObjectCreate (data_object : gmap string string) (vector : list float)
| SetupWrite (msg : string)
| SetupPrint (msg : string).

(** The module-level flags, and the calls made so far. *)
Record SetupState := {
  schema_initialized : bool;
  data_ingested : bool;
  setup_clock : nat;
  setup_trace : list setup_event
}.

(** The collaborators of the setup.  A row of the dataset maps a column to
    its cell, [PNone] for a cell that is not filled in. *)
Record SetupEnv := {
  secrets : gmap string (gmap string string);
  weaviate_Client : nat -> string -> option string -> option exn;
  schema_get : nat -> outcome (option (list string));   (* schema['classes'] *)
  schema_create_class : nat -> class_schema -> option exn;
  aggregate_count : nat -> outcome (option Z);
  SentenceTransformer : nat -> string -> option exn;
  read_csv : nat -> string -> outcome (list (gmap string py_value));
  model_encode : nat -> string -> outcome (list float);
  data_object_create : nat -> gmap string string -> list float -> option exn
}.

Definition Setup (A : Type) : Type := SetupState -> outcome A * SetupState.

Definition setup_ret {A} (a : A) : Setup A := fun st => (Return a, st).

Definition setup_raise {A} (e : exn) : Setup A := fun st => (Raise e, st).

Definition setup_bind {A B} (c : Setup A) (k : A -> Setup B) : Setup B :=
  fun st =>
    match c st with
    | (Return a, st') => k a st'
    | (Raise e, st') => (Raise e, st')
    end.

(** [try: body except Exception as e: handler] *)
Definition setup_try {A} (body : Setup A) (handler : exn -> Setup A) : Setup A :=
  fun st =>
    match body st with
    | (Return a, st') => (Return a, st')
    | (Raise e, st') => handler e st'
    end.

Declare Scope setup_scope.
Delimit Scope setup_scope with setup.
Notation "x <- c ;; k" := (setup_bind c (fun x => k))
  (at level 100, c at next level, right associativity) : setup_scope.
Notation "c ;; k" := (setup_bind c (fun _ => k))
  (at level 100, right associativity) : setup_scope.

Definition setup_emit (ev : setup_event) : Setup unit :=
  fun st => (Return tt,
             {| schema_initialized := schema_initialized st;
                data_ingested := data_ingested st;
                setup_clock := setup_clock st;
                setup_trace := setup_trace st ++ [ev] |}).

(** One call of a collaborator: the call is logged, then answered. *)
Definition setup_call {A} (ev : setup_event) (oracle : nat -> outcome A) : Setup A :=
  fun st =>
    (oracle (setup_clock st),
     {| schema_initialized := schema_initialized st;
        data_ingested := data_ingested st;
        setup_clock := S (setup_clock st);
        setup_trace := setup_trace st ++ [ev] |}).

(** An answer that is only success or failure. *)
Definition or_raise (fault : option exn) : outcome unit :=
  match fault with
  | Some e => Raise e
  | None => Return tt
  end.

Section WeaviateSetup.

Variable senv : SetupEnv.

#[local] Open Scope setup_scope.

(** [st.secrets[section][key]] *)
Definition secret (section key : string) : Setup string :=
  match secrets senv !! section with
  | None => setup_raise (KeyError section)
  | Some entries =>
      match entries !! key with
      | None => setup_raise (KeyError key)
      | Some value => setup_ret value
      end
  end.

Definition get_weaviate_client : Setup unit :=
  WEAVIATE_URL <- secret "WEAVIATE" "URL" ;;
  WEAVIATE_API_KEY <- secret "WEAVIATE" "API_KEY" ;;
  let auth_config :=
    if negb (String.eqb WEAVIATE_API_KEY "") then Some WEAVIATE_API_KEY else None in
  fun st =>
    (or_raise (weaviate_Client senv (setup_clock st) WEAVIATE_URL auth_config),
     {| schema_initialized := schema_initialized st;
        data_ingested := data_ingested st;
        setup_clock := S (setup_clock st);
        setup_trace := setup_trace st |}).

Definition create_schema : Setup unit :=
  get_weaviate_client ;;
  schema <- setup_call SchemaGet (schema_get senv) ;;
  let classes := default [] schema in
  if negb (bool_decide ("Game" ∈ classes)) then
    setup_call (SchemaCreateClass game_class_schema)
      (fun n => or_raise (schema_create_class senv n game_class_schema)) ;;
    setup_emit (SetupWrite "✅ Schema for 'Game' class created successfully.")
  else setup_ret tt.

(** [str(row[column]) if pd.notnull(row[column]) else dflt] *)
Definition cell_or (row : gmap string py_value) (column dflt : string)
  : Setup string :=
  match row !! column with
  | None => setup_raise (KeyError column)
  | Some PNone => setup_ret dflt
  | Some value => setup_ret (py_str value)
  end.

(** [for _, row in data.iterrows(): ...] *)
Fixpoint ingest_rows (rows : list (gmap string py_value)) : Setup unit :=
  match rows with
  | [] => setup_ret tt
  | row :: rest =>
      gameId <- cell_or row "gameId" "" ;;
      gameName <- cell_or row "gameName" "Unknown Game" ;;
      let game_data : gmap string string :=
        <["gameName" := gameName]> (<["gameId" := gameId]> ∅) in
      description <-
        match game_data !! "description" with
        | Some text => setup_ret text
        | None => setup_raise (KeyError "description")
        end ;;
      description_vector <-
        setup_call (EncodeText description) (fun n => model_encode senv n description) ;;
      setup_try
        (setup_call (DataObjectCreate game_data description_vector)
           (fun n => or_raise (data_object_create senv n game_data description_vector)))
        (fun e =>
           setup_emit
             (SetupPrint ("Failed to insert game: "
                          +:+ default "" (game_data !! "gameName")
                          +:+ ". Error: " +:+ exn_str e))) ;;
      ingest_rows rest
  end.

Definition ingest_data : Setup unit :=
  get_weaviate_client ;;
  result <- setup_call AggregateGame (aggregate_count senv) ;;
  count <- match result with
           | Some count => setup_ret count
           | None => setup_raise (KeyError "data")
           end ;;
  if count =? 0 then
    setup_call (LoadSentenceTransformer "all-MiniLM-L6-v2")
      (fun n => or_raise (SentenceTransformer senv n "all-MiniLM-L6-v2")) ;;
    data <- setup_call (ReadCsv "data/game-dataset.csv")
              (fun n => read_csv senv n "data/game-dataset.csv") ;;
    ingest_rows data ;;
    setup_emit (SetupWrite "✅ Data ingestion completed.")
  else setup_ret tt.

Definition set_schema_initialized (b : bool) : Setup unit :=
  fun st => (Return tt,
             {| schema_initialized := b;
                data_ingested := data_ingested st;
                setup_clock := setup_clock st;
                setup_trace := setup_trace st |}).

Definition initialize_weaviate : Setup unit :=
  (fun st =>
     (if negb (schema_initialized st) then
        create_schema ;;
        set_schema_initialized true
      else setup_ret tt) st) ;;
  fun st =>
    (if negb (data_ingested st) then ingest_data else setup_ret tt) st.

End WeaviateSetup.

(** Both flags are as before. *)
Definition same_flags (st st' : SetupState) : Prop :=
  schema_initialized st' = schema_initialized st
  /\ data_ingested st' = data_ingested st.

(** The objects given to [client.data_object.create] in a trace. *)
Definition objects_created (t : list setup_event)
  : list (gmap string string * list float) :=
  omap (fun ev => match ev with DataObjectCreate d v => Some (d, v) | _ => None end) t.

(** The classes given to [client.schema.create_class] in a trace. *)
Definition classes_created (t : list setup_event) : list class_schema :=
  omap (fun ev => match ev with SchemaCreateClass c => Some c | _ => None end) t.

(** The calls of [client.schema.get] in a trace. *)
Definition schema_reads (t : list setup_event) : list unit :=
  omap (fun ev => match ev with SchemaGet => Some tt | _ => None end) t.

(** A setup in which every collaborator works: the store has no class and
    no object, and the dataset is [rows]. *)
Definition working_setup (rows : list (gmap string py_value)) : SetupEnv :=
  {| secrets := {[ "WEAVIATE" := {[ "URL" := "https://example.weaviate.network";
                                    "API_KEY" := "secret" ]} ]};
     weaviate_Client := fun _ _ _ => None;
     schema_get := fun _ => Return (Some []);
     schema_create_class := fun _ _ => None;
     aggregate_count := fun _ => Return (Some 0);
     SentenceTransformer := fun _ _ => None;
     read_csv := fun _ _ => Return rows;
     model_encode := fun _ _ => Return [0x1p-1%float];
     data_object_create := fun _ _ _ => None |}.

(** The flags when the module is loaded. *)
Definition module_loaded : SetupState :=
  {| schema_initialized := false; data_ingested := false;
     setup_clock := 0; setup_trace := [] |}.

(** A row of the dataset. *)
Definition chess_row : gmap string py_value :=
  {[ "gameId" := PInt 1; "gameName" := PStr "Chess";
     "description" := PStr "A board game for two." ]}.

(** ** Facts about the string operations *)

Module PyStrFacts.

Import PyStr.

Lemma app_nil_r (s : string) : s +:+ "" = s.
Proof. induction s as [|c s IH]; simpl; [reflexivity | now rewrite IH]. Qed.

Lemma app_assoc (a b c : string) : (a +:+ b) +:+ c = a +:+ b +:+ c.
Proof. induction a as [|x a IH]; simpl; [reflexivity | now rewrite IH]. Qed.

Lemma prefix_spec (sub s : string) :
  String.prefix sub s = true <-> exists post, s = sub +:+ post.
Proof.
  revert s. induction sub as [|a sub IH]; intros s.
  - split; [intros _; now exists s | intros _; now destruct s].
  - destruct s as [|b s]; simpl.
    + split; [discriminate | intros [post H]; discriminate].
    + destruct (ascii_dec a b) as [->|Hne].
      * rewrite IH. split; intros [post H]; exists post.
        -- now rewrite H.
        -- now injection H.
      * split; [discriminate | intros [post H]; congruence].
Qed.

Lemma contains_spec (sub s : string) :
  contains sub s = true <-> exists pre post, s = pre +:+ sub +:+ post.
Proof.
  induction s as [|c s IH]; cbn [contains].
  - rewrite orb_false_r, prefix_spec. split.
    + intros [post H]. now exists "", post.
    + intros [[|x pre] [post H]]; [now exists post | discriminate].
  - rewrite orb_true_iff, prefix_spec, IH. split.
    + intros [[post H] | (pre & post & H)].
      * now exists "", post.
      * exists (String c pre), post. simpl. now rewrite H.
    + intros ([|x pre] & post & H); simpl in H.
      * left. now exists post.
      * right. injection H as _ H. now exists pre, post.
Qed.

Lemma lower_app (a b : string) : lower (a +:+ b) = lower a +:+ lower b.
Proof. induction a as [|x a IH]; simpl; [reflexivity | now rewrite IH]. Qed.

Lemma lower_split (s a b : string) :
  lower s = a +:+ b ->
  exists a' b', s = a' +:+ b' /\ lower a' = a /\ lower b' = b.
Proof.
  revert s. induction a as [|x a IH]; intros s H; simpl in H.
  - now exists "", s.
  - destruct s as [|c s]; [discriminate |]. simpl in H.
    injection H as Hc H. destruct (IH _ H) as (a' & b' & -> & Ha & Hb).
    exists (String c a'), b'. simpl. now rewrite Ha, Hc.
Qed.

(** The boolean test on lowered strings is the case-insensitive search. *)
Lemma contains_lower (sub s : string) :
  contains (lower sub) (lower s) = true <-> contains_ci sub s.
Proof.
  rewrite contains_spec. split.
  - intros (pre & post & H).
    destruct (lower_split _ _ _ H) as (pre' & r & -> & _ & Hr).
    destruct (lower_split _ _ _ Hr) as (mid & post' & -> & Hmid & _).
    now exists pre', mid, post'.
  - intros (pre & mid & post & -> & Hmid).
    exists (lower pre), (lower post). now rewrite !lower_app, Hmid.
Qed.

Lemma isspace_lower_char (a : ascii) : isspace (lower_char a) = isspace a.
Proof. destruct a as [[] [] [] [] [] [] [] []]; reflexivity. Qed.

Lemma lstrip_suffix (s : string) : exists w, s = w +:+ lstrip s.
Proof.
  induction s as [|c s [w IH]]; simpl; [now exists "" |].
  destruct (isspace c).
  - exists (String c w). simpl. now rewrite <- IH.
  - now exists "".
Qed.

Lemma rstrip_prefix (s : string) : exists w, s = rstrip s +:+ w.
Proof.
  induction s as [|c s [w IH]]; simpl; [now exists "" |].
  destruct (rstrip s) as [|r0 r] eqn:Hr.
  - destruct (isspace c).
    + exists (String c s). reflexivity.
    + exists w. simpl. now rewrite IH.
  - exists w. simpl. now rewrite IH.
Qed.

Lemma lstrip_keeps (pre : string) (a : ascii) (rest : string) :
  isspace a = false ->
  exists pre', lstrip (pre +:+ String a rest) = pre' +:+ String a rest.
Proof.
  intros Ha. induction pre as [|c pre [pre' IH]]; simpl.
  - rewrite Ha. now exists "".
  - destruct (isspace c); [now exists pre' |].
    now exists (String c pre).
Qed.

Lemma rstrip_keeps (front : string) (d : ascii) (post : string) :
  isspace d = false ->
  exists post', rstrip (front +:+ String d post) = front +:+ String d post'.
Proof.
  intros Hd. induction front as [|c front [post' IH]]; simpl.
  - rewrite Hd. destruct (rstrip post) as [|r0 r]; eauto.
  - rewrite IH. exists post'. now destruct front.
Qed.

(** An occurrence of "yes" in any case starts and ends on a letter. *)
Lemma yes_shape (mid : string) :
  lower mid = "yes" ->
  exists a b d, mid = String a (String b (String d "")) /\
                isspace a = false /\ isspace d = false.
Proof.
  destruct mid as [|a [|b [|d [|x m]]]]; simpl; try discriminate.
  intros H. injection H as Ha _ Hd. exists a, b, d.
  rewrite <- (isspace_lower_char a), <- (isspace_lower_char d), Ha, Hd.
  repeat split; reflexivity.
Qed.

(** Trimming neither adds nor removes an occurrence of "yes". *)
Lemma contains_ci_yes_strip (c : string) :
  contains_ci "yes" (strip c) <-> contains_ci "yes" c.
Proof.
  unfold strip. split.
  - intros (pre & mid & post & H & Hmid).
    destruct (lstrip_suffix c) as [w1 H1].
    destruct (rstrip_prefix (lstrip c)) as [w2 H2].
    exists (w1 +:+ pre), mid, (post +:+ w2). split; [| exact Hmid].
    rewrite H1 at 1. rewrite H2 at 1. rewrite H.
    now rewrite !app_assoc.
  - intros (pre & mid & post & -> & Hmid).
    destruct (yes_shape _ Hmid) as (a & b & d & -> & Ha & Hd).
    simpl. destruct (lstrip_keeps pre a (String b (String d post)) Ha) as [pre' ->].
    pose proof (rstrip_keeps (pre' +:+ String a (String b "")) d post Hd) as [post' H].
    rewrite app_assoc in H. simpl in H. rewrite H.
    exists pre', (String a (String b (String d ""))), post'.
    split; [now rewrite app_assoc | exact Hmid].
Qed.

(** A line of a triple-quoted literal occurs in it, newline included. *)
Lemma contains_line (l : string) (ls : list string) :
  l ∈ ls -> contains (l +:+ nl) (lines ls) = true.
Proof.
  intros Hin. apply contains_spec.
  induction Hin as [l ls | l x ls _ (pre & post & IH)]; simpl.
  - exists "", (lines ls). simpl. now rewrite app_assoc.
  - exists (x +:+ nl +:+ pre), post. now rewrite IH, !app_assoc.
Qed.

End PyStrFacts.

(** ** How the functions of [rag_flow.py] run *)

Section Runs.

Variable env : Env.

Import PyStr.

Lemma search_calls_errors (errs : list string) : search_calls (map StError errs) = [].
Proof. induction errs; [reflexivity | assumption]. Qed.

Lemma preprocess_calls_errors (errs : list string) : preprocess_calls (map StError errs) = [].
Proof. induction errs; [reflexivity | assumption]. Qed.

Lemma check_calls_errors (errs : list string) : check_calls (map StError errs) = [].
Proof. induction errs; [reflexivity | assumption]. Qed.

Lemma generate_calls_errors (errs : list string) : generate_calls (map StError errs) = [].
Proof. induction errs; [reflexivity | assumption]. Qed.

(** The handler of [call_gpt_4o_mini] absorbs every failure of the chat
    model: the function always returns, and returns "No" on a failure. *)
Lemma call_gpt_4o_mini_run (prompt : string) (s : State) :
  exists s' errs,
    call_gpt_4o_mini env prompt s
    = (Return (gpt_reply (openai_create env (clock s) (gpt_request prompt))), s')
    /\ trace s' = trace s ++ CallGpt prompt :: map StError errs
    /\ searched_games s' = searched_games s
    /\ clock s' = S (clock s).
Proof.
  unfold call_gpt_4o_mini, try_except, bind, external, tick, emit, report,
    st_error, emit, ret, raise; simpl.
  destruct (openai_create env (clock s) (gpt_request prompt)) as [[c|]|e]; simpl.
  - eexists _, []. repeat split.
  - eexists _, [_; _]. simpl. rewrite <- !List.app_assoc. repeat split.
  - eexists _, [_; _]. simpl. rewrite <- !List.app_assoc. repeat split.
Qed.

Lemma check_if_game_related_run (question : string) (s : State) :
  exists s' errs,
    check_if_game_related env question s
    = (Return (contains "yes" (lower (gpt_reply
         (openai_create env (clock s) (gpt_request (check_prompt question)))))), s')
    /\ trace s' = trace s ++ CallCheck question
                    :: CallGpt (check_prompt question) :: map StError errs
    /\ searched_games s' = searched_games s
    /\ clock s' = S (clock s).
Proof.
  unfold check_if_game_related.
  destruct (call_gpt_4o_mini_run (check_prompt question)
              {| clock := clock s; trace := trace s ++ [CallCheck question];
                 searched_games := searched_games s |})
    as (s' & errs & Hrun & Htr & Hsg & Hck).
  unfold try_except, bind, emit, ret. simpl in *. rewrite Hrun.
  exists s', errs. rewrite Htr, <- List.app_assoc. repeat split; assumption.
Qed.

Lemma preprocess_query_run (question : string) (s : State) :
  exists s' errs,
    preprocess_query env question s
    = (Return (strip (gpt_reply
         (openai_create env (clock s) (gpt_request (preprocess_prompt question))))), s')
    /\ trace s' = trace s ++ CallPreprocess question
                    :: CallGpt (preprocess_prompt question) :: map StError errs
    /\ searched_games s' = searched_games s
    /\ clock s' = S (clock s).
Proof.
  unfold preprocess_query.
  destruct (call_gpt_4o_mini_run (preprocess_prompt question)
              {| clock := clock s; trace := trace s ++ [CallPreprocess question];
                 searched_games := searched_games s |})
    as (s' & errs & Hrun & Htr & Hsg & Hck).
  unfold try_except, bind, emit, ret. simpl in *. rewrite Hrun.
  exists s', errs. rewrite Htr, <- List.app_assoc. repeat split; assumption.
Qed.

Lemma generate_answer_from_game_info_run (info : game_info) (question : string)
    (s : State) :
  exists s' errs,
    generate_answer_from_game_info env info question s
    = (Return (gpt_reply
         (openai_create env (clock s) (gpt_request (generate_prompt info question)))), s')
    /\ trace s' = trace s ++ CallGenerate info question
                    :: CallGpt (generate_prompt info question) :: map StError errs
    /\ searched_games s' = searched_games s
    /\ clock s' = S (clock s).
Proof.
  unfold generate_answer_from_game_info.
  destruct (call_gpt_4o_mini_run (generate_prompt info question)
              {| clock := clock s; trace := trace s ++ [CallGenerate info question];
                 searched_games := searched_games s |})
    as (s' & errs & Hrun & Htr & Hsg & Hck).
  unfold try_except, bind, emit, ret. simpl in *. rewrite Hrun.
  exists s', errs. rewrite Htr, <- List.app_assoc. repeat split; assumption.
Qed.

(** [search_weaviate] always returns, and touches neither the store nor
    any other function of the module. *)
Lemma search_weaviate_run (question : string) (client : option Client) (k : Z)
    (s : State) :
  exists res s' errs,
    search_weaviate env question client k s = (Return res, s')
    /\ trace s' = trace s ++ CallSearch question k :: map StError errs
    /\ searched_games s' = searched_games s.
Proof.
  unfold search_weaviate, try_except, bind, external, tick, emit, report,
    st_error, emit, ret, raise; simpl.
  destruct (query_model_encode env (clock s) question) as [v|e]; simpl.
  - destruct client as [c|]; simpl.
    + destruct (client_do c (S (clock s)) (game_query v k))
        as [[| |[| |[| |games]]]|e]; simpl;
        first [ by eexists _, _, []
              | eexists _, _, [_; _]; simpl; rewrite <- !List.app_assoc; by repeat split ].
    + eexists _, _, [_; _]; simpl. rewrite <- !List.app_assoc. by repeat split.
  - eexists _, _, [_; _]; simpl. rewrite <- !List.app_assoc. by repeat split.
Qed.

(** A failing encoder or vector store makes the search return [[]]. *)
Lemma search_weaviate_failure (question : string) (client : option Client) (k : Z)
    (s : State) :
  search_collaborator_fails env client question k (clock s) ->
  exists s', search_weaviate env question client k s = (Return (Some []), s').
Proof.
  unfold search_collaborator_fails, search_weaviate, try_except, bind, external,
    tick, emit, report, st_error, emit, ret, raise; simpl.
  destruct (query_model_encode env (clock s) question) as [v|e]; simpl.
  - destruct client as [c|]; [| tauto]. simpl.
    destruct (client_do c (S (clock s)) (game_query v k)) as [d|e]; [tauto |].
    intros _. eauto.
  - intros _. eauto.
Qed.

Lemma stored_app (gid : py_value) (rows : list Models.SearchedGame)
    (row : Models.SearchedGame) :
  stored gid (rows ++ [row])
  = (stored gid rows + if decide (Models.game_id row = gid) then 1 else 0)%nat.
Proof.
  unfold stored. rewrite filter_app, length_app. f_equal.
  rewrite filter_cons, filter_nil. by case_decide.
Qed.

Lemma find_none_stored (gid : py_value) (rows : list Models.SearchedGame) :
  List.find (fun r => bool_decide (Models.game_id r = gid)) rows = None ->
  stored gid rows = 0%nat.
Proof.
  unfold stored. induction rows as [|r rows IH]; simpl; [reflexivity |].
  rewrite filter_cons. case_bool_decide as Hr; [discriminate |].
  intros Hfind. rewrite decide_False by exact Hr. by apply IH.
Qed.

(** [save_searched_game_to_db] always returns; it stores nothing, or one
    row under the record's [gameId], and that only when the store had
    none under it. *)
Lemma save_searched_game_to_db_run (session_db : Session) (info : game_info)
    (s : State) :
  exists s' errs,
    save_searched_game_to_db env session_db info s = (Return tt, s')
    /\ trace s' = trace s ++ CallSave info :: map StError errs
    /\ (searched_games s' = searched_games s
        \/ exists row,
             searched_games s' = searched_games s ++ [row]
             /\ Models.game_id row = dict_get info "gameId" PNone
             /\ stored (Models.game_id row) (searched_games s) = 0%nat).
Proof.
  unfold save_searched_game_to_db, query_first, add_commit, external, report,
    st_error, try_except, bind, tick, emit, ret, raise; simpl.
  destruct (truthy (dict_get info "gameId" PNone)); simpl.
  - destruct (query_fault session_db (clock s)) as [e|]; simpl.
    + eexists _, [_; _]; simpl. rewrite <- !List.app_assoc. by repeat split; left.
    + destruct (List.find _ (searched_games s)) as [r|] eqn:Hfind; simpl.
      * eexists _, []. by repeat split; left.
      * destruct (commit_fault session_db (S (S (clock s))) _) as [e|]; simpl.
        -- eexists _, [_; _]; simpl. rewrite <- !List.app_assoc.
           by repeat split; left.
        -- eexists _, []. repeat split. right. eexists. repeat split.
           simpl. by apply find_none_stored.
  - eexists _, []. by repeat split; left.
Qed.

(** One call never brings the rows under any key above one, unless they
    were already. *)
Lemma save_searched_game_to_db_stored (session_db : Session) (info : game_info)
    (gid : py_value) (s : State) :
  exists s',
    save_searched_game_to_db env session_db info s = (Return tt, s')
    /\ (stored gid (searched_games s') <= Nat.max 1 (stored gid (searched_games s)))%nat.
Proof.
  destruct (save_searched_game_to_db_run session_db info s)
    as (s' & errs & Hrun & _ & [Hsame | (row & Hadd & _ & Hnone)]).
  - exists s'. split; [exact Hrun |]. rewrite Hsame. lia.
  - exists s'. split; [exact Hrun |]. rewrite Hadd, stored_app.
    case_decide as Hgid; [| lia]. rewrite <- Hgid, Hnone. simpl. lia.
Qed.

Lemma omap_errors {A} (f : event -> option A) (errs : list string) :
  (forall msg, f (StError msg) = None) -> omap f (map StError errs) = [].
Proof. intros Hf. induction errs; simpl; [reflexivity | by rewrite Hf]. Qed.

(** The loop of [get_answer] answers every record, in order, with the
    record's own [gameId], and calls only the generator and the store. *)
Lemma answer_loop_run (session_db : Session) (rewritten : string)
    (results : list game_info) (acc : list Answer) (s : State) :
  exists ans s' t,
    answer_loop env session_db rewritten results acc s = (Return (acc ++ ans), s')
    /\ map game_id ans = map (fun r => dict_get r "gameId" PNone) results
    /\ trace s' = trace s ++ t
    /\ preprocess_calls t = []
    /\ check_calls t = []
    /\ search_calls t = []
    /\ generate_calls t = map (fun r => (r, rewritten)) results.
Proof.
  revert acc s. induction results as [|r rest IH]; intros acc s.
  - exists [], s, []. simpl. unfold ret. rewrite !List.app_nil_r. by repeat split.
  - cbn [answer_loop]. unfold bind at 1.
    destruct (generate_answer_from_game_info_run r rewritten s)
      as (s1 & e1 & -> & Ht1 & _ & _).
    unfold bind at 1.
    destruct (save_searched_game_to_db_run session_db r s1)
      as (s2 & e2 & -> & Ht2 & _).
    match goal with |- context [answer_loop _ _ _ rest ?a s2] =>
      destruct (IH a s2) as (ans & s3 & t & -> & Hids & Ht3 & Hp & Hc & Hs & Hg)
    end.
    eexists (_ :: ans), s3, _. rewrite <- List.app_assoc. split; [reflexivity |].
    split; [simpl; by rewrite Hids |].
    split; [rewrite Ht3, Ht2, Ht1, <- !List.app_assoc; simpl; reflexivity |].
    unfold preprocess_calls, check_calls, search_calls, generate_calls in *.
    cbn [omap list_omap app]. rewrite !omap_app, !omap_errors by reflexivity.
    cbn [omap list_omap app]. rewrite !omap_app, !omap_errors by reflexivity.
    rewrite Hp, Hc, Hs, Hg. by repeat split.
Qed.

(** One invocation of [get_answer], step by step: the rewrite, the two
    checks, and then the branch taken; with the calls it makes. *)
Lemma get_answer_run (question : string) (user_id : Z) (session_db : Session)
    (k : Z) (hybrid : bool) (weaviate_client : option Client) (s : State) :
  exists rq s1 b1 s2 b2 s3 r s' t,
    preprocess_query env question s = (Return rq, s1)
    /\ check_if_game_related env question s1 = (Return b1, s2)
    /\ check_if_game_related env rq s2 = (Return b2, s3)
    /\ get_answer env question user_id session_db k hybrid weaviate_client s
       = (Return r, s')
    /\ trace s' = trace s ++ t
    /\ preprocess_calls t = [question]
    /\ check_calls t = [question; rq]
    /\ if b1 || b2 then
         exists res s4,
           search_weaviate env rq weaviate_client k s3 = (Return res, s4)
           /\ search_calls t = [(rq, k)]
           /\ match nonempty_results res with
              | Some results =>
                  exists ans,
                    answer_loop env session_db rq results [] s4 = (Return ans, s')
                    /\ r = RelatedWithAnswers ans rq
                    /\ map game_id ans
                       = map (fun i => dict_get i "gameId" PNone) results
                    /\ generate_calls t = map (fun i => (i, rq)) results
              | None =>
                  r = RelatedNoMatch rq /\ s' = s4 /\ generate_calls t = []
              end
       else r = NotRelated rq /\ s' = s3
            /\ search_calls t = [] /\ generate_calls t = [].
Proof.
  destruct (preprocess_query_run question s) as (s1 & e1 & Hp & Ht1 & _).
  destruct (check_if_game_related_run question s1) as (s2 & e2 & Hc1 & Ht2 & _).
  remember (strip (gpt_reply (openai_create env (clock s)
              (gpt_request (preprocess_prompt question))))) as rq eqn:Hrq.
  destruct (check_if_game_related_run rq s2) as (s3 & e3 & Hc2 & Ht3 & _).
  remember (contains "yes" (lower (gpt_reply (openai_create env (clock s1)
              (gpt_request (check_prompt question)))))) as b1 eqn:Hb1.
  remember (contains "yes" (lower (gpt_reply (openai_create env (clock s2)
              (gpt_request (check_prompt rq)))))) as b2 eqn:Hb2.
  clear Hrq Hb1 Hb2.
  assert (Ht : trace s3 = trace s ++
            (CallPreprocess question :: CallGpt (preprocess_prompt question)
               :: map StError e1)
            ++ (CallCheck question :: CallGpt (check_prompt question)
                  :: map StError e2)
            ++ (CallCheck rq :: CallGpt (check_prompt rq) :: map StError e3)).
  { rewrite Ht3, Ht2, Ht1, <- !List.app_assoc. reflexivity. }
  exists rq, s1, b1, s2, b2, s3.
  unfold get_answer. unfold bind at 1. rewrite Hp.
  unfold bind at 1. rewrite Hc1. unfold bind at 1. rewrite Hc2.
  destruct (b1 || b2) eqn:Hb; cbn [negb].
  - destruct (search_weaviate_run rq weaviate_client k s3)
      as (res & s4 & e4 & Hs & Ht4 & _).
    unfold bind at 1. rewrite Hs.
    destruct (nonempty_results res) as [results|] eqn:Hres.
    + destruct (answer_loop_run session_db rq results [] s4)
        as (ans & s5 & t5 & Hl & Hids & Ht5 & Hp5 & Hc5 & Hs5 & Hg5).
      unfold bind at 1. rewrite Hl. unfold ret. cbn [app].
      eexists _, s5, _. do 3 (split; [reflexivity |]). split; [reflexivity |].
      split; [rewrite Ht5, Ht4, Ht, <- !List.app_assoc; reflexivity |].
      unfold preprocess_calls, check_calls, search_calls, generate_calls in *.
      repeat (cbn [omap list_omap app];
              rewrite ?omap_app, ?omap_errors by reflexivity).
      rewrite Hp5, Hc5, Hs5, Hg5. do 2 (split; [reflexivity |]).
      exists res, s4. rewrite Hres. do 2 (split; [reflexivity |]).
      exists ans. by repeat split.
    + unfold ret. eexists _, s4, _. do 3 (split; [reflexivity |]).
      split; [reflexivity |].
      split; [rewrite Ht4, Ht, <- !List.app_assoc; reflexivity |].
      unfold preprocess_calls, check_calls, search_calls, generate_calls in *.
      repeat (cbn [omap list_omap app];
              rewrite ?omap_app, ?omap_errors by reflexivity).
      do 2 (split; [reflexivity |]).
      exists res, s4. rewrite Hres. by repeat split.
  - unfold ret. eexists _, s3, _. do 3 (split; [reflexivity |]).
    split; [reflexivity |]. split; [exact Ht |].
    unfold preprocess_calls, check_calls, search_calls, generate_calls in *.
    repeat (cbn [omap list_omap app];
            rewrite ?omap_app, ?omap_errors by reflexivity).
    by repeat split.
Qed.

End Runs.

(** ** The model at work *)

Example lower_strip_example :
  PyStr.lower (PyStr.strip "  Yes, but only partially. ") = "yes, but only partially.".
Proof. reflexivity. Qed.

Example contains_yes_examples :
  map (fun r => PyStr.contains "yes" (PyStr.lower r))
      [ "Yes"; "YES."; "No"; ""; "Eyes only"; "y e s"; "Yes, but only partially" ]
  = [ true; true; false; false; true; false; true ].
Proof. reflexivity. Qed.

(** One hit: the dict with one answer, and the game recorded. *)
Example get_answer_one_hit :
  get_answer (scripted_env []) "What are the ruls of chess?" 7 healthy_session 1
    false (Some (store_with [chess])) initial
  = (Return (RelatedWithAnswers
               [ {| game_name := PStr "Chess";
                    answer := "Chess is played on an 8x8 board...";
                    game_id := PStr "G1";
                    subcategory := PNone;
                    level := PNone;
                    category := PNone |} ]
               "What are the rules of chess?"),
     {| clock := 9;
        trace :=
          [ CallPreprocess "What are the ruls of chess?";
            CallGpt (preprocess_prompt "What are the ruls of chess?");
            CallCheck "What are the ruls of chess?";
            CallGpt (check_prompt "What are the ruls of chess?");
            CallCheck "What are the rules of chess?";
            CallGpt (check_prompt "What are the rules of chess?");
            CallSearch "What are the rules of chess?" 1;
            CallGenerate chess "What are the rules of chess?";
            CallGpt (generate_prompt chess "What are the rules of chess?");
            CallSave chess ];
        searched_games :=
          [ {| Models.game_id := PStr "G1";
               Models.game_name := PStr "Chess";
               Models.subcategory := PNone;
               Models.level := PNone;
               Models.category := PNone;
               Models.searched_time := 1700000007 |} ] |}).
Proof. vm_compute. reflexivity. Qed.

(** Both checks fail: the question is rejected and nothing is searched. *)
Example get_answer_checks_down :
  (get_answer (scripted_env [1%nat; 2%nat]) "What are the ruls of chess?" 7
     healthy_session 1 false (Some (store_with [chess])) initial).1
  = Return (NotRelated "What are the rules of chess?").
Proof. vm_compute. reflexivity. Qed.

(** No hit. *)
Example get_answer_no_hit :
  (get_answer (scripted_env []) "What are the ruls of chess?" 7 healthy_session 1
     false (Some (store_with [])) initial).1
  = Return (RelatedNoMatch "What are the rules of chess?").
Proof. vm_compute. reflexivity. Qed.

(** The store answers [null] for ['Game'], or there is no client. *)
Example get_answer_null_games :
  (get_answer (scripted_env []) "What are the ruls of chess?" 7 healthy_session 1
     false (Some {| client_do := fun _ _ => Return (DataDict (GetDict GameNull)) |})
     initial).1
  = Return (RelatedNoMatch "What are the rules of chess?")
  /\ (get_answer (scripted_env []) "What are the ruls of chess?" 7 healthy_session 1
        false None initial).1
     = Return (RelatedNoMatch "What are the rules of chess?").
Proof. split; vm_compute; reflexivity. Qed.

(** Repeated notifications store each game once. *)
Example save_each_repeated :
  map Models.game_id
      (searched_games
         (save_each (scripted_env []) healthy_session
            [chess; checkers; chess; chess] initial).2)
  = [PStr "G1"; PStr "G2"].
Proof. vm_compute. reflexivity. Qed.

(** A record without a name is committed with a null name; a session that
    refuses it stores nothing. *)
Example save_refused :
  searched_games
    (save_searched_game_to_db (scripted_env [])
       {| query_fault := fun _ => None;
          commit_fault := fun _ row =>
            if bool_decide (Models.game_name row = PNone)
            then Some connection_error else None |}
       {[ "gameId" := PStr "G9" ]} initial).2
  = [].
Proof. vm_compute. reflexivity. Qed.

(** ** Properties of the pipeline *)

Import PyStr.

(** C1.  [get_answer] treats the request as related exactly when
    [check_if_game_related] returns true for the original question or for
    the rewritten one.  When both checks return false, it returns the
    not-related dict with the fixed rejection message and the rewritten
    question, and the trace gains no [search_weaviate] call. *)
Theorem get_answer_related_iff_either (env : Env) (question : string) (user_id : Z)
    (session_db : Session) (k : Z) (hybrid : bool) (weaviate_client : option Client)
    (s : State) :
  exists rq s1 b1 s2 b2 s3 r s',
    preprocess_query env question s = (Return rq, s1)
    /\ check_if_game_related env question s1 = (Return b1, s2)
    /\ check_if_game_related env rq s2 = (Return b2, s3)
    /\ get_answer env question user_id session_db k hybrid weaviate_client s
       = (Return r, s')
    /\ is_related r = b1 || b2
    /\ (b1 || b2 = false ->
        r = NotRelated rq
        /\ message r = Some not_related_message
        /\ rewritten_question r = rq
        /\ s' = s3
        /\ search_calls (trace s') = search_calls (trace s)).
Proof.
  destruct (get_answer_run env question user_id session_db k hybrid weaviate_client s)
    as (rq & s1 & b1 & s2 & b2 & s3 & r & s' & t & Hp & Hc1 & Hc2 & Hrun & Ht & _ & _ & Hbranch).
  exists rq, s1, b1, s2, b2, s3, r, s'. do 4 (split; [assumption |]).
  destruct (b1 || b2).
  - destruct Hbranch as (res & s4 & _ & _ & Hres). split; [| discriminate].
    destruct (nonempty_results res).
    + by destruct Hres as (ans & _ & -> & _).
    + by destruct Hres as (-> & _).
  - destruct Hbranch as (-> & -> & Hs & _). split; [reflexivity |]. intros _.
    repeat split. rewrite Ht. unfold search_calls in *.
    by rewrite omap_app, Hs, List.app_nil_r.
Qed.

(** C3.  One invocation of [get_answer] calls [preprocess_query] exactly
    once; the string that call returned is the argument of the second
    relatedness check, of every vector search and of every answer
    generation, and is the [rewritten_question] of the returned dict. *)
Theorem get_answer_rewrites_once (env : Env) (question : string) (user_id : Z)
    (session_db : Session) (k : Z) (hybrid : bool) (weaviate_client : option Client)
    (s : State) :
  exists r s' t s1,
    get_answer env question user_id session_db k hybrid weaviate_client s
    = (Return r, s')
    /\ trace s' = trace s ++ t
    /\ preprocess_query env question s = (Return (rewritten_question r), s1)
    /\ preprocess_calls t = [question]
    /\ check_calls t = [question; rewritten_question r]
    /\ (forall q' k', (q', k') ∈ search_calls t ->
          q' = rewritten_question r /\ k' = k)
    /\ (forall i q', (i, q') ∈ generate_calls t -> q' = rewritten_question r).
Proof.
  destruct (get_answer_run env question user_id session_db k hybrid weaviate_client s)
    as (rq & s1 & b1 & s2 & b2 & s3 & r & s' & t & Hp & _ & _ & Hrun & Ht & Hpc & Hcc & Hbranch).
  assert (Hrq : rewritten_question r = rq
                /\ (forall q' k', (q', k') ∈ search_calls t -> q' = rq /\ k' = k)
                /\ (forall i q', (i, q') ∈ generate_calls t -> q' = rq)).
  { destruct (b1 || b2).
    - destruct Hbranch as (res & s4 & _ & Hsc & Hres). rewrite Hsc.
      assert (Hone : forall q' k', (q', k') ∈ [(rq, k)] -> q' = rq /\ k' = k).
      { intros q' k' Hin. apply list_elem_of_singleton in Hin. by injection Hin. }
      destruct (nonempty_results res) as [results|].
      + destruct Hres as (ans & _ & -> & _ & ->).
        split; [reflexivity |]. split; [exact Hone |].
        intros i q' Hin. apply list_elem_of_fmap in Hin as (x & Heq & _).
        by injection Heq.
      + destruct Hres as (-> & _ & ->).
        split; [reflexivity |]. split; [exact Hone |].
        intros i q' Hin. by apply elem_of_nil in Hin.
    - destruct Hbranch as (-> & _ & -> & ->).
      split; [reflexivity |].
      split; intros ? ? Hin; by apply elem_of_nil in Hin. }
  destruct Hrq as (Hrq & Hs & Hg). exists r, s', t, s1. rewrite Hrq.
  do 5 (split; [assumption |]). split; assumption.
Qed.

(** C6.  [check_if_game_related] always returns.  When the chat model
    answers with a text, the result is true exactly when the text has an
    occurrence of "yes" up to letter case; when the model answers without
    a text or the call raises, the result is false. *)
Theorem check_if_game_related_yes_iff (env : Env) (question : string) (s : State) :
  exists b s',
    check_if_game_related env question s = (Return b, s')
    /\ match openai_create env (clock s) (gpt_request (check_prompt question)) with
       | Return (Some content) => b = true <-> contains_ci "yes" content
       | Return None => b = false
       | Raise _ => b = false
       end.
Proof.
  destruct (check_if_game_related_run env question s) as (s' & errs & Hrun & _).
  eexists _, s'. split; [exact Hrun |].
  destruct (openai_create env (clock s) (gpt_request (check_prompt question)))
    as [[content|]|e]; [| reflexivity..].
  cbn [gpt_reply]. rewrite <- PyStrFacts.contains_ci_yes_strip.
  exact (PyStrFacts.contains_lower "yes" (strip content)).
Qed.

(** C10.  The outcome of [get_answer], result and state, is the same for
    any two values of [user_id] and any two values of [hybrid]. *)
Theorem get_answer_ignores_user_id_and_hybrid (env : Env) (question : string)
    (user_id1 user_id2 : Z) (session_db : Session) (k : Z) (hybrid1 hybrid2 : bool)
    (weaviate_client : option Client) (s : State) :
  get_answer env question user_id1 session_db k hybrid1 weaviate_client s
  = get_answer env question user_id2 session_db k hybrid2 weaviate_client s.
Proof. reflexivity. Qed.

(** C2.  When the request is related and the search returns a non-empty
    list, [get_answer] returns the dict with as many answers as records,
    and the i-th answer carries the [gameId] of the i-th record.  (The
    bound of the list's length by [k] is not needed.) *)
Theorem get_answer_answers_follow_results (env : Env) (question : string)
    (user_id : Z) (session_db : Session) (k : Z) (hybrid : bool)
    (weaviate_client : option Client) (s : State)
    (rq : string) (s1 : State) (b1 : bool) (s2 : State) (b2 : bool) (s3 : State)
    (results : list game_info) (s4 : State) :
  preprocess_query env question s = (Return rq, s1) ->
  check_if_game_related env question s1 = (Return b1, s2) ->
  check_if_game_related env rq s2 = (Return b2, s3) ->
  b1 || b2 = true ->
  search_weaviate env rq weaviate_client k s3 = (Return (Some results), s4) ->
  results <> [] ->
  exists ans s',
    get_answer env question user_id session_db k hybrid weaviate_client s
    = (Return (RelatedWithAnswers ans rq), s')
    /\ length ans = length results
    /\ map game_id ans = map (fun result => dict_get result "gameId" PNone) results
    /\ (forall (i : nat) result,
          results !! i = Some result ->
          exists a, ans !! i = Some a /\ game_id a = dict_get result "gameId" PNone).
Proof.
  intros Hp0 Hc10 Hc20 Hb Hs0 Hne.
  destruct (get_answer_run env question user_id session_db k hybrid weaviate_client s)
    as (rq' & s1' & b1' & s2' & b2' & s3' & r & s' & t & Hp & Hc1 & Hc2 & Hrun & _ & _ & _ & Hbranch).
  rewrite Hp0 in Hp. injection Hp as <- <-.
  rewrite Hc10 in Hc1. injection Hc1 as <- <-.
  rewrite Hc20 in Hc2. injection Hc2 as <- <-.
  rewrite Hb in Hbranch. destruct Hbranch as (res & s4' & Hs & _ & Hres).
  rewrite Hs0 in Hs. injection Hs as <- <-.
  destruct results as [|r0 results]; [contradiction |]. cbn [nonempty_results] in Hres.
  destruct Hres as (ans & _ & -> & Hids & _).
  exists ans, s'. split; [exact Hrun |].
  assert (Hlen : length ans = length (r0 :: results)).
  { rewrite <- (length_map game_id ans), Hids. apply length_map. }
  do 2 (split; [assumption |]).
  intros i result Hi.
  assert (Hgi : map game_id ans !! i = Some (dict_get result "gameId" PNone)).
  { rewrite Hids. change (map ?f ?l) with (f <$> l). by rewrite list_lookup_fmap, Hi. }
  change (map ?f ?l) with (f <$> l) in Hgi. rewrite list_lookup_fmap in Hgi.
  destruct (ans !! i) as [a|]; [| discriminate].
  exists a. split; [reflexivity |]. by injection Hgi.
Qed.

(** A related question with two hits. *)
Lemma get_answer_answers_follow_results_witness :
  exists ans s',
    get_answer (scripted_env []) "What are the ruls of chess?" 7 healthy_session 2
      false (Some (store_with [chess; checkers])) initial
    = (Return (RelatedWithAnswers ans "What are the rules of chess?"), s')
    /\ length ans = length [chess; checkers]
    /\ map game_id ans
       = map (fun result => dict_get result "gameId" PNone) [chess; checkers]
    /\ (forall (i : nat) result,
          [chess; checkers] !! i = Some result ->
          exists a, ans !! i = Some a /\ game_id a = dict_get result "gameId" PNone).
Proof.
  eapply (get_answer_answers_follow_results (scripted_env [])
            "What are the ruls of chess?" 7 healthy_session 2 false
            (Some (store_with [chess; checkers])) initial).
  - vm_compute. reflexivity.
  - vm_compute. reflexivity.
  - vm_compute. reflexivity.
  - vm_compute. reflexivity.
  - vm_compute. reflexivity.
  - discriminate.
Defined.

(** C7.  When the encoder or the vector store raises, [search_weaviate]
    returns the empty list instead of raising, for every question, [k] and
    state; and [get_answer], for a related request whose search fails so,
    returns the no-match dict with the fixed message, not a dict with
    answers. *)
Theorem search_failure_gives_no_match (env : Env) (question : string)
    (user_id : Z) (session_db : Session) (k : Z) (hybrid : bool)
    (weaviate_client : option Client) (s : State)
    (rq : string) (s1 : State) (b1 : bool) (s2 : State) (b2 : bool) (s3 : State) :
  preprocess_query env question s = (Return rq, s1) ->
  check_if_game_related env question s1 = (Return b1, s2) ->
  check_if_game_related env rq s2 = (Return b2, s3) ->
  b1 || b2 = true ->
  search_collaborator_fails env weaviate_client rq k (clock s3) ->
  (forall (q' : string) (k' : Z) (s0 : State),
     search_collaborator_fails env weaviate_client q' k' (clock s0) ->
     exists s0', search_weaviate env q' weaviate_client k' s0 = (Return (Some []), s0'))
  /\ exists r s',
       get_answer env question user_id session_db k hybrid weaviate_client s
       = (Return r, s')
       /\ r = RelatedNoMatch rq
       /\ message r = Some no_match_message
       /\ answers r = None.
Proof.
  intros Hp0 Hc10 Hc20 Hb Hfail.
  split; [intros q' k' s0; apply search_weaviate_failure |].
  destruct (search_weaviate_failure env rq weaviate_client k s3 Hfail) as [s4 Hs0].
  destruct (get_answer_run env question user_id session_db k hybrid weaviate_client s)
    as (rq' & s1' & b1' & s2' & b2' & s3' & r & s' & t & Hp & Hc1 & Hc2 & Hrun & _ & _ & _ & Hbranch).
  rewrite Hp0 in Hp. injection Hp as <- <-.
  rewrite Hc10 in Hc1. injection Hc1 as <- <-.
  rewrite Hc20 in Hc2. injection Hc2 as <- <-.
  rewrite Hb in Hbranch. destruct Hbranch as (res & s4' & Hs & _ & Hres).
  rewrite Hs0 in Hs. injection Hs as <- <-.
  cbn [nonempty_results] in Hres. destruct Hres as (-> & _).
  exists (RelatedNoMatch rq), s'. by repeat split.
Qed.

(** A related question asked while the vector store is down. *)
Lemma search_failure_gives_no_match_witness :
  (forall (q' : string) (k' : Z) (s0 : State),
     search_collaborator_fails (scripted_env []) (Some store_down) q' k' (clock s0) ->
     exists s0',
       search_weaviate (scripted_env []) q' (Some store_down) k' s0
       = (Return (Some []), s0'))
  /\ exists r s',
       get_answer (scripted_env []) "What are the ruls of chess?" 7
         healthy_session 1 false (Some store_down) initial
       = (Return r, s')
       /\ r = RelatedNoMatch "What are the rules of chess?"
       /\ message r = Some no_match_message
       /\ answers r = None.
Proof.
  eapply (search_failure_gives_no_match (scripted_env [])
            "What are the ruls of chess?" 7 healthy_session 1 false
            (Some store_down) initial).
  - vm_compute. reflexivity.
  - vm_compute. reflexivity.
  - vm_compute. reflexivity.
  - vm_compute. reflexivity.
  - vm_compute. exact I.
Defined.

(** C9.  Whatever sequence of records [save_searched_game_to_db] is called
    with, in particular two or more records with the same [gameId], a
    store with at most one row under a key ends with at most one row under
    that key; every call returns. *)
Theorem save_each_keeps_one_row (env : Env) (session_db : Session)
    (infos : list game_info) (gid : py_value) (s : State) :
  (stored gid (searched_games s) <= 1)%nat ->
  exists s',
    save_each env session_db infos s = (Return tt, s')
    /\ (stored gid (searched_games s') <= 1)%nat.
Proof.
  revert s. induction infos as [|info rest IH]; intros s Hs.
  - exists s. by split.
  - destruct (save_searched_game_to_db_stored env session_db info gid s)
      as (s1 & Hrun & Hle).
    destruct (IH s1) as (s' & Hrest & Hs'); [lia |].
    exists s'. split; [| exact Hs'].
    cbn [save_each]. unfold bind. by rewrite Hrun.
Qed.

(** Four notifications, three of them for the same game, on an empty
    store. *)
Lemma save_each_keeps_one_row_witness :
  exists s',
    save_each (scripted_env []) healthy_session [chess; checkers; chess; chess] initial
    = (Return tt, s')
    /\ (stored (PStr "G1") (searched_games s') <= 1)%nat.
Proof.
  apply (save_each_keeps_one_row (scripted_env []) healthy_session
           [chess; checkers; chess; chess] (PStr "G1") initial).
  vm_compute. lia.
Defined.

(** The handlers of [preprocess_query] and
    [generate_answer_from_game_info] are never entered for a failure of
    the chat model: [call_gpt_4o_mini] has already turned it into "No". *)
Lemma preprocess_query_on_failure (env : Env) (question : string) (s : State)
    (e : exn) :
  openai_create env (clock s) (gpt_request (preprocess_prompt question)) = Raise e ->
  exists s', preprocess_query env question s = (Return "No", s').
Proof.
  intros He. destruct (preprocess_query_run env question s) as (s' & errs & Hrun & _).
  rewrite He in Hrun. by exists s'.
Qed.

Lemma generate_answer_on_failure (env : Env) (info : game_info) (question : string)
    (s : State) (e : exn) :
  openai_create env (clock s) (gpt_request (generate_prompt info question)) = Raise e ->
  exists s', generate_answer_from_game_info env info question s = (Return "No", s').
Proof.
  intros He.
  destruct (generate_answer_from_game_info_run env info question s)
    as (s' & errs & Hrun & _).
  rewrite He in Hrun. by exists s'.
Qed.

(** C4.  With a chat model whose first call raises, [preprocess_query]
    returns the text "No", which is not the question it was given. *)
Theorem preprocess_query_failure_returns_No :
  exists s',
    preprocess_query (scripted_env [0%nat]) "What are the ruls of chess?" initial
    = (Return "No", s')
    /\ "No" <> "What are the ruls of chess?".
Proof.
  destruct (preprocess_query_on_failure (scripted_env [0%nat])
              "What are the ruls of chess?" initial connection_error) as [s' Hrun].
  - reflexivity.
  - exists s'. split; [exact Hrun | discriminate].
Qed.

(** C5.  With two hits and a chat model that raises on the generation for
    the first, the first answer's text is "No", not the apology; the
    second hit still gets its generated text. *)
Theorem generation_failure_answers_No :
  exists ans s',
    get_answer (scripted_env [5%nat]) "What are the ruls of chess?" 7
      healthy_session 2 false (Some (store_with [chess; checkers])) initial
    = (Return (RelatedWithAnswers ans "What are the rules of chess?"), s')
    /\ map answer ans = ["No"; "Chess is played on an 8x8 board..."]
    /\ "No" <> apology.
Proof.
  eexists _, _. split; [vm_compute; reflexivity |].
  split; [reflexivity | discriminate].
Qed.

(** Membership in a list written out. *)
Ltac in_list := repeat first [apply list_elem_of_here | apply list_elem_of_further].

(** C8, as stated, fails.  The prompt for a record with every attribute
    does not show its [gameId]; for a record that lacks only its name, or
    only its description, the prompt shows "Unknown Game", or "No
    description available.", and no "N/A" at all; and the prompt for the
    empty record has 14 "N/A" for 17 attributes. *)
Lemma every_attribute_serialized_fails :
  ("gameId" ∈ game_properties
   /\ full_chess !! "gameId" = Some (PStr "G1")
   /\ contains "G1" (generate_prompt full_chess "How long is a game?") = false)
  /\ ("gameName" ∈ game_properties
      /\ nameless_chess !! "gameName" = None
      /\ contains "N/A" (generate_prompt nameless_chess "How long is a game?") = false
      /\ contains ("Game Name: Unknown Game" +:+ nl)
           (generate_prompt nameless_chess "How long is a game?") = true)
  /\ ("description" ∈ game_properties
      /\ undescribed_chess !! "description" = None
      /\ contains "N/A" (generate_prompt undescribed_chess "How long is a game?") = false
      /\ contains ("Description: No description available." +:+ nl)
           (generate_prompt undescribed_chess "How long is a game?") = true)
  /\ (length game_properties = 17%nat
      /\ occurrences "N/A" (generate_prompt ∅ "") = 14%nat)
  /\ ~ every_attribute_serialized.
Proof.
  assert (Hid : "gameId" ∈ game_properties) by (unfold game_properties; in_list).
  assert (Hg1 : contains "G1" (generate_prompt full_chess "How long is a game?") = false)
    by (vm_compute; reflexivity).
  split; [split; [exact Hid | split; [vm_compute; reflexivity | exact Hg1]] |].
  split; [split; [unfold game_properties; in_list
                 | repeat split; vm_compute; reflexivity] |].
  split; [split; [unfold game_properties; in_list
                 | repeat split; vm_compute; reflexivity] |].
  split; [split; vm_compute; reflexivity |].
  intros Hall.
  specialize (Hall full_chess "How long is a game?" "gameId" Hid).
  change (py_str (dict_get full_chess "gameId" (PStr "N/A"))) with "G1" in Hall.
  rewrite Hg1 in Hall. discriminate.
Qed.

(** The generation prompt, as the list of its lines. *)
Lemma generate_prompt_lines (info : game_info) (question : string) :
  generate_prompt info question
  = lines ([ "";
             "You are a game instructor assistant. Use the following game information to answer the user's question.";
             "" ]
           ++ map (fun '(label, key, dflt) =>
                     label +:+ ": " +:+ py_str (dict_get info key (PStr dflt)))
                  prompt_fields
           ++ [ ""; "User's Question: " +:+ question; ""; "Answer:" ]).
Proof. reflexivity. Qed.

(** C8, amended.  The prompt has one line, label and text, for every
    attribute of a record except [gameId]; an attribute the record lacks is
    printed as "N/A", except the name, printed as "Unknown Game", and the
    description, printed as "No description available."; and the prompt
    does not depend on the record's [gameId]. *)
Theorem generate_prompt_fields_serialized (info : game_info) (question : string) :
  (forall label key dflt : string,
     (label, key, dflt) ∈ prompt_fields ->
     contains (label +:+ ": " +:+ py_str (dict_get info key (PStr dflt)) +:+ nl)
       (generate_prompt info question) = true)
  /\ (forall key : string,
        key ∈ game_properties <->
        key = "gameId" \/ exists label dflt, (label, key, dflt) ∈ prompt_fields)
  /\ (forall label key dflt : string,
        (label, key, dflt) ∈ prompt_fields ->
        dflt = if bool_decide (key = "gameName") then "Unknown Game"
               else if bool_decide (key = "description")
                    then "No description available."
                    else "N/A")
  /\ (forall v : py_value,
        generate_prompt (<["gameId" := v]> info) question
        = generate_prompt info question)
  /\ generate_prompt (delete "gameId" info) question = generate_prompt info question.
Proof.
  split; [| split; [| split; [| split]]].
  - intros label key dflt Hin.
    rewrite generate_prompt_lines.
    replace (label +:+ ": " +:+ py_str (dict_get info key (PStr dflt)) +:+ nl)
      with ((label +:+ ": " +:+ py_str (dict_get info key (PStr dflt))) +:+ nl)
      by (by rewrite !PyStrFacts.app_assoc).
    apply PyStrFacts.contains_line.
    apply elem_of_app. right. apply elem_of_app. left.
    apply list_elem_of_fmap. by exists (label, key, dflt).
  - intros key. split.
    + intros Hin. unfold game_properties in Hin.
      repeat (apply elem_of_cons in Hin as [-> | Hin];
              [first [ by left
                     | right; eexists _, _; unfold prompt_fields; in_list ] |]).
      by apply elem_of_nil in Hin.
    + intros [-> | (label & dflt & Hin)].
      * unfold game_properties. in_list.
      * unfold prompt_fields in Hin.
        repeat (apply elem_of_cons in Hin as [Heq | Hin];
                [injection Heq as -> -> ->; unfold game_properties; in_list |]).
        by apply elem_of_nil in Hin.
  - intros label key dflt Hin. unfold prompt_fields in Hin.
    repeat (apply elem_of_cons in Hin as [Heq | Hin];
            [injection Heq as -> -> ->; reflexivity |]).
    by apply elem_of_nil in Hin.
  - intros v. unfold generate_prompt, field_line, dict_get.
    by rewrite !lookup_insert_ne.
  - unfold generate_prompt, field_line, dict_get.
    by rewrite !lookup_delete_ne.
Qed.


(** * Further properties of [rag_flow.py] *)

Module PyStrTrim.

Import PyStr.

Lemma rstrip_idempotent (s : string) : rstrip (rstrip s) = rstrip s.
Proof.
  induction s as [|c s IH]; [reflexivity |]. cbn [rstrip].
  destruct (rstrip s) as [|d r] eqn:Hr.
  - destruct (isspace c) eqn:Hc; [reflexivity |]. cbn [rstrip]. by rewrite Hc.
  - cbn [rstrip]. cbn [rstrip] in IH. by rewrite IH.
Qed.

Lemma lstrip_starts_clean (s : string) : starts_clean (lstrip s).
Proof.
  induction s as [|c s IH]; [exact I |]. cbn [lstrip].
  destruct (isspace c) eqn:Hc; [exact IH | exact Hc].
Qed.

Lemma rstrip_starts_clean (s : string) : starts_clean s -> starts_clean (rstrip s).
Proof.
  destruct s as [|c s]; [done |]. cbn [rstrip starts_clean]. intros Hc.
  destruct (rstrip s); [by rewrite Hc | done].
Qed.

Lemma lstrip_clean (s : string) : starts_clean s -> lstrip s = s.
Proof. destruct s as [|c s]; [done |]. cbn. by intros ->. Qed.

Lemma strip_idempotent (s : string) : strip (strip s) = strip s.
Proof.
  unfold strip.
  rewrite (lstrip_clean (rstrip (lstrip s)))
    by apply rstrip_starts_clean, lstrip_starts_clean.
  apply rstrip_idempotent.
Qed.

End PyStrTrim.

Section Effects.

Variable env : Env.

Import PyStr.

Lemma nonempty_results_some (res : search_results) (results : list game_info) :
  nonempty_results res = Some results -> res = Some results /\ results <> [].
Proof. destruct res as [[|r rs]|]; simpl; intros H; by simplify_eq. Qed.

Lemma nonempty_results_none (res : search_results) :
  nonempty_results res = None -> res = None \/ res = Some [].
Proof. destruct res as [[|r rs]|]; simpl; intros H; by auto. Qed.

Lemma find_some_stored (gid : py_value) (rows : list Models.SearchedGame) :
  gid ∈ stored_keys rows ->
  exists row, List.find (fun r => bool_decide (Models.game_id r = gid)) rows = Some row.
Proof.
  unfold stored_keys. induction rows as [|r rows IH]; simpl; intros Hin.
  - by apply elem_of_nil in Hin.
  - case_bool_decide as Hr; [by eexists |].
    apply elem_of_cons in Hin as [Heq | Hin]; [by subst | by apply IH].
Qed.

Lemma stored_zero_not_key (gid : py_value) (rows : list Models.SearchedGame) :
  stored gid rows = 0%nat -> gid ∉ stored_keys rows.
Proof.
  unfold stored, stored_keys. induction rows as [|r rows IH]; simpl.
  - intros _ Hin. by apply elem_of_nil in Hin.
  - rewrite filter_cons. case_decide as Hr; [discriminate |].
    intros H0 Hin. apply elem_of_cons in Hin as [Heq | Hin]; [by subst |].
    by apply IH.
Qed.

(** [search_weaviate] makes one or two external calls; with no client it
    returns the empty list. *)
Lemma search_weaviate_effects (question : string) (client : option Client) (k : Z)
    (s : State) :
  exists res s' errs,
    search_weaviate env question client k s = (Return res, s')
    /\ trace s' = trace s ++ CallSearch question k :: map StError errs
    /\ searched_games s' = searched_games s
    /\ (clock s < clock s' <= clock s + 2)%nat
    /\ (client = None -> res = Some []).
Proof.
  unfold search_weaviate, external, report, st_error, try_except, bind, tick,
    emit, ret, raise; simpl.
  destruct (query_model_encode env (clock s) question) as [v|e]; simpl.
  - destruct client as [c|]; simpl.
    + destruct (client_do c (S (clock s)) (game_query v k))
        as [[| |[| |[| |games]]]|e]; simpl;
        first [ eexists _, _, []; simpl; repeat split; simpl; (lia || done)
              | eexists _, _, [_; _]; simpl; rewrite <- !List.app_assoc;
                repeat split; simpl; (lia || done) ].
    + eexists _, _, [_; _]; simpl. rewrite <- !List.app_assoc.
      repeat split; simpl; lia.
  - eexists _, _, [_; _]; simpl. rewrite <- !List.app_assoc.
    repeat split; simpl; lia.
Qed.

(** [save_searched_game_to_db] makes at most three external calls, and a
    row it stores has a truthy key that was not stored before. *)
Lemma save_searched_game_to_db_effects (session_db : Session) (info : game_info)
    (s : State) :
  exists s' errs,
    save_searched_game_to_db env session_db info s = (Return tt, s')
    /\ trace s' = trace s ++ CallSave info :: map StError errs
    /\ (clock s <= clock s' <= clock s + 3)%nat
    /\ (searched_games s' = searched_games s
        \/ searched_games s'
           = searched_games s ++ [searched_game_of info (utcnow env (S (clock s)))]
           /\ truthy (dict_get info "gameId" PNone) = true
           /\ dict_get info "gameId" PNone ∉ stored_keys (searched_games s)).
Proof.
  unfold save_searched_game_to_db, query_first, add_commit, external, report,
    st_error, try_except, bind, tick, emit, ret, raise; simpl.
  destruct (truthy (dict_get info "gameId" PNone)) eqn:Htruthy; simpl.
  - destruct (query_fault session_db (clock s)) as [e|]; simpl.
    + eexists _, [_; _]; simpl. rewrite <- !List.app_assoc.
      repeat split; simpl; try lia. by left.
    + destruct (List.find _ (searched_games s)) as [r|] eqn:Hfind; simpl.
      * eexists _, []. repeat split; simpl; try lia. by left.
      * destruct (commit_fault session_db (S (S (clock s))) _) as [e|]; simpl.
        -- eexists _, [_; _]; simpl. rewrite <- !List.app_assoc.
           repeat split; simpl; try lia. by left.
        -- eexists _, []. repeat split; simpl; try lia. right.
           repeat split. by apply stored_zero_not_key, find_none_stored.
  - eexists _, []. repeat split; simpl; try lia. by left.
Qed.

Lemma stored_keys_app (rows added : list Models.SearchedGame) :
  stored_keys (rows ++ added) = stored_keys rows ++ stored_keys added.
Proof. apply map_app. Qed.

(** The loop of [get_answer]: one answer and one generation prompt per
    record, in order; rows are only appended to the store, each with the
    truthy [gameId] of a record and a key not stored before; one to four
    external calls per record. *)
Lemma answer_loop_effects (session_db : Session) (rewritten : string)
    (results : list game_info) (acc : list Answer) (s : State) :
  exists texts s' t added,
    answer_loop env session_db rewritten results acc s
    = (Return (acc ++ zip_with answer_of results texts), s')
    /\ length texts = length results
    /\ trace s' = trace s ++ t
    /\ gpt_calls t = map (fun i => generate_prompt i rewritten) results
    /\ searched_games s' = searched_games s ++ added
    /\ (length added <= length results)%nat
    /\ (forall row, row ∈ added ->
          truthy (Models.game_id row) = true
          /\ exists result, result ∈ results
                            /\ dict_get result "gameId" PNone = Models.game_id row)
    /\ (NoDup (stored_keys (searched_games s)) ->
        NoDup (stored_keys (searched_games s')))
    /\ (clock s + length results <= clock s' <= clock s + 4 * length results)%nat.
Proof.
  revert acc s. induction results as [|r rest IH]; intros acc s.
  - exists [], s, [], []. cbn [answer_loop zip_with length]. unfold ret.
    rewrite !List.app_nil_r. do 6 (split; [done |]).
    split; [intros row Hin; by apply elem_of_nil in Hin |].
    split; [done | lia].
  - cbn [answer_loop]. unfold bind at 1.
    destruct (generate_answer_from_game_info_run env r rewritten s)
      as (s1 & e1 & -> & Ht1 & Hsg1 & Hck1).
    unfold bind at 1.
    destruct (save_searched_game_to_db_effects session_db r s1)
      as (s2 & e2 & -> & Ht2 & Hck2 & Hsave).
    match goal with |- context [answer_loop _ _ _ rest ?a s2] =>
      destruct (IH a s2)
        as (texts & s3 & t & added & -> & Hlen & Ht3 & Hg & Hsg3 & Hadd & Hrows & Hkeys & Hck3)
    end.
    set (text := gpt_reply (openai_create env (clock s)
                   (gpt_request (generate_prompt r rewritten)))).
    assert (Hstore : exists new, searched_games s2 = searched_games s ++ new
              /\ (length new <= 1)%nat
              /\ (forall row, row ∈ new ->
                    truthy (Models.game_id row) = true
                    /\ dict_get r "gameId" PNone = Models.game_id row)
              /\ (NoDup (stored_keys (searched_games s)) ->
                  NoDup (stored_keys (searched_games s2)))).
    { destruct Hsave as [Hsame | (Hnew & Htruthy & Hfresh)].
      - exists []. rewrite Hsame, Hsg1, List.app_nil_r.
        split; [done |]. split; [simpl; lia |].
        split; [intros row Hin; by apply elem_of_nil in Hin | done].
      - eexists [_]. rewrite Hnew, Hsg1. split; [reflexivity |].
        split; [simpl; lia |]. split.
        + intros row Hin. apply list_elem_of_singleton in Hin as ->. by split.
        + intros Hnd. rewrite stored_keys_app. apply NoDup_app.
          split; [exact Hnd |]. split; [| apply NoDup_singleton].
          intros x Hx Hx'. apply list_elem_of_singleton in Hx'. subst x.
          rewrite Hsg1 in Hfresh. by apply Hfresh. }
    destruct Hstore as (new & Hsg2 & Hnewlen & Hnewrows & Hnewkeys).
    eexists (text :: texts), s3, _, (new ++ added).
    split; [by rewrite <- List.app_assoc |].
    split; [simpl; by rewrite Hlen |].
    split; [rewrite Ht3, Ht2, Ht1, <- !List.app_assoc; simpl; reflexivity |].
    split.
    { unfold gpt_calls in *. cbn [omap list_omap app].
      rewrite !omap_app, !omap_errors by reflexivity. cbn [omap list_omap app].
      rewrite !omap_app, !omap_errors by reflexivity. by rewrite Hg. }
    split; [by rewrite Hsg3, Hsg2, <- List.app_assoc |].
    split; [rewrite length_app; simpl; lia |].
    split.
    { intros row Hin. apply elem_of_app in Hin as [Hin | Hin].
      - destruct (Hnewrows row Hin) as [Htr Hid]. split; [exact Htr |].
        exists r. split; [apply list_elem_of_here | exact Hid].
      - destruct (Hrows row Hin) as (Htr & result & Hres & Hid). split; [exact Htr |].
        exists result. split; [by apply list_elem_of_further | exact Hid]. }
    split; [by intros Hnd; apply Hkeys, Hnewkeys |].
    simpl. lia.
Qed.

(** One invocation of [get_answer], with everything it does: the result
    and the records it answers, the prompts sent to the chat model, the
    rows added to the store and the number of external calls. *)
Lemma get_answer_effects (question : string) (user_id : Z) (session_db : Session)
    (k : Z) (hybrid : bool) (weaviate_client : option Client) (s : State) :
  exists rq r s' t results texts added,
    get_answer env question user_id session_db k hybrid weaviate_client s
    = (Return r, s')
    /\ rewritten_question r = rq
    /\ trimmed rq
    /\ length texts = length results
    /\ (r = NotRelated rq /\ results = []
        \/ r = RelatedNoMatch rq /\ results = []
        \/ r = RelatedWithAnswers (zip_with answer_of results texts) rq
           /\ results <> [])
    /\ trace s' = trace s ++ t
    /\ gpt_calls t
       = [preprocess_prompt question; check_prompt question; check_prompt rq]
         ++ map (fun i => generate_prompt i rq) results
    /\ searched_games s' = searched_games s ++ added
    /\ (length added <= length results)%nat
    /\ (forall row, row ∈ added ->
          truthy (Models.game_id row) = true
          /\ exists result, result ∈ results
                            /\ dict_get result "gameId" PNone = Models.game_id row)
    /\ (NoDup (stored_keys (searched_games s)) ->
        NoDup (stored_keys (searched_games s')))
    /\ (clock s + 3 + length results <= clock s'
        <= clock s + 5 + 4 * length results)%nat
    /\ (weaviate_client = None -> results = [])
    /\ (is_related r = false -> clock s' = (clock s + 3)%nat).
Proof.
  destruct (preprocess_query_run env question s) as (s1 & e1 & Hp & Ht1 & Hsg1 & Hck1).
  destruct (check_if_game_related_run env question s1)
    as (s2 & e2 & Hc1 & Ht2 & Hsg2 & Hck2).
  remember (strip (gpt_reply (openai_create env (clock s)
              (gpt_request (preprocess_prompt question))))) as rq eqn:Hrq.
  assert (Htrim : trimmed rq) by (subst rq; apply PyStrTrim.strip_idempotent).
  destruct (check_if_game_related_run env rq s2) as (s3 & e3 & Hc2 & Ht3 & Hsg3 & Hck3).
  remember (contains "yes" (lower (gpt_reply (openai_create env (clock s1)
              (gpt_request (check_prompt question)))))) as b1 eqn:Hb1.
  remember (contains "yes" (lower (gpt_reply (openai_create env (clock s2)
              (gpt_request (check_prompt rq)))))) as b2 eqn:Hb2.
  clear Hrq Hb1 Hb2.
  assert (Ht : trace s3 = trace s ++
            (CallPreprocess question :: CallGpt (preprocess_prompt question)
               :: map StError e1)
            ++ (CallCheck question :: CallGpt (check_prompt question)
                  :: map StError e2)
            ++ (CallCheck rq :: CallGpt (check_prompt rq) :: map StError e3)).
  { rewrite Ht3, Ht2, Ht1, <- !List.app_assoc. reflexivity. }
  assert (Hsg : searched_games s3 = searched_games s) by congruence.
  assert (Hck : clock s3 = (clock s + 3)%nat) by lia.
  exists rq. unfold get_answer. unfold bind at 1. rewrite Hp.
  unfold bind at 1. rewrite Hc1. unfold bind at 1. rewrite Hc2.
  destruct (b1 || b2) eqn:Hb; cbn [negb].
  - destruct (search_weaviate_effects rq weaviate_client k s3)
      as (res & s4 & e4 & Hs & Ht4 & Hsg4 & Hck4 & Hnone).
    unfold bind at 1. rewrite Hs.
    destruct (nonempty_results res) as [results|] eqn:Hres.
    + apply nonempty_results_some in Hres as [-> Hne].
      destruct (answer_loop_effects session_db rq results [] s4)
        as (texts & s5 & t5 & added & Hl & Hlen & Ht5 & Hg5 & Hsg5 & Hadd & Hrows & Hkeys & Hck5).
      unfold bind at 1. rewrite Hl. unfold ret. cbn [app].
      eexists _, s5, _, results, texts, added.
      do 4 (split; [done |]). split; [by right; right |].
      split; [rewrite Ht5, Ht4, Ht, <- !List.app_assoc; reflexivity |].
      split.
      { unfold gpt_calls in *.
        repeat (cbn [omap list_omap app];
                rewrite ?omap_app, ?omap_errors by reflexivity).
        by rewrite Hg5. }
      split; [by rewrite Hsg5, Hsg4, Hsg |].
      do 2 (split; [done |]).
      split; [rewrite <- Hsg, <- Hsg4; exact Hkeys |].
      split; [lia |]. split; [| done].
      intros ->. specialize (Hnone eq_refl). by simplify_eq.
    + unfold ret. eexists _, s4, _, [], [], [].
      do 4 (split; [done |]). split; [by right; left |].
      split; [rewrite Ht4, Ht, <- !List.app_assoc; reflexivity |].
      split.
      { unfold gpt_calls.
        repeat (cbn [omap list_omap app];
                rewrite ?omap_app, ?omap_errors by reflexivity).
        reflexivity. }
      split; [by rewrite List.app_nil_r, Hsg4, Hsg |].
      split; [done |].
      split; [intros row Hin; by apply elem_of_nil in Hin |].
      split; [by rewrite Hsg4, Hsg |].
      split; [simpl; lia |]. split; done.
  - unfold ret. eexists _, s3, _, [], [], [].
    do 4 (split; [done |]). split; [by left |].
    split; [exact Ht |].
    split.
    { unfold gpt_calls.
      repeat (cbn [omap list_omap app];
              rewrite ?omap_app, ?omap_errors by reflexivity).
      reflexivity. }
    split; [by rewrite List.app_nil_r, Hsg |].
    split; [done |].
    split; [intros row Hin; by apply elem_of_nil in Hin |].
    split; [by rewrite Hsg |].
    split; [simpl; lia |]. split; [done | by intros _].
Qed.

End Effects.

Lemma zip_with_answer_of_length (results : list game_info) (texts : list string) :
  length texts = length results ->
  length (zip_with answer_of results texts) = length results.
Proof.
  revert texts. induction results as [|r rest IH]; intros [|x texts] Hlen;
    simpl in *; try done. by rewrite IH by lia.
Qed.

Lemma zip_with_answer_of_elem (results : list game_info) (texts : list string)
    (result : game_info) :
  length texts = length results ->
  result ∈ results ->
  exists text, answer_of result text ∈ zip_with answer_of results texts.
Proof.
  revert texts. induction results as [|r rest IH]; intros [|x texts] Hlen Hin;
    simpl in *; try done.
  - by apply elem_of_nil in Hin.
  - apply elem_of_cons in Hin as [-> | Hin].
    + exists x. apply list_elem_of_here.
    + destruct (IH texts) as [text Htext]; [lia | done |].
      exists text. by apply list_elem_of_further.
Qed.

(** X1.  [get_answer] never lets an exception escape, whatever the chat
    model, the encoder, the vector store and the database do, and it
    returns one of three dicts: not related, related without a match, or
    related with a list of answers that is never empty. *)
Theorem get_answer_returns_one_of_three (env : Env) (question : string)
    (user_id : Z) (session_db : Session) (k : Z) (hybrid : bool)
    (weaviate_client : option Client) (s : State) :
  exists r s' rq,
    get_answer env question user_id session_db k hybrid weaviate_client s
    = (Return r, s')
    /\ (r = NotRelated rq
        \/ r = RelatedNoMatch rq
        \/ exists ans, ans <> [] /\ r = RelatedWithAnswers ans rq).
Proof.
  destruct (get_answer_effects env question user_id session_db k hybrid weaviate_client s)
    as (rq & r & s' & t & results & texts & added & Hrun & _ & _ & Hlen & Hshape & _).
  exists r, s', rq. split; [exact Hrun |].
  destruct Hshape as [[-> _] | [[-> _] | [-> Hne]]]; [by left | by right; left |].
  right; right. eexists. split; [| reflexivity].
  intros Hnil. apply (f_equal length) in Hnil.
  rewrite zip_with_answer_of_length in Hnil by done. by destruct results.
Qed.

(** X2.  [get_answer] only appends to the stored rows: none is changed or
    removed, at most one is added per answer, and every added row has a
    truthy key that is the [game_id] of one of the returned answers.  A
    result without answers adds nothing. *)
Theorem get_answer_store_only_grows (env : Env) (question : string)
    (user_id : Z) (session_db : Session) (k : Z) (hybrid : bool)
    (weaviate_client : option Client) (s : State) :
  exists r s' added,
    get_answer env question user_id session_db k hybrid weaviate_client s
    = (Return r, s')
    /\ searched_games s' = searched_games s ++ added
    /\ (length added <= length (default [] (answers r)))%nat
    /\ (forall row, row ∈ added ->
          truthy (Models.game_id row) = true
          /\ exists a, a ∈ default [] (answers r)
                       /\ game_id a = Models.game_id row).
Proof.
  destruct (get_answer_effects env question user_id session_db k hybrid weaviate_client s)
    as (rq & r & s' & t & results & texts & added & Hrun & _ & _ & Hlen & Hshape
        & _ & _ & Hsg & Hadd & Hrows & _).
  exists r, s', added. do 2 (split; [done |]).
  assert (Hans : default [] (answers r) = zip_with answer_of results texts).
  { destruct Hshape as [[-> ->] | [[-> ->] | [-> _]]]; reflexivity. }
  rewrite Hans, zip_with_answer_of_length by done. split; [done |].
  intros row Hin. destruct (Hrows row Hin) as (Htr & result & Hres & Hid).
  split; [exact Htr |].
  destruct (zip_with_answer_of_elem results texts result Hlen Hres) as [text Htext].
  by exists (answer_of result text).
Qed.

(** X3.  [get_answer] keeps the keys of the stored rows pairwise distinct. *)
Theorem get_answer_keeps_keys_distinct (env : Env) (question : string)
    (user_id : Z) (session_db : Session) (k : Z) (hybrid : bool)
    (weaviate_client : option Client) (s : State) :
  NoDup (stored_keys (searched_games s)) ->
  exists r s',
    get_answer env question user_id session_db k hybrid weaviate_client s
    = (Return r, s')
    /\ NoDup (stored_keys (searched_games s')).
Proof.
  intros Hnd.
  destruct (get_answer_effects env question user_id session_db k hybrid weaviate_client s)
    as (rq & r & s' & t & results & texts & added & Hrun & _ & _ & _ & _
        & _ & _ & _ & _ & _ & Hkeys & _).
  exists r, s'. split; [exact Hrun | by apply Hkeys].
Qed.

(** The same game found twice by one search, on an empty store. *)
Lemma get_answer_keeps_keys_distinct_witness :
  exists r s',
    get_answer (scripted_env []) "What are the ruls of chess?" 7 healthy_session 2
      false (Some (store_with [chess; chess])) initial
    = (Return r, s')
    /\ NoDup (stored_keys (searched_games s')).
Proof.
  apply (get_answer_keeps_keys_distinct (scripted_env [])
           "What are the ruls of chess?" 7 healthy_session 2 false
           (Some (store_with [chess; chess])) initial).
  vm_compute. apply NoDup_nil_2.
Defined.

(** X4.  The chat model is called once for the rewrite, once for each of
    the two checks and once per answer, in this order and with these
    prompts; the generation prompts carry the rewritten question. *)
Theorem get_answer_chat_model_calls (env : Env) (question : string)
    (user_id : Z) (session_db : Session) (k : Z) (hybrid : bool)
    (weaviate_client : option Client) (s : State) :
  exists r s' t results,
    get_answer env question user_id session_db k hybrid weaviate_client s
    = (Return r, s')
    /\ trace s' = trace s ++ t
    /\ gpt_calls t
       = [ preprocess_prompt question; check_prompt question;
           check_prompt (rewritten_question r) ]
         ++ map (fun i => generate_prompt i (rewritten_question r)) results
    /\ length results = length (default [] (answers r))
    /\ length (gpt_calls t) = (3 + length (default [] (answers r)))%nat.
Proof.
  destruct (get_answer_effects env question user_id session_db k hybrid weaviate_client s)
    as (rq & r & s' & t & results & texts & added & Hrun & Hrq & _ & Hlen & Hshape
        & Ht & Hg & _).
  exists r, s', t, results. rewrite Hrq. do 3 (split; [done |]).
  assert (Hans : length results = length (default [] (answers r))).
  { destruct Hshape as [[-> ->] | [[-> ->] | [-> _]]]; try reflexivity.
    simpl. by rewrite zip_with_answer_of_length. }
  split; [exact Hans |].
  rewrite Hg, length_app, length_map, <- Hans. reflexivity.
Qed.

(** X5.  With [n] answers returned, [get_answer] makes between [3 + n] and
    [5 + 4 n] external calls; a question it rejects costs exactly the
    three chat-model calls. *)
Theorem get_answer_external_calls (env : Env) (question : string)
    (user_id : Z) (session_db : Session) (k : Z) (hybrid : bool)
    (weaviate_client : option Client) (s : State) :
  exists r s',
    get_answer env question user_id session_db k hybrid weaviate_client s
    = (Return r, s')
    /\ (clock s + 3 + length (default [] (answers r)) <= clock s'
        <= clock s + 5 + 4 * length (default [] (answers r)))%nat
    /\ (is_related r = false -> clock s' = (clock s + 3)%nat).
Proof.
  destruct (get_answer_effects env question user_id session_db k hybrid weaviate_client s)
    as (rq & r & s' & t & results & texts & added & Hrun & _ & _ & Hlen & Hshape
        & _ & _ & _ & _ & _ & _ & Hck & _ & Hrej).
  exists r, s'. split; [exact Hrun |]. split; [| exact Hrej].
  assert (Hans : length results = length (default [] (answers r))).
  { destruct Hshape as [[-> ->] | [[-> ->] | [-> _]]]; try reflexivity.
    simpl. by rewrite zip_with_answer_of_length. }
  by rewrite <- Hans.
Qed.

(** X6.  The [rewritten_question] that [get_answer] returns, which is the
    text it searches for, neither starts nor ends with whitespace. *)
Theorem get_answer_rewritten_is_trimmed (env : Env) (question : string)
    (user_id : Z) (session_db : Session) (k : Z) (hybrid : bool)
    (weaviate_client : option Client) (s : State) :
  exists r s',
    get_answer env question user_id session_db k hybrid weaviate_client s
    = (Return r, s')
    /\ PyStr.strip (rewritten_question r) = rewritten_question r
    /\ PyStr.lstrip (rewritten_question r) = rewritten_question r
    /\ PyStr.rstrip (rewritten_question r) = rewritten_question r.
Proof.
  destruct (get_answer_effects env question user_id session_db k hybrid weaviate_client s)
    as (rq & r & s' & t & results & texts & added & Hrun & Hrq & Htrim & _).
  exists r, s'. rewrite Hrq. split; [exact Hrun |]. split; [exact Htrim |].
  unfold trimmed, strip in Htrim. split.
  - rewrite <- Htrim. apply PyStrTrim.lstrip_clean, PyStrTrim.rstrip_starts_clean,
      PyStrTrim.lstrip_starts_clean.
  - rewrite <- Htrim. apply PyStrTrim.rstrip_idempotent.
Qed.

(** X7.  Called without a client ([weaviate_client=None], the default),
    [get_answer] never returns answers and stores nothing. *)
Theorem get_answer_without_client (env : Env) (question : string)
    (user_id : Z) (session_db : Session) (k : Z) (hybrid : bool) (s : State) :
  exists r s',
    get_answer env question user_id session_db k hybrid None s = (Return r, s')
    /\ answers r = None
    /\ message r = Some (if is_related r then no_match_message
                         else not_related_message)
    /\ searched_games s' = searched_games s.
Proof.
  destruct (get_answer_effects env question user_id session_db k hybrid None s)
    as (rq & r & s' & t & results & texts & added & Hrun & _ & _ & _ & Hshape
        & _ & _ & Hsg & Hadd & _ & _ & _ & Hnone & _).
  specialize (Hnone eq_refl). subst results.
  exists r, s'. split; [exact Hrun |].
  destruct added; [| simpl in Hadd; lia]. rewrite List.app_nil_r in Hsg.
  destruct Hshape as [[-> _] | [[-> _] | [_ Hne]]]; done.
Qed.

(** X8.  For a record whose [gameId] is missing, [None], empty or zero,
    [save_searched_game_to_db] does nothing: no round trip to the
    database, no row, no error shown. *)
Theorem save_without_game_id_does_nothing (env : Env) (session_db : Session)
    (info : game_info) (s : State) :
  truthy (dict_get info "gameId" PNone) = false ->
  save_searched_game_to_db env session_db info s
  = (Return tt, {| clock := clock s;
                   trace := trace s ++ [CallSave info];
                   searched_games := searched_games s |}).
Proof.
  intros Hfalsy.
  unfold save_searched_game_to_db, try_except, bind, emit, ret; simpl.
  by rewrite Hfalsy.
Qed.

(** A record whose [gameId] is the empty string. *)
Lemma save_without_game_id_does_nothing_witness :
  save_searched_game_to_db (scripted_env []) healthy_session
    {[ "gameId" := PStr ""; "gameName" := PStr "Chess" ]} initial
  = (Return tt, {| clock := 0;
                   trace := [CallSave {[ "gameId" := PStr ""; "gameName" := PStr "Chess" ]}];
                   searched_games := [] |}).
Proof.
  apply (save_without_game_id_does_nothing (scripted_env []) healthy_session
           {[ "gameId" := PStr ""; "gameName" := PStr "Chess" ]} initial).
  vm_compute. reflexivity.
Defined.

(** When the lookup works and a row with the record's key is stored, the
    store stays as it is, after one round trip. *)
Lemma save_known_game (env : Env) (session_db : Session) (info : game_info)
    (s : State) :
  query_fault session_db (clock s) = None ->
  truthy (dict_get info "gameId" PNone) = true ->
  dict_get info "gameId" PNone ∈ stored_keys (searched_games s) ->
  save_searched_game_to_db env session_db info s
  = (Return tt, {| clock := S (clock s);
                   trace := trace s ++ [CallSave info];
                   searched_games := searched_games s |}).
Proof.
  intros Hq Htruthy Hin. destruct (find_some_stored _ _ Hin) as [row Hfind].
  unfold save_searched_game_to_db, query_first, try_except, bind, tick, emit,
    ret; simpl.
  rewrite Htruthy. simpl. rewrite Hq. simpl. by rewrite Hfind.
Qed.

(** When the lookup and the commit work and no row with the record's key
    is stored, the record's row is appended. *)
Lemma save_new_game (env : Env) (session_db : Session) (info : game_info)
    (s : State) :
  query_fault session_db (clock s) = None ->
  commit_fault session_db (S (S (clock s)))
    (searched_game_of info (utcnow env (S (clock s)))) = None ->
  truthy (dict_get info "gameId" PNone) = true ->
  dict_get info "gameId" PNone ∉ stored_keys (searched_games s) ->
  save_searched_game_to_db env session_db info s
  = (Return tt, {| clock := S (S (S (clock s)));
                   trace := trace s ++ [CallSave info];
                   searched_games :=
                     searched_games s
                     ++ [searched_game_of info (utcnow env (S (clock s)))] |}).
Proof.
  intros Hq Hc Htruthy Hfresh.
  assert (Hfind : List.find (fun r => bool_decide
                     (Models.game_id r = dict_get info "gameId" PNone))
                    (searched_games s) = None).
  { destruct (List.find _ _) as [row|] eqn:Hfind; [| done].
    apply find_some in Hfind as [Hin Hid]. apply bool_decide_eq_true in Hid.
    exfalso. apply Hfresh. unfold stored_keys. rewrite <- Hid.
    apply list_elem_of_fmap. exists row. split; [done |]. by apply list_elem_of_In. }
  unfold save_searched_game_to_db, query_first, add_commit, external,
    try_except, bind, tick, emit, ret; simpl.
  rewrite Htruthy. simpl. rewrite Hq. simpl. rewrite Hfind. simpl.
  unfold searched_game_of in Hc. by rewrite Hc.
Qed.

(** X9.  [save_searched_game_to_db] is not an upsert: when a row with the
    record's [gameId] is stored, the stored row stays as it is, whatever
    the other attributes of the record are. *)
Theorem save_keeps_stored_row (env : Env) (session_db : Session)
    (info : game_info) (row : Models.SearchedGame) (s : State) :
  query_fault session_db (clock s) = None ->
  truthy (dict_get info "gameId" PNone) = true ->
  row ∈ searched_games s ->
  Models.game_id row = dict_get info "gameId" PNone ->
  exists s',
    save_searched_game_to_db env session_db info s = (Return tt, s')
    /\ searched_games s' = searched_games s
    /\ clock s' = S (clock s)
    /\ errors_shown (trace s') = errors_shown (trace s).
Proof.
  intros Hq Htruthy Hrow Hid. eexists. split.
  - apply save_known_game; [done.. |]. rewrite <- Hid. unfold stored_keys.
    apply list_elem_of_fmap. by exists row.
  - simpl. repeat split. unfold errors_shown. rewrite omap_app. simpl.
    by rewrite List.app_nil_r.
Qed.

(** Chess is stored under one name; the record now carries another. *)
Lemma save_keeps_stored_row_witness :
  exists s',
    save_searched_game_to_db (scripted_env []) healthy_session
      {[ "gameId" := PStr "G1"; "gameName" := PStr "Chess (renamed)" ]}
      {| clock := 9; trace := [];
         searched_games := [searched_game_of chess 1700000007] |}
    = (Return tt, s')
    /\ searched_games s' = [searched_game_of chess 1700000007]
    /\ clock s' = 10%nat
    /\ errors_shown (trace s') = [].
Proof.
  apply (save_keeps_stored_row (scripted_env []) healthy_session
           {[ "gameId" := PStr "G1"; "gameName" := PStr "Chess (renamed)" ]}
           (searched_game_of chess 1700000007)
           {| clock := 9; trace := [];
              searched_games := [searched_game_of chess 1700000007] |}).
  - reflexivity.
  - vm_compute. reflexivity.
  - apply list_elem_of_here.
  - vm_compute. reflexivity.
Defined.

Lemma find_app_none {A} (f : A -> bool) (l k : list A) :
  List.find f l = None -> List.find f (l ++ k) = List.find f k.
Proof.
  induction l as [|x l IH]; simpl; [done |]. destruct (f x); [done | exact IH].
Qed.

Lemma find_fresh_key (gid : py_value) (rows : list Models.SearchedGame) :
  gid ∉ stored_keys rows ->
  List.find (fun r => bool_decide (Models.game_id r = gid)) rows = None.
Proof.
  intros Hfresh. destruct (List.find _ _) as [row|] eqn:Hfind; [| done].
  apply find_some in Hfind as [Hin Hid]. apply bool_decide_eq_true in Hid.
  exfalso. apply Hfresh. unfold stored_keys. rewrite <- Hid.
  apply list_elem_of_fmap. exists row. split; [done |]. by apply list_elem_of_In.
Qed.

(** X10.  Storing and looking up: when the database works, a record with a
    truthy [gameId] not stored yet is appended as a row of its attributes
    ([None] for a missing one) stamped with the time read; the lookup by
    its key then finds that row, and a further call for the same [gameId]
    leaves the store as it is. *)
Theorem save_then_lookup (env : Env) (session_db : Session)
    (info info2 : game_info) (s : State) :
  query_fault session_db (clock s) = None ->
  commit_fault session_db (S (S (clock s)))
    (searched_game_of info (utcnow env (S (clock s)))) = None ->
  query_fault session_db (S (S (S (clock s)))) = None ->
  truthy (dict_get info "gameId" PNone) = true ->
  dict_get info "gameId" PNone ∉ stored_keys (searched_games s) ->
  dict_get info2 "gameId" PNone = dict_get info "gameId" PNone ->
  exists s' s'',
    save_searched_game_to_db env session_db info s = (Return tt, s')
    /\ searched_games s'
       = searched_games s ++ [searched_game_of info (utcnow env (S (clock s)))]
    /\ List.find (fun r => bool_decide
                    (Models.game_id r = dict_get info "gameId" PNone))
         (searched_games s')
       = Some (searched_game_of info (utcnow env (S (clock s))))
    /\ save_searched_game_to_db env session_db info2 s' = (Return tt, s'')
    /\ searched_games s'' = searched_games s'.
Proof.
  intros Hq Hc Hq2 Htruthy Hfresh Hsame.
  pose proof (save_new_game env session_db info s Hq Hc Htruthy Hfresh) as H1.
  set (row := searched_game_of info (utcnow env (S (clock s)))) in *.
  set (s1 := {| clock := S (S (S (clock s)));
                trace := trace s ++ [CallSave info];
                searched_games := searched_games s ++ [row] |}) in *.
  assert (Hin : dict_get info2 "gameId" PNone ∈ stored_keys (searched_games s1)).
  { rewrite Hsame. unfold s1. cbn [searched_games]. rewrite stored_keys_app.
    apply elem_of_app. right. apply list_elem_of_here. }
  assert (Htruthy2 : truthy (dict_get info2 "gameId" PNone) = true)
    by by rewrite Hsame.
  pose proof (save_known_game env session_db info2 s1 Hq2 Htruthy2 Hin) as H2.
  eexists s1, _. split; [exact H1 |]. split; [reflexivity |].
  split; [| split; [exact H2 | reflexivity]].
  unfold s1. cbn [searched_games].
  rewrite find_app_none by by apply find_fresh_key.
  simpl. by rewrite bool_decide_true.
Qed.

(** Chess found on an empty store, then found again under another name. *)
Lemma save_then_lookup_witness :
  exists s' s'',
    save_searched_game_to_db (scripted_env []) healthy_session chess initial
    = (Return tt, s')
    /\ searched_games s' = [] ++ [searched_game_of chess 1700000001]
    /\ List.find (fun r => bool_decide (Models.game_id r = PStr "G1"))
         (searched_games s')
       = Some (searched_game_of chess 1700000001)
    /\ save_searched_game_to_db (scripted_env []) healthy_session
         {[ "gameId" := PStr "G1"; "gameName" := PStr "Chess (renamed)" ]} s'
       = (Return tt, s'')
    /\ searched_games s'' = searched_games s'.
Proof.
  apply (save_then_lookup (scripted_env []) healthy_session chess
           {[ "gameId" := PStr "G1"; "gameName" := PStr "Chess (renamed)" ]}
           initial).
  - reflexivity.
  - reflexivity.
  - reflexivity.
  - vm_compute. reflexivity.
  - vm_compute. intros Hin. by apply elem_of_nil in Hin.
  - vm_compute. reflexivity.
Defined.

(** X11.  The [except] branches of [preprocess_query],
    [check_if_game_related] and [generate_answer_from_game_info] are never
    taken: each function runs as its [try] body alone, because
    [call_gpt_4o_mini] never raises. *)
Theorem fallback_branches_unreachable (env : Env) (question : string)
    (info : game_info) (s : State) :
  preprocess_query env question s
  = (emit (CallPreprocess question) ;;
     rewritten_question <- call_gpt_4o_mini env (preprocess_prompt question) ;;
     ret (strip rewritten_question)) s
  /\ check_if_game_related env question s
     = (emit (CallCheck question) ;;
        response <- call_gpt_4o_mini env (check_prompt question) ;;
        ret (contains "yes" (lower response))) s
  /\ generate_answer_from_game_info env info question s
     = (emit (CallGenerate info question) ;;
        response <- call_gpt_4o_mini env (generate_prompt info question) ;;
        ret response) s.
Proof.
  unfold preprocess_query, check_if_game_related, generate_answer_from_game_info,
    try_except, bind, emit, ret; simpl.
  repeat split.
  - destruct (call_gpt_4o_mini_run env (preprocess_prompt question)
                {| clock := clock s; trace := trace s ++ [CallPreprocess question];
                   searched_games := searched_games s |}) as (s' & errs & -> & _).
    reflexivity.
  - destruct (call_gpt_4o_mini_run env (check_prompt question)
                {| clock := clock s; trace := trace s ++ [CallCheck question];
                   searched_games := searched_games s |}) as (s' & errs & -> & _).
    reflexivity.
  - destruct (call_gpt_4o_mini_run env (generate_prompt info question)
                {| clock := clock s; trace := trace s ++ [CallGenerate info question];
                   searched_games := searched_games s |}) as (s' & errs & -> & _).
    reflexivity.
Qed.

(** X12.  An attribute that the record has with the value [None] (a null
    in the store) is printed in the generation prompt as the text None:
    the placeholder is used only for a key the record lacks. *)
Theorem generate_prompt_null_attribute (info : game_info) (question : string)
    (label key dflt : string) :
  (label, key, dflt) ∈ prompt_fields ->
  info !! key = Some PNone ->
  contains (label +:+ ": None" +:+ nl) (generate_prompt info question) = true.
Proof.
  intros Hin Hnull. rewrite generate_prompt_lines.
  change (label +:+ ": None" +:+ nl) with (label +:+ ": " +:+ "None" +:+ nl).
  replace (label +:+ ": " +:+ "None" +:+ nl)
    with ((label +:+ ": " +:+ "None") +:+ nl)
    by (by rewrite !PyStrFacts.app_assoc).
  apply PyStrFacts.contains_line.
  apply elem_of_app. right. apply elem_of_app. left.
  apply list_elem_of_fmap. exists (label, key, dflt). split; [| exact Hin].
  unfold dict_get. by rewrite Hnull.
Qed.

(** A record whose level is null. *)
Lemma generate_prompt_null_attribute_witness :
  contains ("Level" +:+ ": None" +:+ nl)
    (generate_prompt {[ "gameId" := PStr "G1"; "level" := PNone ]}
       "How long is a game?") = true.
Proof.
  apply (generate_prompt_null_attribute
           {[ "gameId" := PStr "G1"; "level" := PNone ]} "How long is a game?"
           "Level" "level" "N/A").
  - unfold prompt_fields. in_list.
  - vm_compute. reflexivity.
Defined.

(** * app.py: the registration form *)

Lemma is_alnum_not_space (c : ascii) : is_alnum c = true -> PyStr.isspace c = false.
Proof. destruct c as [[] [] [] [] [] [] [] []]; simpl; done. Qed.

Lemma alnum_to_end_spec (s : string) :
  alnum_to_end s = true
  <-> all_alnum s = true \/ exists body, all_alnum body = true /\ s = body +:+ nl.
Proof.
  induction s as [|c s IH]; [by split; [left |] |].
  destruct s as [|d s].
  - cbn [alnum_to_end all_alnum]. rewrite orb_true_iff, andb_true_r. split.
    + intros [Hc | Hnl]; [by left |]. right. exists "".
      apply Ascii.eqb_eq in Hnl. by subst c.
    + intros [Hc | (body & Hbody & Heq)]; [by left |]. right.
      destruct body as [|b body]; simpl in Heq.
      * injection Heq as ->. reflexivity.
      * injection Heq as _ Heq. by destruct body.
  - change (alnum_to_end (String c (String d s)))
      with (is_alnum c && alnum_to_end (String d s)).
    cbn [all_alnum] in *. rewrite andb_true_iff, IH. split.
    + intros [Hc [Hall | (body & Hbody & Heq)]].
      * left. by rewrite Hc.
      * right. exists (String c body). simpl. rewrite Hc, Hbody, Heq. by split.
    + intros [Hall | (body & Hbody & Heq)].
      * apply andb_true_iff in Hall as [Hc Hall]. split; [done | by left].
      * destruct body as [|b body]; simpl in Heq; [discriminate |].
        injection Heq as -> Heq. simpl in Hbody.
        apply andb_true_iff in Hbody as [Hc Hbody].
        split; [done |]. right. by exists body.
Qed.

(** What the pattern of [validate_user_info] accepts. *)
Lemma username_matches_spec (s : string) :
  username_matches s = true
  <-> exists body, body <> "" /\ all_alnum body = true
                   /\ (s = body \/ s = body +:+ nl).
Proof.
  destruct s as [|c s]; simpl.
  - split; [discriminate |]. intros (body & Hne & _ & [Heq | Heq]).
    + by subst body.
    + by destruct body.
  - rewrite andb_true_iff, alnum_to_end_spec. split.
    + intros [Hc [Hall | (body & Hbody & ->)]].
      * exists (String c s). simpl. rewrite Hc, Hall. by repeat split; [| left].
      * exists (String c body). simpl. rewrite Hc, Hbody. by repeat split; [| right].
    + intros (body & Hne & Hbody & [<- | Heq]).
      * simpl in Hbody. apply andb_true_iff in Hbody as [Hc Hall]. by split; [| left].
      * destruct body as [|b body]; [done |]. simpl in Heq. injection Heq as -> ->.
        simpl in Hbody. apply andb_true_iff in Hbody as [Hc Hall].
        split; [done |]. right. by exists body.
Qed.

Lemma username_matches_not_blank (s : string) :
  username_matches s = true -> PyStr.strip s <> "".
Proof.
  destruct s as [|c s]; simpl; [discriminate |].
  intros [Hc _]%andb_true_iff. apply is_alnum_not_space in Hc.
  unfold PyStr.strip. cbn [PyStr.lstrip]. rewrite Hc. cbn [PyStr.rstrip].
  rewrite Hc. by destruct (PyStr.rstrip s).
Qed.

(** X13.  [validate_user_info] reports no error exactly when the user name
    is one or more letters and digits, possibly followed by one newline,
    the gender is one of the four options and the age is from 1 to 120. *)
Theorem validate_user_info_accepts_iff (u : user_info) :
  validate_user_info u = []
  <-> (exists body, body <> "" /\ all_alnum body = true
                    /\ (userName u = body \/ userName u = body +:+ nl))
      /\ gender u ∈ gender_options
      /\ 1 <= age u <= 120.
Proof.
  rewrite <- username_matches_spec. unfold validate_user_info.
  destruct (username_matches (userName u)) eqn:Hm.
  - pose proof (username_matches_not_blank _ Hm) as Hblank.
    apply String.eqb_neq in Hblank. rewrite Hblank. cbn [negb app].
    case_bool_decide as Hg; cbn [negb app];
      destruct (Z.leb_spec 1 (age u)), (Z.leb_spec (age u) 120); cbn [negb andb app];
      split; try done; try (intros (_ & ? & ?); done || lia).
  - split; [| by intros [? _]].
    destruct (String.eqb _ ""); cbn [negb app];
      case_bool_decide; cbn [negb app];
      destruct ((1 <=? age u) && (age u <=? 120)); cbn [negb app]; done.
Qed.

Lemma validation_messages_distinct :
  error_name_empty <> error_name_symbols /\ error_name_empty <> error_gender
  /\ error_name_empty <> error_age /\ error_name_symbols <> error_gender
  /\ error_name_symbols <> error_age /\ error_gender <> error_age.
Proof. repeat split; discriminate. Qed.

Lemma elem_of_if_singleton (b : bool) (x m : string) :
  x ∈ (if b then [m] else []) <-> b = true /\ x = m.
Proof.
  destruct b.
  - rewrite list_elem_of_singleton. by intuition.
  - split; [intros Hin; by apply elem_of_nil in Hin | by intros [? _]].
Qed.

(** The errors of the three fields, one after the other. *)
Lemma validate_user_info_parts (u : user_info) :
  validate_user_info u
  = (if String.eqb (PyStr.strip (userName u)) "" then [error_name_empty] else [])
    ++ (if negb (String.eqb (PyStr.strip (userName u)) "")
           && negb (username_matches (userName u))
        then [error_name_symbols] else [])
    ++ (if negb (bool_decide (gender u ∈ gender_options)) then [error_gender] else [])
    ++ (if negb ((1 <=? age u) && (age u <=? 120)) then [error_age] else []).
Proof.
  unfold validate_user_info.
  destruct (String.eqb _ ""), (username_matches _), (bool_decide _),
    ((1 <=? age u) && (age u <=? 120)); reflexivity.
Qed.

(** X14.  Each message of [validate_user_info] is reported exactly under
    its own condition: the three fields are judged independently, and a
    blank user name gets the "cannot be empty" message only. *)
Theorem validate_user_info_messages (u : user_info) :
  (error_name_empty ∈ validate_user_info u <-> PyStr.strip (userName u) = "")
  /\ (error_name_symbols ∈ validate_user_info u
      <-> PyStr.strip (userName u) <> "" /\ username_matches (userName u) = false)
  /\ (error_gender ∈ validate_user_info u <-> gender u ∉ gender_options)
  /\ (error_age ∈ validate_user_info u <-> ~ (1 <= age u <= 120)).
Proof.
  destruct validation_messages_distinct as (H12 & H13 & H14 & H23 & H24 & H34).
  rewrite validate_user_info_parts, !elem_of_app, !elem_of_if_singleton.
  rewrite !andb_true_iff, !negb_true_iff, !andb_false_iff, !bool_decide_eq_false,
    String.eqb_eq, String.eqb_neq, !Z.leb_gt.
  repeat split; intuition (try congruence; try lia).
Qed.

(** * app.py: the session timeout and the feedback and chat tables *)

Ltac app_unfold :=
  unfold insert_feedback, insert_chat_history, first_feedback, round_trip,
    app_utcnow, database_error, lift, external, report, st_error, show,
    app_try, app_bind, app_ret, app_raise, bind, tick, emit, ret.

(** X15.  A session idle for more than fifteen minutes is wiped: every
    key of the session state is removed, [last_activity] is not renewed,
    the warning is shown and the script stops; the tables are untouched. *)
Theorem check_session_timeout_expired (aenv : AppEnv) (st : AppState) (t0 : Z) :
  session_state st !! "last_activity" = Some (SSDatetime t0) ->
  utcnow (rag_env aenv) (clock (world st)) - t0 > 15 * 60 * 1000000 ->
  exists st',
    check_session_timeout aenv st = (Raise StopException, st')
    /\ session_state st' = ∅
    /\ shown st' = shown st ++ [ StWarning "🕒 Session timed out due to inactivity.";
                                 StStop ]
    /\ feedback st' = feedback st
    /\ chat_history st' = chat_history st
    /\ searched_games (world st') = searched_games (world st).
Proof.
  intros Hlast Hidle. unfold check_session_timeout. app_unfold. cbn.
  rewrite Hlast. cbn.
  assert (Hgt : (utcnow (rag_env aenv) (clock (world st)) - t0
                 >? timedelta_minutes SESSION_TIMEOUT_MINUTES) = true).
  { apply Z.gtb_lt. unfold timedelta_minutes, SESSION_TIMEOUT_MINUTES. lia. }
  rewrite Hgt. cbn. eexists. split; [reflexivity |]. cbn.
  rewrite <- List.app_assoc. by repeat split.
Qed.

(** A user logged in, last seen one microsecond more than fifteen minutes
    before the clock is read. *)
Lemma check_session_timeout_expired_witness :
  exists st',
    check_session_timeout healthy_app
      (set_session_state fresh_app
         {[ "last_activity" := SSDatetime 799999999;
            "logged_in" := SSBool true ]})
    = (Raise StopException, st')
    /\ session_state st' = ∅
    /\ shown st' = [] ++ [ StWarning "🕒 Session timed out due to inactivity.";
                           StStop ]
    /\ feedback st' = []
    /\ chat_history st' = []
    /\ searched_games (world st') = [].
Proof.
  apply (check_session_timeout_expired healthy_app
           (set_session_state fresh_app
              {[ "last_activity" := SSDatetime 799999999;
                 "logged_in" := SSBool true ]})
           799999999).
  - vm_compute. reflexivity.
  - vm_compute. reflexivity.
Defined.

(** X16.  A session idle for fifteen minutes or less, the bound included,
    goes on: only [last_activity] changes, to the time read after the
    check, every other key keeps its value, and nothing is shown. *)
Theorem check_session_timeout_alive (aenv : AppEnv) (st : AppState) (t0 : Z) :
  session_state st !! "last_activity" = Some (SSDatetime t0) ->
  utcnow (rag_env aenv) (clock (world st)) - t0 <= 15 * 60 * 1000000 ->
  exists st',
    check_session_timeout aenv st = (Return tt, st')
    /\ session_state st' !! "last_activity"
       = Some (SSDatetime (utcnow (rag_env aenv) (S (clock (world st)))))
    /\ (forall key, key <> "last_activity" ->
          session_state st' !! key = session_state st !! key)
    /\ shown st' = shown st.
Proof.
  intros Hlast Hidle. unfold check_session_timeout. app_unfold. cbn.
  rewrite Hlast. cbn.
  assert (Hgt : (utcnow (rag_env aenv) (clock (world st)) - t0
                 >? timedelta_minutes SESSION_TIMEOUT_MINUTES) = false).
  { rewrite Z.gtb_ltb. apply Z.ltb_ge.
    unfold timedelta_minutes, SESSION_TIMEOUT_MINUTES. lia. }
  rewrite Hgt. cbn. eexists. split; [reflexivity |]. cbn.
  split; [apply lookup_insert_eq |]. split; [| reflexivity].
  intros key Hkey. by apply lookup_insert_ne.
Qed.

(** A user last seen exactly fifteen minutes before the clock is read. *)
Lemma check_session_timeout_alive_witness :
  exists st',
    check_session_timeout healthy_app
      (set_session_state fresh_app
         {[ "last_activity" := SSDatetime 800000000;
            "logged_in" := SSBool true ]})
    = (Return tt, st')
    /\ session_state st' !! "last_activity" = Some (SSDatetime 1700000001)
    /\ (forall key, key <> "last_activity" ->
          session_state st' !! key
          = ({[ "last_activity" := SSDatetime 800000000;
                "logged_in" := SSBool true ]} : gmap string ss_value) !! key)
    /\ shown st' = [].
Proof.
  refine (check_session_timeout_alive healthy_app
            (set_session_state fresh_app
               {[ "last_activity" := SSDatetime 800000000;
                  "logged_in" := SSBool true ]})
            800000000 _ _).
  - vm_compute. reflexivity.
  - vm_compute. discriminate.
Defined.

Section FeedbackFacts.

Variable aenv : AppEnv.

(** A row whose id is below the sequence is not the row the sequence
    gives next. *)
Lemma find_feedback_fresh (rows : list Feedback.row) (seq : Z) :
  Forall (fun r => Feedback.feedback_id r < seq) rows ->
  List.find (fun r => Feedback.feedback_id r =? seq) rows = None.
Proof.
  induction 1 as [|r rows Hr _ IH]; simpl; [done |].
  destruct (Z.eqb_spec (Feedback.feedback_id r) seq); [lia | exact IH].
Qed.

Lemma find_feedback_absent (rows : list Feedback.row) (fid : Z) :
  (forall r, r ∈ rows -> Feedback.feedback_id r <> fid) ->
  List.find (fun r => Feedback.feedback_id r =? fid) rows = None.
Proof.
  induction rows as [|r rows IH]; simpl; intros Hall; [done |].
  destruct (Z.eqb_spec (Feedback.feedback_id r) fid) as [Heq | _].
  - exfalso. by apply (Hall r); [apply list_elem_of_here |].
  - apply IH. intros r' Hin. apply Hall. by apply list_elem_of_further.
Qed.

(** [save_feedback_to_db] never raises: it returns the id of the row it
    stored, or [None] after a failure, with the two errors shown. *)
Lemma save_feedback_to_db_run (user_id : Z) (feedback_type : string) (st : AppState) :
  let n := clock (world st) in
  let row := {| Feedback.feedback_id := feedback_seq st;
                Feedback.user_id := user_id;
                Feedback.feedback_type := feedback_type;
                Feedback.feedback_time := utcnow (rag_env aenv) n |} in
  exists o st',
    save_feedback_to_db aenv user_id feedback_type st = (Return o, st')
    /\ chat_history st' = chat_history st
    /\ session_state st' = session_state st
    /\ match db_fault aenv (S n), db_fault aenv (S (S n)) with
       | None, None =>
           o = Some (feedback_seq st)
           /\ feedback st' = feedback st ++ [row]
           /\ feedback_seq st' = feedback_seq st + 1
           /\ clock (world st') = S (S (S n))
           /\ trace (world st') = trace (world st)
       | None, Some e =>
           o = None
           /\ feedback st' = feedback st ++ [row]
           /\ feedback_seq st' = feedback_seq st + 1
       | Some e, _ =>
           o = None
           /\ feedback st' = feedback st
           /\ feedback_seq st' = feedback_seq st
       end.
Proof.
  intros n row. subst n row. unfold save_feedback_to_db. app_unfold. cbn.
  destruct (db_fault aenv (S (clock (world st)))) as [e|] eqn:H1; cbn.
  - eexists _, _. split; [reflexivity |]. by repeat split.
  - destruct (db_fault aenv (S (S (clock (world st))))) as [e|] eqn:H2; cbn.
    + eexists _, _. split; [reflexivity |]. by repeat split.
    + eexists _, _. split; [reflexivity |]. by repeat split.
Qed.

(** [get_feedback_type] never raises and changes no table. *)
Lemma get_feedback_type_run (feedback_id : Z) (st : AppState) :
  exists o st',
    get_feedback_type aenv feedback_id st = (Return o, st')
    /\ feedback st' = feedback st
    /\ feedback_seq st' = feedback_seq st
    /\ chat_history st' = chat_history st
    /\ match db_fault aenv (clock (world st)) with
       | None =>
           o = match List.find (fun r => Feedback.feedback_id r =? feedback_id)
                       (feedback st) with
               | Some row => Some (Feedback.feedback_type row)
               | None => None
               end
       | Some e => o = None
       end.
Proof.
  unfold get_feedback_type. app_unfold. cbn.
  destruct (db_fault aenv (clock (world st))) as [e|]; cbn;
    eexists _, _; (split; [reflexivity |]); by repeat split.
Qed.

Lemma find_updated_feedback (fid fid' : Z) (feedback_type : string) (now : Z)
    (rows : list Feedback.row) :
  List.find (fun r => Feedback.feedback_id r =? fid')
    (updated_feedback fid feedback_type now rows)
  = option_map
      (fun r => if Feedback.feedback_id r =? fid then
                  {| Feedback.feedback_id := Feedback.feedback_id r;
                     Feedback.user_id := Feedback.user_id r;
                     Feedback.feedback_type := feedback_type;
                     Feedback.feedback_time := now |}
                else r)
      (List.find (fun r => Feedback.feedback_id r =? fid') rows).
Proof.
  unfold updated_feedback. induction rows as [|r rows IH]; simpl; [done |].
  destruct (Feedback.feedback_id r =? fid) eqn:Hr; simpl;
    destruct (Feedback.feedback_id r =? fid') eqn:Hr'; simpl;
    first [ by rewrite Hr | exact IH ].
Qed.

(** [update_feedback] never raises; it leaves the rows as they are, or,
    when the lookup found a row and the commit worked, gives the rows of
    that id the new type and the time read. *)
Lemma update_feedback_run (feedback_id : Z) (feedback_type : string) (st : AppState) :
  exists st',
    update_feedback aenv feedback_id feedback_type st = (Return tt, st')
    /\ feedback_seq st' = feedback_seq st
    /\ chat_history st' = chat_history st
    /\ match db_fault aenv (clock (world st)),
             List.find (fun r => Feedback.feedback_id r =? feedback_id) (feedback st),
             db_fault aenv (S (S (clock (world st)))) with
       | None, Some _, None =>
           feedback st'
           = updated_feedback feedback_id feedback_type
               (utcnow (rag_env aenv) (S (clock (world st)))) (feedback st)
           /\ clock (world st') = S (S (S (clock (world st))))
       | _, _, _ => feedback st' = feedback st
       end.
Proof.
  unfold update_feedback. app_unfold. cbn.
  destruct (db_fault aenv (clock (world st))) as [e|]; cbn.
  - eexists. split; [reflexivity |]. by repeat split.
  - destruct (List.find _ (feedback st)) as [row|]; cbn.
    + destruct (db_fault aenv (S (S (clock (world st))))) as [e|]; cbn;
        eexists; (split; [reflexivity |]); by repeat split.
    + eexists. split; [reflexivity |]. by repeat split.
Qed.

End FeedbackFacts.

(** X17.  Saving a feedback and reading it back: on a working database
    whose feedback ids are below the sequence, [save_feedback_to_db]
    returns the id of a new row, [get_feedback_type] of that id returns
    the type that was saved, and the ids stay below the sequence. *)
Theorem save_feedback_then_get (aenv : AppEnv) (user_id : Z)
    (feedback_type : string) (st : AppState) :
  db_fault aenv (S (clock (world st))) = None ->
  db_fault aenv (S (S (clock (world st)))) = None ->
  db_fault aenv (S (S (S (clock (world st))))) = None ->
  feedback_ids_fresh st ->
  exists fid st' st'',
    save_feedback_to_db aenv user_id feedback_type st = (Return (Some fid), st')
    /\ length (feedback st') = S (length (feedback st))
    /\ feedback_ids_fresh st'
    /\ get_feedback_type aenv fid st' = (Return (Some feedback_type), st'').
Proof.
  intros H1 H2 H3 Hfresh.
  destruct (save_feedback_to_db_run aenv user_id feedback_type st)
    as (o & st' & Hsave & _ & _ & Hcase).
  cbv zeta in Hcase. rewrite H1, H2 in Hcase.
  destruct Hcase as (-> & Hrows & Hseq & Hck & _).
  destruct (get_feedback_type_run aenv (feedback_seq st) st')
    as (o' & st'' & Hget & _ & _ & _ & Hcase').
  rewrite Hck, H3, Hrows in Hcase'.
  rewrite find_app_none in Hcase' by by apply find_feedback_fresh.
  cbn in Hcase'. rewrite Z.eqb_refl in Hcase'. subst o'.
  exists (feedback_seq st), st', st''. split; [exact Hsave |].
  split; [rewrite Hrows, length_app; simpl; lia |]. split; [| exact Hget].
  unfold feedback_ids_fresh in *. rewrite Hrows, Hseq. apply Forall_app. split.
  - eapply Forall_impl; [exact Hfresh |]. simpl. intros r Hr. lia.
  - apply Forall_singleton. simpl. lia.
Qed.

(** A thumbs-up saved on an empty table. *)
Lemma save_feedback_then_get_witness :
  exists fid st' st'',
    save_feedback_to_db healthy_app 7 "up" fresh_app = (Return (Some fid), st')
    /\ length (feedback st') = S (length (feedback fresh_app))
    /\ feedback_ids_fresh st'
    /\ get_feedback_type healthy_app fid st' = (Return (Some "up"), st'').
Proof.
  refine (save_feedback_then_get healthy_app 7 "up" fresh_app _ _ _ _).
  - reflexivity.
  - reflexivity.
  - reflexivity.
  - vm_compute. apply Forall_nil_2.
Defined.

(** X18.  [update_feedback] for an id that no row has changes nothing and
    creates no row, whether the database works or not. *)
Theorem update_feedback_unknown_id (aenv : AppEnv) (feedback_id : Z)
    (feedback_type : string) (st : AppState) :
  (forall r, r ∈ feedback st -> Feedback.feedback_id r <> feedback_id) ->
  exists st',
    update_feedback aenv feedback_id feedback_type st = (Return tt, st')
    /\ feedback st' = feedback st
    /\ feedback_seq st' = feedback_seq st
    /\ chat_history st' = chat_history st.
Proof.
  intros Habsent.
  destruct (update_feedback_run aenv feedback_id feedback_type st)
    as (st' & Hrun & Hseq & Hchat & Hcase).
  rewrite (find_feedback_absent _ _ Habsent) in Hcase.
  exists st'. split; [exact Hrun |]. split; [| by split].
  by destruct (db_fault aenv (clock (world st))).
Qed.

(** An update for id 5 on an empty table. *)
Lemma update_feedback_unknown_id_witness :
  exists st',
    update_feedback healthy_app 5 "up" fresh_app = (Return tt, st')
    /\ feedback st' = feedback fresh_app
    /\ feedback_seq st' = feedback_seq fresh_app
    /\ chat_history st' = chat_history fresh_app.
Proof.
  refine (update_feedback_unknown_id healthy_app 5 "up" fresh_app _).
  vm_compute. intros r Hin. by apply elem_of_nil in Hin.
Defined.

(** X19.  Updating a feedback and reading it back: on a working database,
    after [update_feedback] of the id of a stored row, [get_feedback_type]
    of that id returns the new type; no row is added or removed, and the
    type read for any other id is as before. *)
Theorem update_feedback_then_get (aenv : AppEnv) (feedback_id : Z)
    (feedback_type : string) (row : Feedback.row) (st : AppState) :
  db_fault aenv (clock (world st)) = None ->
  db_fault aenv (S (S (clock (world st)))) = None ->
  db_fault aenv (S (S (S (clock (world st))))) = None ->
  List.find (fun r => Feedback.feedback_id r =? feedback_id) (feedback st)
  = Some row ->
  exists st' st'',
    update_feedback aenv feedback_id feedback_type st = (Return tt, st')
    /\ get_feedback_type aenv feedback_id st' = (Return (Some feedback_type), st'')
    /\ length (feedback st') = length (feedback st)
    /\ (forall other, other <> feedback_id ->
          option_map Feedback.feedback_type
            (List.find (fun r => Feedback.feedback_id r =? other) (feedback st'))
          = option_map Feedback.feedback_type
              (List.find (fun r => Feedback.feedback_id r =? other) (feedback st))).
Proof.
  intros H1 H2 H3 Hfind.
  destruct (update_feedback_run aenv feedback_id feedback_type st)
    as (st' & Hrun & _ & _ & Hcase).
  rewrite H1, Hfind, H2 in Hcase. destruct Hcase as [Hrows Hck].
  destruct (get_feedback_type_run aenv feedback_id st')
    as (o & st'' & Hget & _ & _ & _ & Hcase').
  rewrite Hck, H3, Hrows, find_updated_feedback, Hfind in Hcase'. cbn in Hcase'.
  apply find_some in Hfind as [_ Hid]. rewrite Hid in Hcase'. cbn in Hcase'.
  subst o. exists st', st''. do 2 (split; [done |]). split.
  - rewrite Hrows. unfold updated_feedback. apply length_map.
  - intros other Hother. rewrite Hrows, find_updated_feedback.
    destruct (List.find _ (feedback st)) as [r|] eqn:Hr; [| done]. cbn.
    apply find_some in Hr as [_ Hr]. apply Z.eqb_eq in Hr.
    destruct (Z.eqb_spec (Feedback.feedback_id r) feedback_id); [lia | done].
Qed.

(** A neutral feedback of id 1 turned into a thumbs-down. *)
Lemma update_feedback_then_get_witness :
  exists st' st'',
    update_feedback healthy_app 1 "down"
      (set_feedback fresh_app
         [ {| Feedback.feedback_id := 1; Feedback.user_id := 7;
              Feedback.feedback_type := "neutral";
              Feedback.feedback_time := 1700000000 |} ] 2)
    = (Return tt, st')
    /\ get_feedback_type healthy_app 1 st' = (Return (Some "down"), st'')
    /\ length (feedback st') = 1%nat
    /\ (forall other, other <> 1 ->
          option_map Feedback.feedback_type
            (List.find (fun r => Feedback.feedback_id r =? other) (feedback st'))
          = option_map Feedback.feedback_type
              (List.find (fun r => Feedback.feedback_id r =? other)
                 [ {| Feedback.feedback_id := 1; Feedback.user_id := 7;
                      Feedback.feedback_type := "neutral";
                      Feedback.feedback_time := 1700000000 |} ])).
Proof.
  refine (update_feedback_then_get healthy_app 1 "down"
            {| Feedback.feedback_id := 1; Feedback.user_id := 7;
               Feedback.feedback_type := "neutral";
               Feedback.feedback_time := 1700000000 |}
            (set_feedback fresh_app
               [ {| Feedback.feedback_id := 1; Feedback.user_id := 7;
                    Feedback.feedback_type := "neutral";
                    Feedback.feedback_time := 1700000000 |} ] 2) _ _ _ _);
    reflexivity.
Defined.

(** The neutral feedback [save_chat_history_to_db] stores for a chat turn
    that comes without one. *)
Lemma save_chat_history_to_db_run (aenv : AppEnv) (user_id : Z)
    (question answer : string) (game_id : py_value) (is_related : bool)
    (st : AppState) :
  exists o st',
    save_chat_history_to_db aenv user_id question answer game_id None is_related st
    = (Return o, st')
    /\ session_state st' = session_state st
    /\ searched_games (world st') = searched_games (world st)
    /\ match db_fault aenv (S (clock (world st))),
             db_fault aenv (S (S (clock (world st)))),
             db_fault aenv (S (S (S (S (clock (world st)))))),
             db_fault aenv (S (S (S (S (S (clock (world st))))))) with
       | Some _, _, _, _ =>
           o = (None, None)
           /\ feedback st' = feedback st /\ chat_history st' = chat_history st
       | None, Some _, _, _ | None, None, Some _, _ =>
           o = (None, None)
           /\ feedback st'
              = feedback st
                ++ [ {| Feedback.feedback_id := feedback_seq st;
                        Feedback.user_id := user_id;
                        Feedback.feedback_type := "neutral";
                        Feedback.feedback_time :=
                          utcnow (rag_env aenv) (clock (world st)) |} ]
           /\ chat_history st' = chat_history st
       | None, None, None, last =>
           o = match last with
               | None => (Some (feedback_seq st), Some (chat_seq st))
               | Some _ => (None, None)
               end
           /\ feedback st'
              = feedback st
                ++ [ {| Feedback.feedback_id := feedback_seq st;
                        Feedback.user_id := user_id;
                        Feedback.feedback_type := "neutral";
                        Feedback.feedback_time :=
                          utcnow (rag_env aenv) (clock (world st)) |} ]
           /\ chat_history st'
              = chat_history st
                ++ [ {| ChatHistory.chat_id := chat_seq st;
                        ChatHistory.user_id := user_id;
                        ChatHistory.question := question;
                        ChatHistory.answer := answer;
                        ChatHistory.game_id := game_id;
                        ChatHistory.feedback_id := Some (feedback_seq st);
                        ChatHistory.is_related := is_related;
                        ChatHistory.timestamp :=
                          utcnow (rag_env aenv) (S (S (S (clock (world st))))) |} ]
       end.
Proof.
  unfold save_chat_history_to_db. app_unfold. cbn.
  destruct (db_fault aenv (S (clock (world st)))) as [e|]; cbn.
  { eexists _, _. split; [reflexivity |]. by repeat split. }
  destruct (db_fault aenv (S (S (clock (world st))))) as [e|]; cbn.
  { eexists _, _. split; [reflexivity |]. by repeat split. }
  destruct (db_fault aenv (S (S (S (S (clock (world st))))))) as [e|]; cbn.
  { eexists _, _. split; [reflexivity |]. by repeat split. }
  destruct (db_fault aenv (S (S (S (S (S (clock (world st)))))))) as [e|]; cbn;
    eexists _, _; (split; [reflexivity |]); by repeat split.
Qed.

(** What a call of [save_chat_history_to_db] without a feedback id does
    to the tables. *)
Lemma save_chat_history_to_db_shape (aenv : AppEnv) (user_id : Z)
    (question answer : string) (game_id : py_value) (is_related : bool)
    (st : AppState) :
  exists o st' new_feedback new_chat,
    save_chat_history_to_db aenv user_id question answer game_id None is_related st
    = (Return o, st')
    /\ (o = (None, None) \/ o = (Some (feedback_seq st), Some (chat_seq st)))
    /\ feedback st' = feedback st ++ new_feedback
    /\ chat_history st' = chat_history st ++ new_chat
    /\ (length new_chat <= length new_feedback <= 1)%nat
    /\ Forall (fun r => Feedback.feedback_type r = "neutral"
                        /\ Feedback.user_id r = user_id
                        /\ Feedback.feedback_id r = feedback_seq st) new_feedback
    /\ Forall (fun r => ChatHistory.feedback_id r = Some (feedback_seq st)
                        /\ ChatHistory.chat_id r = chat_seq st
                        /\ ChatHistory.user_id r = user_id
                        /\ ChatHistory.question r = question
                        /\ ChatHistory.answer r = answer
                        /\ ChatHistory.game_id r = game_id
                        /\ ChatHistory.is_related r = is_related) new_chat
    /\ (o <> (None, None) -> length new_chat = 1%nat).
Proof.
  destruct (save_chat_history_to_db_run aenv user_id question answer game_id
              is_related st) as (o & st' & Hrun & _ & _ & Hcase).
  assert (Hfail : forall new_feedback,
            (length new_feedback <= 1)%nat ->
            Forall (fun r => Feedback.feedback_type r = "neutral"
                             /\ Feedback.user_id r = user_id
                             /\ Feedback.feedback_id r = feedback_seq st)
                   new_feedback ->
            o = (None, None)
            /\ feedback st' = feedback st ++ new_feedback
            /\ chat_history st' = chat_history st ->
            exists o st' new_feedback new_chat,
              save_chat_history_to_db aenv user_id question answer game_id None
                is_related st = (Return o, st')
              /\ (o = (None, None)
                  \/ o = (Some (feedback_seq st), Some (chat_seq st)))
              /\ feedback st' = feedback st ++ new_feedback
              /\ chat_history st' = chat_history st ++ new_chat
              /\ (length new_chat <= length new_feedback <= 1)%nat
              /\ Forall (fun r => Feedback.feedback_type r = "neutral"
                                  /\ Feedback.user_id r = user_id
                                  /\ Feedback.feedback_id r = feedback_seq st)
                        new_feedback
              /\ Forall (fun r => ChatHistory.feedback_id r = Some (feedback_seq st)
                                  /\ ChatHistory.chat_id r = chat_seq st
                                  /\ ChatHistory.user_id r = user_id
                                  /\ ChatHistory.question r = question
                                  /\ ChatHistory.answer r = answer
                                  /\ ChatHistory.game_id r = game_id
                                  /\ ChatHistory.is_related r = is_related) new_chat
              /\ (o <> (None, None) -> length new_chat = 1%nat)).
  { intros new_feedback Hlen Hall (-> & Hf & Hc).
    exists (None, None), st', new_feedback, [].
    rewrite List.app_nil_r. split; [exact Hrun |]. split; [by left |].
    do 2 (split; [done |]). split; [simpl; lia |]. split; [exact Hall |].
    split; [apply Forall_nil_2 | done]. }
  destruct (db_fault aenv (S (clock (world st)))) as [e1|].
  { apply (Hfail []); [simpl; lia | apply Forall_nil_2 |].
    by rewrite List.app_nil_r. }
  destruct (db_fault aenv (S (S (clock (world st))))) as [e2|].
  { eapply (Hfail [_]); [simpl; lia | | exact Hcase].
    by apply Forall_singleton. }
  destruct (db_fault aenv (S (S (S (S (clock (world st))))))) as [e3|].
  { eapply (Hfail [_]); [simpl; lia | | exact Hcase].
    by apply Forall_singleton. }
  destruct Hcase as (-> & Hf & Hc). eexists _, st', [_], [_].
  split; [exact Hrun |].
  split; [destruct (db_fault aenv _); auto |].
  do 2 (split; [done |]). split; [simpl; lia |].
  split; [by apply Forall_singleton |].
  split; [by apply Forall_singleton | done].
Qed.

(** X20.  [save_chat_history_to_db] never raises, and for a chat turn
    without a feedback it returns either two ids or [(None, None)].  It
    only appends: at most one feedback row, of type neutral, and at most
    one chat row, which refers to that feedback row. *)
Theorem save_chat_history_to_db_appends (aenv : AppEnv) (user_id : Z)
    (question answer : string) (game_id : py_value) (is_related : bool)
    (st : AppState) :
  exists o st' new_feedback new_chat,
    save_chat_history_to_db aenv user_id question answer game_id None is_related st
    = (Return o, st')
    /\ (o = (None, None) \/ o = (Some (feedback_seq st), Some (chat_seq st)))
    /\ feedback st' = feedback st ++ new_feedback
    /\ chat_history st' = chat_history st ++ new_chat
    /\ (length new_chat <= length new_feedback <= 1)%nat
    /\ Forall (fun r => Feedback.feedback_type r = "neutral"
                        /\ Feedback.user_id r = user_id
                        /\ Feedback.feedback_id r = feedback_seq st) new_feedback
    /\ Forall (fun r => ChatHistory.feedback_id r = Some (feedback_seq st)
                        /\ ChatHistory.chat_id r = chat_seq st
                        /\ ChatHistory.user_id r = user_id
                        /\ ChatHistory.question r = question
                        /\ ChatHistory.answer r = answer
                        /\ ChatHistory.game_id r = game_id
                        /\ ChatHistory.is_related r = is_related) new_chat
    /\ (o <> (None, None) -> length new_chat = 1%nat).
Proof.
  apply save_chat_history_to_db_shape.
Qed.

(** X21.  The two inserts of [save_chat_history_to_db] are not one
    transaction: when the neutral feedback is stored and the insert of the
    chat row fails, the function returns [(None, None)] while the feedback
    row stays in the table, referred to by no chat row. *)
Theorem save_chat_history_to_db_leaves_feedback (aenv : AppEnv) (user_id : Z)
    (question answer : string) (game_id : py_value) (is_related : bool)
    (st : AppState) (e : exn) :
  db_fault aenv (S (clock (world st))) = None ->
  db_fault aenv (S (S (clock (world st)))) = None ->
  db_fault aenv (S (S (S (S (clock (world st)))))) = Some e ->
  exists st',
    save_chat_history_to_db aenv user_id question answer game_id None is_related st
    = (Return (None, None), st')
    /\ feedback st'
       = feedback st
         ++ [ {| Feedback.feedback_id := feedback_seq st;
                 Feedback.user_id := user_id;
                 Feedback.feedback_type := "neutral";
                 Feedback.feedback_time :=
                   utcnow (rag_env aenv) (clock (world st)) |} ]
    /\ chat_history st' = chat_history st.
Proof.
  intros H1 H2 H3.
  destruct (save_chat_history_to_db_run aenv user_id question answer game_id
              is_related st) as (o & st' & Hrun & _ & _ & Hcase).
  rewrite H1, H2, H3 in Hcase. destruct Hcase as (-> & Hf & Hc).
  by exists st'.
Qed.

(** The database fails at the fifth external call, the insert of the chat
    row. *)
Lemma save_chat_history_to_db_leaves_feedback_witness :
  exists st',
    save_chat_history_to_db (faulty_app [4%nat]) 7 "What are the rules of chess?"
      "Chess is played on an 8x8 board..." (PStr "G1") None true fresh_app
    = (Return (None, None), st')
    /\ feedback st'
       = [] ++ [ {| Feedback.feedback_id := 1;
                    Feedback.user_id := 7;
                    Feedback.feedback_type := "neutral";
                    Feedback.feedback_time := 1700000000 |} ]
    /\ chat_history st' = [].
Proof.
  refine (save_chat_history_to_db_leaves_feedback (faulty_app [4%nat]) 7
            "What are the rules of chess?" "Chess is played on an 8x8 board..."
            (PStr "G1") true fresh_app connection_error _ _ _);
    reflexivity.
Defined.

(** A chat turn saved on a working database. *)
Example save_chat_history_to_db_works :
  (save_chat_history_to_db healthy_app 7 "What are the rules of chess?"
     "Chess is played on an 8x8 board..." (PStr "G1") None true fresh_app).1
  = Return (Some 1, Some 1).
Proof. vm_compute. reflexivity. Qed.

(** * app.py: the Get Answer button *)

Section ButtonFacts.

Variable aenv : AppEnv.

Lemma app_grows_refl (q : string) (st : AppState) : app_grows q st st.
Proof. exists [], []. rewrite !List.app_nil_r. by repeat split. Qed.

Lemma app_grows_trans (q : string) (st1 st2 st3 : AppState) :
  app_grows q st1 st2 -> app_grows q st2 st3 -> app_grows q st1 st3.
Proof.
  intros (f1 & c1 & Hf1 & Hc1 & H1) (f2 & c2 & Hf2 & Hc2 & H2).
  exists (f1 ++ f2), (c1 ++ c2). rewrite Hf2, Hf1, Hc2, Hc1, !List.app_assoc.
  repeat split. by apply Forall_app.
Qed.

(** A state that differs only outside the two tables. *)
Lemma app_grows_same (q : string) (st st' : AppState) :
  feedback st' = feedback st -> chat_history st' = chat_history st ->
  app_grows q st st'.
Proof. intros Hf Hc. exists [], []. rewrite Hf, Hc, !List.app_nil_r. by repeat split. Qed.

Lemma keeps_ret {A} (q : string) (a : A) : keeps q (app_ret a).
Proof. intros st. apply app_grows_refl. Qed.

Lemma keeps_raise {A} (q : string) (e : exn) : keeps q (@app_raise A e).
Proof. intros st. apply app_grows_refl. Qed.

Lemma keeps_bind {A B} (q : string) (c : App A) (k : A -> App B) :
  keeps q c -> (forall a, keeps q (k a)) -> keeps q (app_bind c k).
Proof.
  intros Hc Hk st. unfold app_bind. specialize (Hc st).
  destruct (c st) as [[a|e] st1]; simpl in *; [| exact Hc].
  eapply app_grows_trans; [exact Hc | apply Hk].
Qed.

Lemma keeps_try {A} (q : string) (body : App A) (handler : exn -> App A) :
  keeps q body -> (forall e, keeps q (handler e)) -> keeps q (app_try body handler).
Proof.
  intros Hb Hh st. unfold app_try. specialize (Hb st).
  destruct (body st) as [[a|e] st1]; simpl in *; [exact Hb |].
  eapply app_grows_trans; [exact Hb | apply Hh].
Qed.

Lemma keeps_show (q : string) (ev : ui_event) : keeps q (show ev).
Proof. intros st. by apply app_grows_same. Qed.

Lemma keeps_lift {A} (q : string) (m : M A) : keeps q (lift m).
Proof.
  intros st. unfold lift. destruct (m (world st)) as [o w]. by apply app_grows_same.
Qed.

Lemma keeps_round_trip (q : string) : keeps q (round_trip aenv).
Proof.
  unfold round_trip. apply keeps_bind; [apply keeps_lift |].
  intros n. destruct (db_fault aenv n); [apply keeps_raise | apply keeps_ret].
Qed.

Lemma keeps_session_user_id (q : string) : keeps q session_user_id.
Proof.
  intros st. unfold session_user_id.
  destruct (session_state st !! "user_id") as [[]|]; apply app_grows_refl.
Qed.

Lemma keeps_append_chat_entry (q : string) (entry : chat_entry) :
  keeps q (append_chat_entry entry).
Proof.
  intros st. unfold append_chat_entry.
  destruct (session_state st !! "chat_history") as [[]|];
    first [apply app_grows_refl | by apply app_grows_same].
Qed.

Lemma keeps_show_rewritten (q rq user_query : string) :
  keeps q (show_rewritten rq user_query).
Proof.
  unfold show_rewritten. destruct (_ && _); [apply keeps_show | apply keeps_ret].
Qed.

Lemma keeps_result_message (q : string) (r : AnswerResult) :
  keeps q (result_message r).
Proof.
  unfold result_message. destruct (message r); [apply keeps_ret | apply keeps_raise].
Qed.

Lemma keeps_set_state {A} (q : string) (a : A) (f : AppState -> gmap string ss_value) :
  keeps q (fun st => (Return a, set_session_state st (f st))).
Proof. intros st. by apply app_grows_same. Qed.

Lemma keeps_save_chat_history_to_db (q answer : string) (user_id : Z)
    (game_id : py_value) (is_related : bool) :
  keeps q (save_chat_history_to_db aenv user_id q answer game_id None is_related).
Proof.
  intros st.
  destruct (save_chat_history_to_db_shape aenv user_id q answer game_id
              is_related st)
    as (o & st' & nf & nc & Hrun & _ & Hf & Hc & _ & _ & Hrows & _).
  rewrite Hrun. simpl. exists nf, nc. do 2 (split; [done |]).
  eapply Forall_impl; [exact Hrows |]. simpl. by intros r (_ & _ & _ & Hq & _).
Qed.

Lemma keeps_show_answers (user_query rq : string) (answers : list Answer) :
  keeps (PyStr.strip user_query) (show_answers aenv user_query rq answers).
Proof.
  induction answers as [|ans rest IH]; cbn [show_answers]; [apply keeps_ret |].
  apply keeps_bind; [apply keeps_show | intros _].
  apply keeps_bind; [apply keeps_show | intros _].
  apply keeps_bind; [apply keeps_session_user_id | intros uid].
  apply keeps_bind; [apply keeps_save_chat_history_to_db | intros ids].
  apply keeps_bind; [apply keeps_append_chat_entry | intros _]. exact IH.
Qed.

Lemma keeps_show_message (user_query : string) (r : AnswerResult) (related : bool) :
  keeps (PyStr.strip user_query) (show_message aenv user_query r related).
Proof.
  unfold show_message.
  apply keeps_bind; [apply keeps_result_message | intros msg].
  apply keeps_bind; [apply keeps_show | intros _].
  apply keeps_bind; [apply keeps_show_rewritten | intros _].
  apply keeps_bind; [apply keeps_session_user_id | intros uid].
  apply keeps_bind; [apply keeps_result_message | intros msg'].
  apply keeps_bind; [apply keeps_save_chat_history_to_db | intros ids].
  apply keeps_bind; [apply keeps_result_message | intros msg''].
  apply keeps_append_chat_entry.
Qed.

Lemma keeps_get_answer_clicked (user_query : string) :
  keeps (PyStr.strip user_query) (get_answer_clicked aenv user_query).
Proof.
  unfold get_answer_clicked, count_chat_history, app_utcnow.
  apply keeps_try; [| intros e; apply keeps_lift].
  apply keeps_bind; [apply keeps_session_user_id | intros uid].
  apply keeps_bind.
  { apply keeps_bind; [apply keeps_round_trip | intros _].
    intros st. apply app_grows_refl. }
  intros question_count. apply keeps_bind.
  - destruct (question_count >=? 3); [apply keeps_show |].
    apply keeps_bind; [apply keeps_show | intros _].
    apply keeps_bind; [apply keeps_session_user_id | intros uid'].
    apply keeps_bind; [apply keeps_lift | intros r].
    destruct (is_related r); [| apply keeps_show_message].
    apply keeps_bind; [apply keeps_show_rewritten | intros _].
    destruct (answers r); [apply keeps_show_answers | apply keeps_show_message].
  - intros _. apply keeps_bind; [apply keeps_lift | intros now].
    apply (keeps_set_state _ tt
             (fun st => <["last_activity" := SSDatetime now]> (session_state st))).
Qed.

(** The handler of the button always returns. *)
Lemma get_answer_clicked_returns (user_query : string) (st : AppState) :
  (get_answer_clicked aenv user_query st).1 = Return tt.
Proof.
  unfold get_answer_clicked, app_try.
  match goal with |- context [match ?body st with _ => _ end] =>
    destruct (body st) as [[[]|e] st1]
  end; [reflexivity |].
  unfold lift, report, st_error, bind, emit. reflexivity.
Qed.

End ButtonFacts.



(** X23.  A click on Get Answer never ends in an exception, whatever the
    session state holds and whatever the collaborators do; the feedback
    and chat tables only gain rows, and every chat row gained is for the
    trimmed question. *)
Theorem get_answer_clicked_never_raises (aenv : AppEnv) (user_query : string)
    (st : AppState) :
  exists st' new_feedback new_chat,
    get_answer_clicked aenv user_query st = (Return tt, st')
    /\ feedback st' = feedback st ++ new_feedback
    /\ chat_history st' = chat_history st ++ new_chat
    /\ Forall (fun r => ChatHistory.question r = PyStr.strip user_query) new_chat.
Proof.
  pose proof (get_answer_clicked_returns aenv user_query st) as Hret.
  pose proof (keeps_get_answer_clicked aenv user_query st) as (nf & nc & Hf & Hc & Hq).
  destruct (get_answer_clicked aenv user_query st) as [o st'] eqn:Hrun.
  simpl in *. subst o. by exists st', nf, nc.
Qed.

Section ButtonWorking.

Variable aenv : AppEnv.
Hypothesis db_works : forall n, db_fault aenv n = None.

#[local] Arguments get_answer : simpl never.
#[local] Arguments save_chat_history_to_db : simpl never.
#[local] Arguments show_answers : simpl never.
#[local] Arguments show_message : simpl never.







End ButtonWorking.



(** * weaviate_setup.py *)

Section SetupFacts.

Variable senv : SetupEnv.

Lemma get_weaviate_client_run (st : SetupState) :
  exists o st',
    get_weaviate_client senv st = (o, st')
    /\ setup_trace st' = setup_trace st
    /\ same_flags st st'.
Proof.
  unfold get_weaviate_client, secret, setup_bind, setup_ret, setup_raise.
  destruct (secrets senv !! "WEAVIATE") as [entries|]; [| by eexists _, _].
  destruct (entries !! "URL") as [url|]; [| by eexists _, _].
  destruct (entries !! "API_KEY") as [key|]; by eexists _, _.
Qed.

(** The dict built for a row has no description. *)
Lemma game_data_no_description (gameId gameName : string) :
  (<["gameName" := gameName]> (<["gameId" := gameId]> ∅) : gmap string string)
    !! "description" = None.
Proof. by rewrite !lookup_insert_ne, lookup_empty. Qed.

(** The loop of [ingest_data] stops at its first row with a [KeyError],
    before it calls the encoder or the store. *)
Lemma ingest_rows_run (rows : list (gmap string py_value)) (st : SetupState) :
  match rows with
  | [] => ingest_rows senv rows st = (Return tt, st)
  | row :: _ =>
      exists key,
        ingest_rows senv rows st = (Raise (KeyError key), st)
        /\ key ∈ ["gameId"; "gameName"; "description"]
        /\ (is_Some (row !! "gameId") -> is_Some (row !! "gameName") ->
            key = "description")
  end.
Proof.
  destruct rows as [|row rest]; [reflexivity |].
  cbn [ingest_rows]. unfold setup_bind at 1. unfold cell_or at 1.
  destruct (row !! "gameId") as [gid|].
  - replace (match gid with
             | PNone => setup_ret ""
             | _ => setup_ret (py_str gid)
             end st)
      with (@Return string (match gid with
                            | PNone => ""
                            | _ => py_str gid
                            end), st) by (by destruct gid).
    unfold setup_bind at 1. unfold cell_or at 1.
    destruct (row !! "gameName") as [name|].
    + replace (match name with
               | PNone => setup_ret "Unknown Game"
               | _ => setup_ret (py_str name)
               end st)
        with (@Return string (match name with
                              | PNone => "Unknown Game"
                              | _ => py_str name
                              end), st) by (by destruct name).
      unfold setup_bind at 1. rewrite game_data_no_description.
      exists "description". split; [reflexivity |]. split; [in_list | done].
    + exists "gameName". split; [reflexivity |]. split; [in_list |].
      intros _ [x Hx]. discriminate.
  - exists "gameId". split; [reflexivity |]. split; [in_list |].
    intros [x Hx]. discriminate.
Qed.

Lemma omap_snoc_none {A} (f : setup_event -> option A) (t : list setup_event)
    (ev : setup_event) :
  f ev = None -> omap f (t ++ [ev]) = omap f t.
Proof. intros Hf. rewrite omap_app. simpl. by rewrite Hf, List.app_nil_r. Qed.

(** No event of a list written out is a call of the encoder. *)
Ltac not_encode :=
  let text := fresh "text" in
  let Hin := fresh "Hin" in
  intros text Hin;
  repeat (apply elem_of_cons in Hin as [Hin | Hin]; [discriminate |]);
  by apply elem_of_nil in Hin.

(** What [ingest_data] does, whatever the collaborators answer. *)
Lemma ingest_data_run (st : SetupState) :
  exists o st' t,
    ingest_data senv st = (o, st')
    /\ setup_trace st' = setup_trace st ++ t
    /\ same_flags st st'
    /\ objects_created t = []
    /\ classes_created t = []
    /\ schema_reads t = []
    /\ (forall text, EncodeText text ∉ t).
Proof.
  unfold ingest_data. unfold setup_bind at 1.
  destruct (get_weaviate_client_run st) as (o1 & st1 & -> & Ht1 & Hf1).
  destruct o1 as [[]|e].
  2: { exists (Raise e), st1, []. rewrite List.app_nil_r.
       repeat split; try done; try apply Hf1; try not_encode. }
  unfold setup_bind at 1, setup_call at 1.
  destruct (aggregate_count senv (setup_clock st1)) as [[count|]|e].
  3: { eexists _, _, [AggregateGame]. split; [reflexivity |]. cbn. rewrite Ht1.
       repeat split; try done; try apply Hf1; try not_encode. }
  2: { unfold setup_bind, setup_raise. eexists _, _, [AggregateGame].
       split; [reflexivity |]. cbn. rewrite Ht1.
       repeat split; try done; try apply Hf1; try not_encode. }
  unfold setup_bind at 1, setup_ret at 1.
  destruct (count =? 0).
  2: { eexists _, _, [AggregateGame]. split; [reflexivity |]. cbn. rewrite Ht1.
       repeat split; try done; try apply Hf1; try not_encode. }
  unfold setup_bind at 1, setup_call at 1. cbn [setup_clock].
  destruct (SentenceTransformer senv (S (setup_clock st1)) "all-MiniLM-L6-v2") as [e|];
    cbn [or_raise].
  { eexists _, _, [_; _]. split; [reflexivity |]. cbn. rewrite Ht1, <- List.app_assoc.
    repeat split; try done; try apply Hf1; try not_encode. }
  unfold setup_bind at 1, setup_call at 1. cbn [setup_clock].
  destruct (read_csv senv (S (S (setup_clock st1))) "data/game-dataset.csv")
    as [rows|e].
  2: { eexists _, _, [_; _; _]. split; [reflexivity |]. cbn.
       rewrite Ht1, <- !List.app_assoc.
       repeat split; try done; try apply Hf1; try not_encode. }
  unfold setup_bind at 1.
  match goal with |- context [ingest_rows senv rows ?s] =>
    pose proof (ingest_rows_run rows s) as Hrows
  end.
  destruct rows as [|row rest].
  - rewrite Hrows. unfold setup_emit. eexists _, _, [_; _; _; _].
    split; [reflexivity |]. cbn. rewrite Ht1, <- !List.app_assoc.
    repeat split; try done; try apply Hf1; try not_encode.
  - destruct Hrows as (key & -> & _). eexists _, _, [_; _; _].
    split; [reflexivity |]. cbn. rewrite Ht1, <- !List.app_assoc.
    repeat split; try done; try apply Hf1; try not_encode.
Qed.

(** What [create_schema] does, whatever the collaborators answer. *)
Lemma create_schema_run (st : SetupState) :
  exists o st' t,
    create_schema senv st = (o, st')
    /\ setup_trace st' = setup_trace st ++ t
    /\ same_flags st st'
    /\ objects_created t = []
    /\ (classes_created t = [] \/ classes_created t = [game_class_schema])
    /\ (forall st1 classes,
          get_weaviate_client senv st = (Return tt, st1) ->
          schema_get senv (setup_clock st1) = Return (Some classes) ->
          "Game" ∈ classes ->
          o = Return tt /\ t = [SchemaGet]).
Proof.
  unfold create_schema. unfold setup_bind at 1.
  destruct (get_weaviate_client_run st) as (o1 & st1 & Hclient & Ht1 & Hf1).
  rewrite Hclient. destruct o1 as [[]|e].
  2: { exists (Raise e), st1, []. rewrite List.app_nil_r.
       split; [done |]. split; [done |]. split; [exact Hf1 |].
       split; [done |]. split; [by left |]. intros; discriminate. }
  unfold setup_bind at 1, setup_call at 1.
  destruct (schema_get senv (setup_clock st1)) as [schema|e] eqn:Hget.
  2: { eexists _, _, [SchemaGet]. split; [reflexivity |]. cbn. rewrite Ht1.
       split; [done |]. split; [exact Hf1 |]. split; [done |]. split; [by left |].
       intros st1' classes Heq. injection Heq as <-. by rewrite Hget. }
  case_bool_decide as Hgame; cbn [negb].
  - eexists _, _, [SchemaGet]. split; [reflexivity |]. cbn. rewrite Ht1.
    split; [done |]. split; [exact Hf1 |]. split; [done |]. split; [by left |].
    done.
  - assert (Hlisted : forall st1' classes,
              (@Return unit tt, st1) = (Return tt, st1') ->
              schema_get senv (setup_clock st1') = Return (Some classes) ->
              "Game" ∈ classes -> False).
    { intros st1' classes Heq Hc Hin. injection Heq as <-.
      rewrite Hget in Hc. injection Hc as ->. by apply Hgame. }
    unfold setup_bind at 1, setup_call at 1. cbn [setup_clock].
    destruct (schema_create_class senv (S (setup_clock st1)) game_class_schema)
      as [e|]; cbn [or_raise].
    + eexists _, _, [_; _]. split; [reflexivity |]. cbn.
      rewrite Ht1, <- List.app_assoc.
      split; [done |]. split; [exact Hf1 |]. split; [done |]. split; [by right |].
      intros st1' classes Heq Hc Hin. by destruct (Hlisted st1' classes).
    + unfold setup_emit. eexists _, _, [_; _; _]. split; [reflexivity |]. cbn.
      rewrite Ht1, <- !List.app_assoc.
      split; [done |]. split; [exact Hf1 |]. split; [done |]. split; [by right |].
      intros st1' classes Heq Hc Hin. by destruct (Hlisted st1' classes).
Qed.

End SetupFacts.

(** X25.  [ingest_data] never gives an object to the vector store and
    never calls the encoder, whatever the store and the dataset are. *)
Theorem ingest_data_creates_no_object (senv : SetupEnv) (st : SetupState) :
  exists o st' t,
    ingest_data senv st = (o, st')
    /\ setup_trace st' = setup_trace st ++ t
    /\ objects_created t = []
    /\ (forall text, EncodeText text ∉ t).
Proof.
  destruct (ingest_data_run senv st) as (o & st' & t & Hrun & Ht & _ & Hobj & _ & _ & Henc).
  by exists o, st', t.
Qed.

(** X26.  On an empty store with a dataset that has a row, [ingest_data]
    raises a [KeyError] at the first row, before anything is encoded or
    stored and without the completion message: the dict built for a row
    has no ['description'], the key it reads next. *)
Theorem ingest_data_first_row_raises (senv : SetupEnv) (st st1 : SetupState)
    (row : gmap string py_value) (rest : list (gmap string py_value)) :
  get_weaviate_client senv st = (Return tt, st1) ->
  aggregate_count senv (setup_clock st1) = Return (Some 0) ->
  SentenceTransformer senv (S (setup_clock st1)) "all-MiniLM-L6-v2" = None ->
  read_csv senv (S (S (setup_clock st1))) "data/game-dataset.csv"
  = Return (row :: rest) ->
  exists key st',
    ingest_data senv st = (Raise (KeyError key), st')
    /\ key ∈ ["gameId"; "gameName"; "description"]
    /\ (is_Some (row !! "gameId") -> is_Some (row !! "gameName") ->
        key = "description")
    /\ setup_trace st'
       = setup_trace st1 ++ [ AggregateGame;
                              LoadSentenceTransformer "all-MiniLM-L6-v2";
                              ReadCsv "data/game-dataset.csv" ].
Proof.
  intros Hclient Hcount Hmodel Hcsv.
  unfold ingest_data. unfold setup_bind at 1. rewrite Hclient.
  unfold setup_bind at 1, setup_call at 1. rewrite Hcount.
  unfold setup_bind at 1, setup_ret at 1. cbn [Z.eqb].
  unfold setup_bind at 1, setup_call at 1. cbn [setup_clock]. rewrite Hmodel.
  cbn [or_raise].
  unfold setup_bind at 1, setup_call at 1. cbn [setup_clock]. rewrite Hcsv.
  unfold setup_bind at 1.
  match goal with |- context [ingest_rows senv (row :: rest) ?s] =>
    destruct (ingest_rows_run senv (row :: rest) s) as (key & -> & Hkey & Hdesc)
  end.
  exists key. eexists. split; [reflexivity |]. cbn [setup_trace].
  rewrite <- !List.app_assoc. by repeat split.
Qed.

(** An empty store and a dataset of one full row. *)
Lemma ingest_data_first_row_raises_witness :
  exists key st',
    ingest_data (working_setup [chess_row]) module_loaded = (Raise (KeyError key), st')
    /\ key ∈ ["gameId"; "gameName"; "description"]
    /\ (is_Some (chess_row !! "gameId") -> is_Some (chess_row !! "gameName") ->
        key = "description")
    /\ setup_trace st'
       = [] ++ [ AggregateGame;
                 LoadSentenceTransformer "all-MiniLM-L6-v2";
                 ReadCsv "data/game-dataset.csv" ].
Proof.
  refine (ingest_data_first_row_raises (working_setup [chess_row]) module_loaded
            {| schema_initialized := false; data_ingested := false;
               setup_clock := 1; setup_trace := [] |}
            chess_row [] _ _ _ _).
  - vm_compute. reflexivity.
  - reflexivity.
  - reflexivity.
  - reflexivity.
Defined.




(** X28.  [create_schema] creates at most one class, and only the class
    Game; when the store already lists a class Game it creates nothing and
    returns. *)
Theorem create_schema_only_if_missing (senv : SetupEnv) (st : SetupState) :
  exists o st' t,
    create_schema senv st = (o, st')
    /\ setup_trace st' = setup_trace st ++ t
    /\ (classes_created t = [] \/ classes_created t = [game_class_schema])
    /\ (forall st1 classes,
          get_weaviate_client senv st = (Return tt, st1) ->
          schema_get senv (setup_clock st1) = Return (Some classes) ->
          "Game" ∈ classes ->
          o = Return tt /\ classes_created t = []).
Proof.
  destruct (create_schema_run senv st)
    as (o & st' & t & Hrun & Ht & _ & _ & Hcls & Hlisted).
  exists o, st', t. do 3 (split; [done |]).
  intros st1 classes Hclient Hget Hin.
  destruct (Hlisted st1 classes Hclient Hget Hin) as [-> ->]. by split.
Qed.

(** The first call of the setup on an empty store with a dataset of one
    row: the class is created, then the ingestion raises. *)
Example initialize_weaviate_first_call :
  initialize_weaviate (working_setup [chess_row]) module_loaded
  = (Raise (KeyError "description"),
     {| schema_initialized := true; data_ingested := false; setup_clock := 7;
        setup_trace :=
          [ SchemaGet; SchemaCreateClass game_class_schema;
            SetupWrite "✅ Schema for 'Game' class created successfully.";
            AggregateGame; LoadSentenceTransformer "all-MiniLM-L6-v2";
            ReadCsv "data/game-dataset.csv" ] |}).
Proof. vm_compute. reflexivity. Qed.
